(** * Skyclean: mixing matrix [F] and constraint vector [f]

    A shallow embedding of [skyclean/silc/mixing_matrix_constraint.py]:
    [find_f_from_names], [SpectralVector.build_F_theory],
    [SpectralVector.build_F_empirical], [SpectralVector.get_F] and
    [ILCConstraints.find_f_from_extract_comp].

    Conventions of the embedding.
    - A Python [float] / numpy [float64] is a primitive binary64 [float];
      [+ - * /] are the IEEE operations, and an array operation is the
      operation on each entry.  [np.exp], [**] with a float exponent,
      [ndarray.mean] and [float(s)] on text other than a plain decimal
      integer are the fields of a record [Numerics]: their values are not
      computed here.
    - A 1-D array is a [list float]; a 2-D array is a record carrying its
      shape and its rows.
    - A [str] is a [string] of bytes; [str.lower] and [repr] are modelled on
      ASCII text, which is what component names and frequency tags are:
      [lower] folds the letters [A] to [Z] and leaves every other byte as it
      is.  A property that rests on the folding of names assumes that the
      names are ASCII text ([isascii]).
    - A [dict] is an association list kept in insertion order.
    - A raised exception is the [Raise] case of [result].
    - The file system and healpy are the fields of a record [World].
    - The two [print] calls, which only write the result to standard
      output, are left out.

    And of the class [DownloadData] of [skyclean/silc/download.py], which
    fetches the maps and draws the CMB realisations: its conventions are
    given with its definitions. *)

From Stdlib Require Import Floats Uint63 ZArith String Ascii List Bool.
From stdpp Require Import base list strings gmap pretty.

Set Warnings "-inexact-float,-clear-no-such-hyp".
Local Open Scope string_scope.
Local Open Scope list_scope.

(** ** Python values *)

Module Py.

(** Exceptions, by class.  [ValueError] carries its message; the others
    carry what they complain about. *)
Inductive exn : Type :=
  | ValueError (msg : string)
  | TypeError (what : string)
  | KeyError (key : string)
  | IndexError (what : string)
  | OSError (path : string).

Inductive result (A : Type) : Type :=
  | Ok (a : A)
  | Raise (e : exn).
Arguments Ok {A} a.
Arguments Raise {A} e.

Definition bind {A B : Type} (k : A -> result B) (r : result A) : result B :=
  match r with
  | Ok a => k a
  | Raise e => Raise e
  end.

#[global] Instance result_ret : MRet result := fun A a => Ok a.
#[global] Instance result_bind : MBind result := fun A B k r => bind k r.
#[global] Instance result_fmap : FMap result :=
  fun A B g r => bind (fun a => Ok (g a)) r.

(** [[g(x) for x in l]] where [g] may raise: the first exception wins. *)
Fixpoint comprehension {A B : Type} (g : A -> result B) (l : list A)
  : result (list B) :=
  match l with
  | [] => Ok []
  | x :: rest =>
      y ← g x; ys ← comprehension g rest; Ok (y :: ys)
  end.

(** *** [str] *)

Definition is_upper (c : ascii) : bool :=
  let n := nat_of_ascii c in (65 <=? n)%nat && (n <=? 90)%nat.

Definition lower_char (c : ascii) : ascii :=
  if is_upper c then ascii_of_nat (nat_of_ascii c + 32) else c.

(** [s.lower()], for ASCII text. *)
Fixpoint lower (s : string) : string :=
  match s with
  | EmptyString => EmptyString
  | String c rest => String (lower_char c) (lower rest)
  end.


Fixpoint contains_char (c : ascii) (s : string) : bool :=
  match s with
  | EmptyString => false
  | String d rest => Ascii.eqb c d || contains_char c rest
  end.

(** [needle in haystack] for two strings. *)
Fixpoint is_substring (needle haystack : string) : bool :=
  String.prefix needle haystack ||
  match haystack with
  | EmptyString => false
  | String _ rest => is_substring needle rest
  end.

Definition squote : ascii := ascii_of_nat 39.
Definition dquote : ascii := ascii_of_nat 34.
Definition backslash : ascii := ascii_of_nat 92.

Definition hex_digit (n : nat) : ascii :=
  if (n <? 10)%nat then ascii_of_nat (48 + n) else ascii_of_nat (87 + n).

(** One character of [repr(s)], [q] being the quote [repr] chose. *)
Definition repr_char (q : ascii) (c : ascii) : string :=
  let n := nat_of_ascii c in
  if Ascii.eqb c q || Ascii.eqb c backslash then String backslash (String c EmptyString)
  else if (n =? 9)%nat then String backslash "t"
  else if (n =? 10)%nat then String backslash "n"
  else if (n =? 13)%nat then String backslash "r"
  else if (n <? 32)%nat || (n =? 127)%nat then
    String backslash (String "x" (String (hex_digit (n / 16)) (String (hex_digit (n mod 16)) EmptyString)))
  else String c EmptyString.

Fixpoint repr_body (q : ascii) (s : string) : string :=
  match s with
  | EmptyString => EmptyString
  | String c rest => repr_char q c +:+ repr_body q rest
  end.

(** [repr(s)], for ASCII text: single quotes, unless [s] has a single
    quote and no double quote. *)
Definition repr_str (s : string) : string :=
  let q := if contains_char squote s && negb (contains_char dquote s)
           then dquote else squote in
  String q (repr_body q s +:+ String q EmptyString).

Fixpoint join (sep : string) (l : list string) : string :=
  match l with
  | [] => EmptyString
  | [x] => x
  | x :: rest => x +:+ sep +:+ join sep rest
  end.

(** [repr(l)] of a list of strings, which is also what an f-string prints
    for it. *)
Definition repr_list (l : list string) : string :=
  "[" +:+ join ", " (map repr_str l) +:+ "]".

(** *** [list] *)

(** [l.index(key)]: the first position holding [key], [None] where Python
    raises [ValueError]. *)
Fixpoint index (key : string) (l : list string) : option nat :=
  match l with
  | [] => None
  | x :: rest => if decide (x = key) then Some 0 else S <$> index key rest
  end.

(** *** [dict], in insertion order *)

Definition dict (V : Type) : Type := list (string * V).

Fixpoint dict_get {V : Type} (d : dict V) (k : string) : option V :=
  match d with
  | [] => None
  | (k', v) :: rest => if decide (k' = k) then Some v else dict_get rest k
  end.

(** [d[k] = v]: an existing key keeps its place, a new one goes last. *)
Fixpoint dict_set {V : Type} (d : dict V) (k : string) (v : V) : dict V :=
  match d with
  | [] => [(k, v)]
  | (k', v') :: rest =>
      if decide (k' = k) then (k', v) :: rest else (k', v') :: dict_set rest k v
  end.

(** [k in d] *)
Definition dict_mem {V : Type} (d : dict V) (k : string) : bool :=
  match dict_get d k with Some _ => true | None => false end.

(** [list(d.keys())] *)
Definition dict_keys {V : Type} (d : dict V) : list string := map fst d.

(** [d[k]], raising [KeyError] on a missing key. *)
Definition getitem {V : Type} (d : dict V) (k : string) : result V :=
  match dict_get d k with
  | Some v => Ok v
  | None => Raise (KeyError k)
  end.

(** *** [float(s)]

    Computed for unsigned decimal integers of at most 18 digits, which
    covers every frequency tag of the repository (['030'] ... ['857']): the
    conversion is exact below 2^53 and rounds to nearest beyond.  Any other
    text is handed to [rest], which stands for what [float] does with it
    (a number, or [ValueError]). *)

Definition digit_value (c : ascii) : option Z :=
  let n := nat_of_ascii c in
  if (48 <=? n)%nat && (n <=? 57)%nat then Some (Z.of_nat (n - 48)) else None.

Fixpoint digits_value (acc : Z) (s : string) : option Z :=
  match s with
  | EmptyString => Some acc
  | String c rest =>
      match digit_value c with
      | Some d => digits_value (10 * acc + d) rest
      | None => None
      end
  end.

Definition float_of_str (rest : string -> result float) (s : string) : result float :=
  match s with
  | EmptyString => Raise (ValueError "could not convert string to float: ''")
  | _ =>
      match digits_value 0 s with
      | Some z =>
          if (String.length s <=? 18)%nat then Ok (PrimFloat.of_uint63 (Uint63.of_Z z))
          else rest s
      | None => rest s
      end
  end.

End Py.

Export Py.

(** ** [find_f_from_names] *)

(** The [selected] argument: one name, or a list of names. *)
Inductive selection : Type :=
  | One (name : string)
  | Several (names : list string).

(** [if isinstance(selected, (str, bytes)): selected = [selected]] *)
Definition as_list (selected : selection) : list string :=
  match selected with
  | One name => [name]
  | Several names => names
  end.

(** [f"{name} not in component_names={component_names}"] *)
Definition not_found_message (name : string) (component_names : list string) : string :=
  name +:+ " not in component_names=" +:+ repr_list component_names.

(** The body of [for name in selected], on the state [(f, idxs)]. *)
Fixpoint find_loop (component_names names_lower : list string)
    (selected : list string) (f : list float) (idxs : list nat)
  : result (list float * list nat) :=
  match selected with
  | [] => Ok (f, idxs)
  | name :: rest =>
      let key := lower name in
      match index key names_lower with
      | None =>
          Raise (ValueError (not_found_message name component_names))
      | Some idx =>
          if decide (idx ∈ idxs)
          then find_loop component_names names_lower rest f idxs
          else find_loop component_names names_lower rest
                 (<[idx := 1%float]> f) (idxs ++ [idx])
      end
  end.

Definition find_f_from_names (component_names : list string) (selected : selection)
  : result (list float * list nat) :=
  let selected := as_list selected in
  let names_lower := map lower component_names in
  let f := replicate (length component_names) 0%float in
  find_loop component_names names_lower selected f [].


(** ** numpy and the numeric routines *)

Module Np.

(** The numeric routines of numpy and Python whose values the embedding
    does not compute. *)
Record Numerics : Type := {
  np_exp : float -> float;              (* np.exp, on one entry *)
  np_power : float -> float -> float;   (* base ** exponent, on one entry *)
  np_mean : list float -> float;        (* ndarray.mean of a non-empty 1-D array *)
  py_float : string -> result float     (* float(s), for text [float_of_str] does not compute *)
}.

(** A 2-D array: [shape = (rows, columns)] and the rows themselves.  The
    shape is kept apart because an array may have rows of no entries
    ([(n, 0)]) or columns of no entries ([(0, m)]). *)
Record ndarray2 : Type := {
  shape : nat * nat;
  rows : list (list float)
}.

(** [np.zeros((n, m))] *)
Definition zeros2 (n m : nat) : ndarray2 :=
  {| shape := (n, m); rows := replicate n (replicate m 0%float) |}.

(** [np.column_stack(cols)] for 1-D arrays: they must be of one length. *)
Definition column_stack (cols : list (list float)) : result ndarray2 :=
  match cols with
  | [] => Raise (ValueError "need at least one array to concatenate")
  | c :: _ =>
      let n := length c in
      if forallb (fun c' => (length c' =? n)%nat) cols
      then Ok {| shape := (n, length cols);
                 rows := (fun i => (fun c' => default 0%float (c' !! i)) <$> cols) <$> seq 0 n |}
      else Raise (ValueError "all the input array dimensions except for the concatenation axis must match exactly")
  end.

(** [F[:, j]] *)
Definition column (F : ndarray2) (j : nat) : result (list float) :=
  if (j <? (shape F).2)%nat
  then Ok ((fun row => default 0%float (row !! j)) <$> rows F)
  else Raise (IndexError "index out of bounds for axis 1").

(** [F[i, j]], [None] when out of bounds. *)
Definition entry (F : ndarray2) (i j : nat) : option float :=
  row ← rows F !! i; row !! j.

(** [np.nan_to_num(v, nan=0.0, posinf=0.0, neginf=0.0)], on one entry and
    on an array. *)
Definition nan_to_num_entry (x : float) : float :=
  if PrimFloat.is_nan x then 0%float
  else if PrimFloat.is_infinity x then 0%float else x.

Definition nan_to_num (v : list float) : list float := nan_to_num_entry <$> v.

(** [M[b]] for a boolean array [b] as long as [M]. *)
Definition boolean_index (M : list float) (b : list bool) : list float :=
  zip M b ≫= (fun p : float * bool => if p.2 then [p.1] else []).

End Np.

Export Np.

(** ** The world outside: files and healpy

    Reading a map may fail (a missing or damaged file), and so may the
    formatting of a template: [str.format] raises [KeyError] on a field
    other than [frequency] and [realisation], [IndexError] on a positional
    field and [ValueError] on a malformed template.  The other routines
    are taken to return: a mask that was read is a map healpy can regrid. *)

Record World : Type := {
  path_exists : string -> bool;                       (* os.path.exists(path) *)
  read_map : string -> result (list float);           (* hp.read_map(path, verbose=False) *)
  get_nside : list float -> nat;                      (* hp.get_nside(M) *)
  ud_grade : list float -> nat -> list float;         (* hp.ud_grade(mask, nside_out=n, power=0) *)
  format_template : string -> string -> Z -> result string
    (* tmpl.format(frequency=f, realisation=r) *)
}.

(** [os.path.join(a, b)] on POSIX. *)
Definition path_join (a b : string) : string :=
  match b with
  | String "/"%char _ => b
  | _ =>
      if decide (a = "") then b
      else if String.eqb (String.substring (String.length a - 1) 1 a) "/" then a +:+ b
      else a +:+ "/" +:+ b
  end.

(** ** [class SpectralVector] *)

Module SpectralVector.

(** What the three builders return: [(F, F_cols, reference_vectors,
    frequencies_out)]. *)
Record F_result : Type := {
  F : ndarray2;
  F_cols : list string;
  reference_vectors : dict (list float);
  frequencies_out : list string
}.

Definition default_frequencies : list string :=
  ["030"; "044"; "070"; "100"; "143"; "217"; "353"; "545"; "857"].
Definition default_components : list string := ["cmb"; "tsz"; "sync"].
Definition default_beta_s : float := (-3.1)%float.
Definition default_nu0 : float := 30e9%float.

Definition h : float := 6.62607015e-34%float.
Definition k : float := 1.380649e-23%float.
Definition T : float := 2.7255%float.

(** [x = h * nu / (k * T)], one entry. *)
Definition x_of (nu : float) : float := (h * nu / (k * T))%float.

(** [g_nu = (x**2 * np.exp(x)) / (np.exp(x) - 1.0)**2], one entry; numpy
    computes an array to the power [2] as its square. *)
Definition g_of (num : Numerics) (x : float) : float :=
  ((x * x * np_exp num x) / ((np_exp num x - 1) * (np_exp num x - 1)))%float.

(** [x * ((np.exp(x) + 1.0) / (np.exp(x) - 1.0)) - 4.0], one entry. *)
Definition tsz_of (num : Numerics) (x : float) : float :=
  (x * ((np_exp num x + 1) / (np_exp num x - 1)) - 4)%float.

(** [(nu / float(nu0)) ** float(beta_s) / g_nu], one entry. *)
Definition sync_of (num : Numerics) (beta_s nu0 nu g : float) : float :=
  (np_power num (nu / nu0) beta_s / g)%float.

(** [{c: vecs[c] for c in F_cols}] *)
Fixpoint collect {V : Type} (vecs : dict V) (cols : list string) (acc : dict V)
  : result (dict V) :=
  match cols with
  | [] => Ok acc
  | c :: rest => v ← getitem vecs c; collect vecs rest (dict_set acc c v)
  end.

(** [np.column_stack([reference_vectors[c] for c in F_cols]) if F_cols else
    np.zeros((n, 0))] *)
Definition stack_columns (reference_vectors : dict (list float)) (F_cols : list string)
    (n : nat) : result ndarray2 :=
  match F_cols with
  | [] => Ok (zeros2 n 0)
  | _ => cols ← comprehension (getitem reference_vectors) F_cols; column_stack cols
  end.

Definition build_F_theory (num : Numerics) (beta_s nu0 : float)
    (frequencies : option (list string)) (components_order : option (list string))
  : result F_result :=
  let frequencies :=
    match frequencies with None => default_frequencies | Some l => l end in
  values ← comprehension (float_of_str (py_float num)) frequencies;
  let nu := (fun v => v * 1e9)%float <$> values in
  let x := x_of <$> nu in
  let g_nu := g_of num <$> x in
  let vecs : dict (list float) :=
    [ ("cmb", (fun _ => 1%float) <$> nu);
      ("tsz", tsz_of num <$> x);
      ("sync", zip_with (sync_of num beta_s nu0) nu g_nu) ] in
  let F_cols :=
    match components_order with
    | None => ["cmb"; "tsz"; "sync"]
    | Some order =>
        let wanted := lower <$> order in
        filter (fun c => dict_mem vecs c = true) wanted
    end in
  reference_vectors ← collect vecs F_cols [];
  F ← stack_columns reference_vectors F_cols (length nu);
  Ok {| F := F; F_cols := F_cols; reference_vectors := reference_vectors;
        frequencies_out := frequencies |}.

(** The inner function [_mean(path, mask)]. *)
Definition _mean (w : World) (num : Numerics) (path : string) (mask : option (list float))
  : result float :=
  M ← read_map w path;
  let vals :=
    match mask with
    | Some mask =>
        let m := (fun v => PrimFloat.ltb 0 v) <$> ud_grade w mask (get_nside w M) in
        boolean_index M (zip_with andb (PrimFloat.is_finite <$> M) m)
    | None => boolean_index M (PrimFloat.is_finite <$> M)
    end in
  Ok (match vals with [] => 0%float | _ => np_mean num vals end).

(** [c in file_templates and file_templates[c] is not None] *)
Definition has_template (file_templates : dict (option string)) (c : string) : bool :=
  match dict_get file_templates c with
  | Some (Some _) => true
  | _ => false
  end.

(** [for i, f in enumerate(frequencies)], on the state [v]. *)
Fixpoint fill (w : World) (num : Numerics) (base_dir tmpl : string) (realization : Z)
    (mask : option (list float)) (items : list (nat * string)) (v : list float)
  : result (list float) :=
  match items with
  | [] => Ok v
  | (i, f) :: rest =>
      name ← format_template w tmpl f realization;
      let path := path_join base_dir name in
      if path_exists w path
      then m ← _mean w num path mask;
           fill w num base_dir tmpl realization mask rest (<[i := m]> v)
      else fill w num base_dir tmpl realization mask rest v
  end.

(** [enumerate(l)] *)
Definition enumerate {A : Type} (l : list A) : list (nat * A) := zip (seq 0 (length l)) l.

(** [for comp in F_cols], on the state [reference_vectors]. *)
Fixpoint measure (w : World) (num : Numerics) (base_dir : string)
    (file_templates : dict (option string)) (frequencies : list string) (realization : Z)
    (mask : option (list float)) (cols : list string) (reference_vectors : dict (list float))
  : result (dict (list float)) :=
  match cols with
  | [] => Ok reference_vectors
  | comp :: rest =>
      match dict_get file_templates comp with
      | Some (Some tmpl) =>
          let v := replicate (length frequencies) 0%float in
          v ← fill w num base_dir tmpl realization mask (enumerate frequencies) v;
          measure w num base_dir file_templates frequencies realization mask rest
            (dict_set reference_vectors comp (nan_to_num v))
      | Some None => Raise (TypeError "'NoneType' object has no attribute 'format'")
      | None => Raise (KeyError comp)
      end
  end.

(** [components_order or default] *)
Definition or_default (components_order : option (list string)) (default : list string)
  : list string :=
  match components_order with
  | None | Some [] => default
  | Some order => order
  end.

Definition build_F_empirical (w : World) (num : Numerics) (base_dir : string)
    (file_templates : dict (option string)) (frequencies : list string)
    (realization : Z) (mask_path : string) (components_order : option (list string))
  : result F_result :=
  mask ← (if decide (mask_path = "") then Ok None
          else M ← read_map w mask_path; Ok (Some M));
  let default := ["cmb"; "tsz"; "sync"] in
  let wanted := lower <$> or_default components_order default in
  let F_cols := filter (fun c => has_template file_templates c = true) wanted in
  match F_cols with
  | [] => Raise (ValueError "No valid components in file_templates for empirical F.")
  | _ =>
      reference_vectors ←
        measure w num base_dir file_templates frequencies realization mask F_cols [];
      F ← stack_columns reference_vectors F_cols (length frequencies);
      Ok {| F := F; F_cols := F_cols; reference_vectors := reference_vectors;
            frequencies_out := frequencies |}
  end.

(** The keyword arguments [**kwargs] of [get_F]: each parameter name of the
    two builders, given or not, and the other names that were passed. *)
Record kwargs : Type := {
  kw_beta_s : option float;
  kw_nu0 : option float;
  kw_frequencies : option (list string);
  kw_components_order : option (list string);
  kw_base_dir : option string;
  kw_file_templates : option (dict (option string));
  kw_realization : option Z;
  kw_mask_path : option string;
  kw_other : list string
}.

(** [SpectralVector.build_F_theory] called with the keyword arguments [kw]. *)
Definition call_build_F_theory (num : Numerics) (kw : kwargs) : result F_result :=
  match kw_other kw, kw_base_dir kw, kw_file_templates kw, kw_realization kw, kw_mask_path kw with
  | [], None, None, None, None =>
      build_F_theory num (default default_beta_s (kw_beta_s kw))
        (default default_nu0 (kw_nu0 kw)) (kw_frequencies kw) (kw_components_order kw)
  | _, _, _, _, _ => Raise (TypeError "build_F_theory() got an unexpected keyword argument")
  end.

(** [SpectralVector.build_F_empirical] called with the keyword arguments
    [kw]. *)
Definition call_build_F_empirical (w : World) (num : Numerics) (kw : kwargs) : result F_result :=
  match kw_other kw, kw_beta_s kw, kw_nu0 kw with
  | [], None, None =>
      match kw_base_dir kw, kw_file_templates kw, kw_frequencies kw with
      | Some base_dir, Some file_templates, Some frequencies =>
          build_F_empirical w num base_dir file_templates frequencies
            (default 0%Z (kw_realization kw)) (default "" (kw_mask_path kw))
            (kw_components_order kw)
      | _, _, _ => Raise (TypeError "build_F_empirical() missing required positional arguments")
      end
  | _, _, _ => Raise (TypeError "build_F_empirical() got an unexpected keyword argument")
  end.

(** [source] is [None] when the caller leaves it to its default. *)
Definition get_F (w : World) (num : Numerics) (source : option string) (kw : kwargs)
  : result F_result :=
  let source := default "theory" source in
  if decide (source = "theory") then call_build_F_theory num kw
  else if decide (source = "empirical") then call_build_F_empirical w num kw
  else Raise (ValueError "source must be 'theory' or 'empirical'.").

End SpectralVector.

(** ** [class ILCConstraints] *)

Module ILCConstraints.

Definition find_f_from_extract_comp (F : ndarray2) (extract_comp_or_comps : selection)
    (reference_vectors : dict (list float)) (F_cols : option (list string))
  : result (list float) :=
  let names :=
    match extract_comp_or_comps with
    | One name => [name]
    | Several comps => comps
    end in
  let F_cols :=
    match F_cols with
    | None => dict_keys reference_vectors
    | Some cols => cols
    end in
  r ← find_f_from_names F_cols (Several names);
  Ok r.1.

End ILCConstraints.

(** ** Notions used to state the properties *)

Import SpectralVector ILCConstraints.

(** [l] without its repetitions, each element staying where it first
    stood. *)
Fixpoint dedup_first {A : Type} `{EqDecision A} (l : list A) : list A :=
  match l with
  | [] => []
  | x :: rest => x :: filter (fun y => y <> x) (dedup_first rest)
  end.


(** One round of the loop for a name found at column [idx]. *)
Definition mark (st : list float * list nat) (idx : nat) : list float * list nat :=
  if decide (idx ∈ st.2) then st else (<[idx := 1%float]> st.1, st.2 ++ [idx]).

(** [positions] lists, name by name, the column each selected name is found at. *)
Definition found_at (names_lower selected : list string) (positions : list nat) : Prop :=
  Forall2 (fun name idx => index (lower name) names_lower = Some idx) selected positions.

(** [f] is the 0/1 indicator of [idxs] among [n] columns. *)
Definition indicator (n : nat) (f : list float) (idxs : list nat) : Prop :=
  length f = n /\
  forall i, i < n -> f !! i = Some (if decide (i ∈ idxs) then 1%float else 0%float).

(** [sum(f)] for a vector of zeros and ones: the number of entries that
    compare equal to [1.0]. *)
Definition count_ones (f : list float) : nat :=
  length (filter (fun x => PrimFloat.eqb x 1 = true) f).

(** [[float(f) for f in frequencies]] is the list [values]: every tag
    reads as a number. *)
Definition tags_read (num : Numerics) (frequencies : list string) (values : list float)
  : Prop :=
  comprehension (float_of_str (py_float num)) frequencies = Ok values.

(** The names the theory builder knows. *)
Definition supported : list string := ["cmb"; "tsz"; "sync"].

(** The raw response of component [c] in the channel whose tag reads
    [value] (in GHz), by the closed forms of the theory builder. *)
Definition theory_response (num : Numerics) (beta_s nu0 : float) (c : string) (value : float)
  : float :=
  let nu := (value * 1e9)%float in
  if decide (c = "cmb") then 1%float
  else if decide (c = "tsz") then tsz_of num (x_of nu)
  else sync_of num beta_s nu0 nu (g_of num (x_of nu)).

(** The path of the map of a component with template [tmpl] in channel
    [f], when the template can be formatted. *)
Definition map_path (w : World) (base_dir tmpl f : string) (realization : Z)
  : result string :=
  path_join base_dir <$> format_template w tmpl f realization.

(** The entry the inner loop of the empirical builder leaves for channel
    [f]: the mean of the map when the file exists, the initial [0.0]
    otherwise. *)
Definition measured (w : World) (num : Numerics) (base_dir : string) (realization : Z)
    (mask : option (list float)) (tmpl f : string) (e : float) : Prop :=
  exists path,
    map_path w base_dir tmpl f realization = Ok path /\
    (path_exists w path = false -> e = 0%float) /\
    (path_exists w path = true -> _mean w num path mask = Ok e).

(** The columns the empirical builder keeps: the requested names, in lower
    case, that have a template. *)
Definition empirical_columns (file_templates : dict (option string))
    (components_order : option (list string)) : list string :=
  filter (fun c => has_template file_templates c = true)
    (lower <$> or_default components_order default_components).


(** The mask the empirical builder works with. *)
Definition mask_is (w : World) (mask_path : string) (mask : option (list float)) : Prop :=
  (mask_path = "" /\ mask = None) \/
  (mask_path <> "" /\ exists M, read_map w mask_path = Ok M /\ mask = Some M).

(** *** How accurate numpy has to be

    For the nine default channels: the number the tag reads as, [e^x] at
    [x = h * nu / (k * T)] and [(nu / nu0) ** beta_s] at the default [nu0] and
    [beta_s], the last two rounded to the nearest binary64 number. *)
Definition default_channels : list (float * float * float) :=
  [ ( 30, 0x1.b22baca57f2c1p+0,  0x1.0000000000000p+0);   (* 1.6959789184613074, 1.0 *)
    ( 44, 0x1.15c66c3dfcd19p+1,  0x1.385f50a601c27p-2);   (* 2.1701178839372344, 0.30505109799600166 *)
    ( 70, 0x1.b70f7be2d239bp+1,  0x1.283b61cc1cea4p-4);   (* 3.4301600320363383, 0.07232225610806126 *)
    (100, 0x1.745193dd4ae95p+2,  0x1.88307b2ef214bp-6);   (* 5.817479101282193, 0.023937340065260753 *)
    (143, 0x1.8cefaf994c267p+3,  0x1.02cfd3801df58p-7);   (* 12.404258536728959, 0.007898309966762149 *)
    (217, 0x1.6d3a7a2570716p+5,  0x1.1c2893008511ap-9);   (* 45.6535532879772, 0.002167957253059194 *)
    (353, 0x1.f4a06b7d1384ap+8,  0x1.f701d8f8bcde2p-12);  (* 500.6266401455547, 0.00047970506379543647 *)
    (545, 0x1.cbe414b80ca5dp+13, 0x1.05be7316d3947p-13);  (* 14716.510116671381, 0.00012480923825326283 *)
    (857, 0x1.b4e7d2582fa0ap+21, 0x1.0159c320cabe0p-15)   (* 3579130.293059592, 3.067858620505576e-05 *)
  ]%float.

(** [step] applied once, twice, ..., [n] times to [x]. *)
Fixpoint steps (step : float -> float) (n : nat) (x : float) : list float :=
  match n with
  | 0 => []
  | S n' => step x :: steps step n' (step x)
  end.

(** The binary64 numbers at most [n] units in the last place away from
    [x]. *)
Definition within_ulps (n : nat) (x : float) : list float :=
  x :: steps PrimFloat.next_up n x ++ steps PrimFloat.next_down n x.

(** On the nine default channels, [np.exp] and the power are within 16
    units in the last place of the correctly rounded values. *)
Definition accurate_on_default_channels (num : Numerics) : Prop :=
  Forall (fun t : float * float * float =>
            let nu := (t.1.1 * 1e9)%float in
            np_exp num (x_of nu) ∈ within_ulps 16 t.1.2 /\
            np_power num (nu / default_nu0) default_beta_s ∈ within_ulps 16 t.2)
    default_channels.

(** Every value [np.exp] and the power may take on a channel, within that
    accuracy, gives finite [tsz] and [sync] entries. *)
Definition channel_finite (t : float * float * float) : bool :=
  let nu := (t.1.1 * 1e9)%float in
  let x := x_of nu in
  forallb (fun e =>
    PrimFloat.is_finite (x * ((e + 1) / (e - 1)) - 4) &&
    forallb (fun p => PrimFloat.is_finite (p / ((x * x * e) / ((e - 1) * (e - 1)))))
      (within_ulps 16 t.2))
    (within_ulps 16 t.1.2).

(** *** The conversion factor, from the spec

    The spec's [g(nu)]: the derivative of Planck's law at the CMB
    temperature [T = 2.7255] K, with the constants [h] and [k], that takes
    a thermodynamic temperature to an antenna temperature:
    [g = x^2 e^x / (e^x - 1)^2] at [x = h nu / (k T)].  It is written here
    from the spec and the physics, apart from the code; [exp] is the
    exponential in use. *)
Definition conversion_factor (exp : float -> float) (nu : float) : float :=
  let x := (6.62607015e-34 * nu / (1.380649e-23 * 2.7255))%float in
  (x * x * exp x / ((exp x - 1) * (exp x - 1)))%float.

(** The synchrotron response [(nu / nu0) ^ beta_s / g(nu)] in the nine
    default channels, at [beta_s = -3.1] and [nu0 = 30e9]: the real numbers,
    computed from the formulas above to 60 digits and then rounded. *)
Definition sync_reference : list float :=
  [ 0x1.060247b84c103p+0;   (* 1.0234722924179216 *)
    0x1.48507f1a0a1c8p-2;   (* 0.32061956974441985 *)
    0x1.4fb0935648ab3p-4;   (* 0.08195550492795682 *)
    0x1.f899b11d0cf42p-6;   (* 0.030798361742383713 *)
    0x1.abfa8fbd57d1cp-7;   (* 0.013060875115739772 *)
    0x1.a901a68d62089p-8;   (* 0.00648508373468116 *)
    0x1.95b8eb272dbf4p-8;   (* 0.00619083157578525 *)
    0x1.46b684418e5e5p-6;   (* 0.019940976291968133 *)
    0x1.edbd4a67da874p-2    (* 0.48216739901420813 *)
  ]%float.

(** [a] is [ref] up to a relative error of [1e-12]. *)
Definition close (a ref : float) : bool :=
  PrimFloat.leb (PrimFloat.abs (a - ref)) (1e-12 * PrimFloat.abs ref).

(** Every value [np.exp] and the power may take on a channel, within the
    accuracy above, gives a synchrotron entry close to [ref]. *)
Definition channel_sync_close (t : float * float * float) (ref : float) : bool :=
  let nu := (t.1.1 * 1e9)%float in
  forallb (fun e =>
    forallb (fun p => close (p / conversion_factor (fun _ => e) nu) ref)
      (within_ulps 16 t.2))
    (within_ulps 16 t.1.2).

(** *** Sample inputs *)

(** A template is completed by the frequency tag; one that has a field
    [{lmax}] cannot be formatted with the keywords [frequency] and
    [realisation]. *)
Definition sample_format (tmpl f : string) (realization : Z) : result string :=
  if is_substring "{lmax}" tmpl then Raise (KeyError "lmax") else Ok (tmpl +:+ f).

(** A world without files: no path exists and no map can be read. *)
Definition empty_world : World := {|
  path_exists := fun _ => false;
  read_map := fun path => Raise (OSError path);
  get_nside := fun M => Nat.sqrt (length M / 12);
  ud_grade := fun mask _ => mask;
  format_template := sample_format
|}.

(** A world with one map file, [data/cmb_030], of two pixels. *)
Definition sample_world : World := {|
  path_exists := fun path => String.eqb path "data/cmb_030";
  read_map := fun path =>
    if String.eqb path "data/cmb_030" then Ok [2; 4]%float else Raise (OSError path);
  get_nside := fun M => Nat.sqrt (length M / 12);
  ud_grade := fun mask _ => mask;
  format_template := sample_format
|}.


(** Simple numeric routines, for running the builders on sample inputs;
    [float] accepts nothing beyond plain decimal integers. *)
Definition sample_numerics : Numerics := {|
  np_exp := fun x => (1 + x)%float;
  np_power := fun b _ => b;
  np_mean := fun l => default 0%float (head l);
  py_float := fun s => Raise (ValueError ("could not convert string to float: " +:+ repr_str s))
|}.

(** Numeric routines whose [exp] and power return the correctly rounded
    values on the default channels. *)
Definition reference_numerics : Numerics := {|
  np_exp := fun x =>
    match List.find (fun t : float * float * float =>
                       PrimFloat.eqb (x_of (t.1.1 * 1e9)) x) default_channels with
    | Some t => t.1.2
    | None => (1 + x)%float
    end;
  np_power := fun b _ =>
    match List.find (fun t : float * float * float =>
                       PrimFloat.eqb (t.1.1 * 1e9 / default_nu0) b) default_channels with
    | Some t => t.2
    | None => b
    end;
  np_mean := fun l => default 0%float (head l);
  py_float := fun s => Raise (ValueError ("could not convert string to float: " +:+ repr_str s))
|}.

(** A call that passes no keyword argument. *)
Definition no_kwargs : kwargs := {|
  kw_beta_s := None; kw_nu0 := None; kw_frequencies := None;
  kw_components_order := None; kw_base_dir := None; kw_file_templates := None;
  kw_realization := None; kw_mask_path := None; kw_other := []
|}.

(** Templates for two components, and an explicit [None] for a third. *)
Definition sample_templates : dict (option string) :=
  [("cmb", Some "cmb_"); ("sync", Some "sync_"); ("tsz", None)].

(** ** Notions used by the further properties *)

(** The columns the theory builder keeps. *)
Definition theory_columns (components_order : option (list string)) : list string :=
  match components_order with
  | None => ["cmb"; "tsz"; "sync"]
  | Some order => filter (fun c => c ∈ supported) (lower <$> order)
  end.

(** [r] is what one of the two builders returned. *)
Definition built (w : World) (num : Numerics) (r : F_result) : Prop :=
  (exists beta_s nu0 frequencies components_order,
     build_F_theory num beta_s nu0 frequencies components_order = Ok r) \/
  (exists base_dir file_templates frequencies realization mask_path components_order,
     build_F_empirical w num base_dir file_templates frequencies realization mask_path
       components_order = Ok r).

(** One more key in a dictionary's key list: a key already there keeps its
    place. *)
Definition add_key (keys : list string) (key : string) : list string :=
  if decide (key ∈ keys) then keys else keys ++ [key].

(** ** [class DownloadData] of [skyclean/silc/download.py]

    Conventions of this part of the embedding.
    - The file system is a finite map from paths to file contents;
      [os.path.exists] is membership.  Nothing but the program changes the
      files.
    - Writing a file is asked of the environment, and has three issues:
      the file is written; the file could not be opened (a missing
      directory, no permission) and there is no change; or the file was
      opened, hence created or emptied, and the writing stopped, which
      leaves a file with what was written so far.
    - The network, [str.format], numpy's reading and writing of tables,
      Python's [2.7255**2] and healpy are fields of a record [Outside].
      [requests.get] may answer differently from one request to the next,
      and [hp.synfast] from one draw to the next: both take the number of
      requests, or draws, made so far.  Each of these routines returns or
      raises an exception of its own, of whatever class.
    - An exception is told by the place that raises it: a [raise] or a
      lookup of the program, or an outside routine.  [class_of] gives its
      Python class; the class of an exception of the program may also be
      the class of an exception of an outside routine.  The program has no
      [except] clause.
    - The state also records the URLs requested, in order.
    - The [print] calls are left out. *)

Module Download.

(** The class and the message of an exception that an outside routine
    raised. *)
Record raised : Type := {
  class_name : string;
  message : string
}.

Inductive exn : Type :=
  | ValueError (msg : string)         (* the [raise] of line 71 *)
  | FileNotFoundError (msg : string)  (* the [raise] of line 136 *)
  | KeyError (key : string)           (* lines 49 and 109: a dictionary without the key *)
  | IndexError (index : Z)            (* line 122: an index outside [cl] *)
  | HTTPError (status : Z)            (* line 86: [resp.raise_for_status()] *)
  | OSError (path : string)
      (* lines 125 and 133: [hp.write_map] on a file that exists, without [overwrite] *)
  | Raised (r : raised).              (* an outside routine *)

Definition class_of (e : exn) : string :=
  match e with
  | ValueError _ => "ValueError"
  | FileNotFoundError _ => "FileNotFoundError"
  | KeyError _ => "KeyError"
  | IndexError _ => "IndexError"
  | HTTPError _ => "HTTPError"
  | OSError _ => "OSError"
  | Raised r => class_name r
  end.

Inductive outcome (A : Type) : Type :=
  | Done (a : A)
  | Failed (e : exn).
Arguments Done {A} a.
Arguments Failed {A} e.

Record response : Type := {
  status_code : Z;
  content : string;
  text : string
}.

(** What an outside routine comes to: a value, or an exception. *)
Inductive answer (A : Type) : Type :=
  | Returns (a : A)
  | Raises (r : raised).
Arguments Returns {A} a.
Arguments Raises {A} r.

(** What the writing of a file comes to. *)
Inductive written : Type :=
  | Written                               (* the file holds the data *)
  | Unopened (r : raised)                 (* [open] raised: nothing changed *)
  | Broken (partial : string) (r : raised).  (* opened, then raised: the file holds [partial] *)

(** A keyword argument of [str.format]. *)
Inductive value : Type :=
  | VStr (s : string)
  | VInt (z : Z)
  | VNone.

Record Outside : Type := {
  requests_get : nat -> string -> option response;
    (* requests.get(url): the response, if there is one *)
  requests_raises : nat -> string -> raised;
    (* the exception of requests.get(url) when there is none *)
  str_format : string -> list (string * value) -> answer string;
    (* tmpl.format(k=v, ...): raises KeyError, IndexError or ValueError *)
  write : string -> string -> written;
    (* writing data to a path, by open(path, 'wb') and f.write, np.savetxt or hp.write_map *)
  planck_table : string -> answer string;
    (* lines 88 to 94: the text np.savetxt writes for the four columns made
       from np.loadtxt of a text; raises ValueError on text that is no table,
       IndexError on a table of one row *)
  loadtxt_theory : string -> answer (list (Z * float));
    (* np.loadtxt(..., usecols=(0,1), unpack=True): rows (l.astype(int), dl) *)
  loadtxt_planck : string -> answer (list (float * float));
    (* l, dl, _, _ = np.loadtxt(...).transpose(): rows (l, dl) *)
  t_cmb_squared : float;                             (* 2.7255**2 *)
  synfast : nat -> list float -> answer string
    (* hp.synfast(cl, nside=2048, pixwin=True, lmax=1023), as the FITS file of the map *)
}.

(** *** State and effects *)

Record sys : Type := {
  disk : gmap string string;
  requested : list string;
  draws : nat
}.

Definition log (url : string) (s : sys) : sys :=
  {| disk := disk s; requested := requested s ++ [url]; draws := draws s |}.

Definition put (path data : string) (s : sys) : sys :=
  {| disk := <[path := data]> (disk s); requested := requested s; draws := draws s |}.

Definition tick (s : sys) : sys :=
  {| disk := disk s; requested := requested s; draws := S (draws s) |}.

Definition io (A : Type) : Type := sys -> outcome A * sys.

#[global] Instance io_ret : MRet io := fun A a s => (Done a, s).
#[global] Instance io_bind : MBind io := fun A B k m s =>
  match m s with
  | (Done a, s') => k a s'
  | (Failed e, s') => (Failed e, s')
  end.

Definition raise {A : Type} (e : exn) : io A := fun s => (Failed e, s).

(** The value of an outside routine, or its exception. *)
Definition attempt {A : Type} (x : answer A) : io A :=
  match x with
  | Returns a => mret a
  | Raises r => raise (Raised r)
  end.

(** [os.path.exists(path)] *)
Definition os_path_exists (path : string) : io bool :=
  fun s => (Done (bool_decide (is_Some (disk s !! path))), s).

(** Writing a whole file: [open(path, 'wb')] and [f.write], [np.savetxt],
    and the writing part of [hp.write_map]. *)
Definition write_file (o : Outside) (path data : string) : io unit :=
  fun s =>
    match write o path data with
    | Written => (Done tt, put path data s)
    | Unopened r => (Failed (Raised r), s)
    | Broken partial r => (Failed (Raised r), put path partial s)
    end.

(** [hp.write_map(filename, m, overwrite=overwrite)] refuses an existing file
    unless [overwrite] is set. *)
Definition write_map (o : Outside) (filename data : string) (overwrite : bool) : io unit :=
  present ← os_path_exists filename;
  if present && negb overwrite then raise (OSError filename)
  else write_file o filename data.

(** The text of a file to be read; numpy's [open] raises on a file that
    is not there. *)
Definition read_text (path : string) : io string :=
  fun s =>
    match disk s !! path with
    | Some data => (Done data, s)
    | None => (Failed (Raised {| class_name := "FileNotFoundError"; message := path |}), s)
    end.

(** [requests.get(url)] *)
Definition get (o : Outside) (url : string) : io response :=
  fun s =>
    (match requests_get o (length (requested s)) url with
     | Some r => Done r
     | None => Failed (Raised (requests_raises o (length (requested s)) url))
     end, log url s).

(** One more draw of a random map. *)
Definition draw : io nat := fun s => (Done (draws s), tick s).

(** [for x in l: body(x)] *)
Fixpoint for_each {A : Type} (body : A -> io unit) (l : list A) : io unit :=
  match l with
  | [] => mret tt
  | x :: rest => body x ;; for_each body rest
  end.

(** [d[key]] *)
Definition item (d : dict string) (key : string) : io string :=
  match dict_get d key with
  | Some v => mret v
  | None => raise (KeyError key)
  end.

(** [tmpl.format(k=v, ...)] *)
Definition format (o : Outside) (tmpl : string) (kw : list (string * value)) : io string :=
  attempt (str_format o tmpl kw).

(** *** From D_l to C_l *)

Definition lmax : Z := 1023.

Definition np_pi : float := 0x1.921fb54442d18p+1%float.

(** An integer of an [int] array as a [float]. *)
Definition float_of_int (l : Z) : float := PrimFloat.of_uint63 (Uint63.of_Z l).

(** The place of [a[i]] in an array of length [n]: a negative [i] counts
    from the end. *)
Definition np_index (n : nat) (i : Z) : option nat :=
  if decide (0 <= i < Z.of_nat n)%Z then Some (Z.to_nat i)
  else if decide (- Z.of_nat n <= i < 0)%Z then Some (Z.to_nat (Z.of_nat n + i))
  else None.

(** [a[idx] = vals], index by index: of two values for one index the later
    one stays. *)
Fixpoint assign (a : list float) (items : list (Z * float)) : outcome (list float) :=
  match items with
  | [] => Done a
  | (i, v) :: rest =>
      match np_index (length a) i with
      | Some j => assign (<[j := v]> a) rest
      | None => Failed (IndexError i)
      end
  end.

(** Lines 118 to 122: [dl *= (2.7255**2) * 1e12], [cl = np.zeros(lmax + 1)],
    [m = (l >= 2) & (l <= lmax)] and
    [cl[l[m]] = dl[m] * (2.0 * np.pi) / (l[m] * (l[m] + 1.0))]. *)
Definition scale (o : Outside) (row : Z * float) : Z * float :=
  (row.1, (row.2 * (t_cmb_squared o * 1e12))%float).

Definition in_band (row : Z * float) : Prop := (2 <= row.1 <= lmax)%Z.

#[global] Instance in_band_dec (row : Z * float) : Decision (in_band row).
Proof. unfold in_band. apply _. Defined.

Definition to_cl (row : Z * float) : Z * float :=
  (row.1, (row.2 * (2 * np_pi) / (float_of_int row.1 * (float_of_int row.1 + 1)))%float).

Definition cl_theory (o : Outside) (rows : list (Z * float)) : outcome (list float) :=
  let dl := scale o <$> rows in
  let cl := replicate (Z.to_nat (lmax + 1)) 0%float in
  assign cl (to_cl <$> filter in_band dl).

(** Lines 129 and 130: [cl = (dl*2*np.pi)/(l*(l+1))] and [cl *= 1E-12]. *)
Definition cl_planck (rows : list (float * float)) : list float :=
  (fun row => (row.2 * 2 * np_pi / (row.1 * (row.1 + 1)) * 1e-12)%float) <$> rows.

(** *** The class *)

Record DownloadData : Type := {
  components : list string;
  frequencies : list string;
  realisations : Z;
  start_realisation : Z;
  directory : string;
  overwrite : bool;
  download_templates : dict string;
  file_templates : dict string
}.

(** [FileTemplates(directory)] is not part of these sources: it is the
    argument [files], giving the two dictionaries of templates. *)
Definition __init__ (files : string -> dict string * dict string)
    (components frequencies : list string) (realisations start_realisation : Z)
    (directory : string) (overwrite : bool) : DownloadData :=
  {| components := components;
     frequencies := frequencies;
     realisations := realisations;
     start_realisation := start_realisation;
     directory := directory;
     overwrite := overwrite;
     download_templates := (files directory).1;
     file_templates := (files directory).2 |}.

Definition optional_int (realisation : option Z) : value :=
  match realisation with
  | Some r => VInt r
  | None => VNone
  end.

(** The file name of lines 50 to 54. *)
Definition foreground_keywords (frequency : string) (realisation : option Z)
  : list (string * value) :=
  match realisation with
  | None => [("frequency", VStr frequency)]
  | Some r => [("frequency", VStr frequency); ("realisation", VInt r)]
  end.

Definition failed_message (component frequency : string) (status : Z) : string :=
  "Failed to download " +:+ component +:+ " data for frequency " +:+ frequency
  +:+ ". Status code: " +:+ pretty status.

Definition download_foreground_component (o : Outside) (self : DownloadData)
    (component frequency : string) (realisation : option Z) : io unit :=
  template ← item (download_templates self) component;
  file_template ← item (file_templates self) component;
  filename ← format o file_template (foreground_keywords frequency realisation);
  present ← os_path_exists filename;
  if present : bool then mret tt
  else
    url ← format o template
            [("frequency", VStr frequency); ("realisation", optional_int realisation)];
    response ← get o url;
    if decide (status_code response = 200%Z)
    then write_file o filename (content response)
    else raise (ValueError (failed_message component frequency (status_code response))).

Definition planck_url : string :=
  "http://pla.esac.esa.int/pla/aio/product-action?COSMOLOGY.FILE_ID=COM_PowerSpect_CMB-TT-full_R3.01.txt".

Definition theory_path (self : DownloadData) : string :=
  path_join (directory self) "cmb_spectrum_theory.txt".

Definition planck_path (self : DownloadData) : string :=
  path_join (directory self) "cmb_spectrum.txt".

(** [resp.raise_for_status()] *)
Definition raise_for_status (resp : response) : io unit :=
  if decide (400 <= status_code resp < 600)%Z then raise (HTTPError (status_code resp))
  else mret tt.

Definition download_cmb_spectrum (o : Outside) (self : DownloadData) : io unit :=
  let path := theory_path self in
  present ← os_path_exists path;
  if present : bool then mret tt
  else
    resp ← get o planck_url;
    raise_for_status resp;;
    table ← attempt (planck_table o (text resp));
    write_file o path table.

Definition no_spectrum_message : string :=
  "No CMB spectrum file found. Please ensure cmb_spectrum_theory.txt or cmb_spectrum.txt exists in the data directory.".

(** [hp.synfast] followed by [hp.write_map]. *)
Definition synfast_and_write (o : Outside) (filename : string) (cl : list float)
    (overwrite : bool) : io unit :=
  n ← draw;
  cmb_map ← attempt (synfast o n cl);
  write_map o filename cmb_map overwrite.

Definition generate_and_save_cmb_realisation (o : Outside) (self : DownloadData)
    (realisation : Z) (overwrite : bool) : io unit :=
  cmb_template ← item (file_templates self) "cmb";
  filename ← format o cmb_template [("realisation", VInt realisation); ("lmax", VInt 1023)];
  present ← os_path_exists filename;
  if present && negb overwrite then mret tt
  else
    theory ← os_path_exists (theory_path self);
    if theory : bool then
      table ← read_text (theory_path self);
      rows ← attempt (loadtxt_theory o table);
      cl ← (fun s => (cl_theory o rows, s));
      synfast_and_write o filename cl overwrite
    else
      planck ← os_path_exists (planck_path self);
      if planck : bool then
        table ← read_text (planck_path self);
        rows ← attempt (loadtxt_planck o table);
        synfast_and_write o filename (cl_planck rows) overwrite
      else raise (FileNotFoundError no_spectrum_message).

(** The body of the first loop of [download_all]. *)
Definition foregrounds_of (o : Outside) (self : DownloadData) (component : string) : io unit :=
  if decide (component = "cmb" \/ component = "noise") then mret tt
  else
    for_each (fun frequency => download_foreground_component o self component frequency None)
      (frequencies self).

(** The body of the second loop, for the [i]-th value of [range]. *)
Definition realisation_of (o : Outside) (self : DownloadData) (i : nat) : io unit :=
  let realisation := (Z.of_nat i + start_realisation self)%Z in
  generate_and_save_cmb_realisation o self realisation (overwrite self);;
  if decide ("noise" ∈ components self) then
    if decide (299 < realisation)%Z then mret tt
    else
      for_each (fun frequency =>
                  download_foreground_component o self "noise" frequency (Some realisation))
        (frequencies self)
  else mret tt.

Definition download_all (o : Outside) (self : DownloadData) : io unit :=
  for_each (foregrounds_of o self) (components self);;
  download_cmb_spectrum o self;;
  for_each (realisation_of o self) (seq 0 (Z.to_nat (realisations self))).

(** *** Notions used to state the properties of [DownloadData] *)

Definition on_disk (s : sys) (path : string) : Prop := is_Some (disk s !! path).

(** Every file of [s] is a file of [s']. *)
Definition kept (s s' : sys) : Prop := forall path, on_disk s path -> on_disk s' path.

(** The file name and the URL that [download_foreground_component] makes
    of its arguments. *)
Definition file_of (o : Outside) (self : DownloadData) (component frequency : string)
    (realisation : option Z) (filename : string) : Prop :=
  exists file_template,
    dict_get (file_templates self) component = Some file_template /\
    str_format o file_template (foreground_keywords frequency realisation)
    = Returns filename.

Definition url_of (o : Outside) (self : DownloadData) (component frequency : string)
    (realisation : option Z) (url : string) : Prop :=
  exists template,
    dict_get (download_templates self) component = Some template /\
    str_format o template
      [("frequency", VStr frequency); ("realisation", optional_int realisation)]
    = Returns url.

(** The file name of the CMB map of a realisation. *)
Definition cmb_file (o : Outside) (self : DownloadData) (realisation : Z)
    (filename : string) : Prop :=
  exists cmb_template,
    dict_get (file_templates self) "cmb" = Some cmb_template /\
    str_format o cmb_template [("realisation", VInt realisation); ("lmax", VInt 1023)]
    = Returns filename.

(** The realisations of a run of [download_all]. *)
Definition in_run (self : DownloadData) (realisation : Z) : Prop :=
  (start_realisation self <= realisation < start_realisation self + realisations self)%Z.

(** The URLs a run of [download_all] has reasons to request. *)
Definition foreground_url (o : Outside) (self : DownloadData) (url : string) : Prop :=
  exists component frequency,
    component ∈ components self /\ component <> "cmb" /\ component <> "noise" /\
    frequency ∈ frequencies self /\
    url_of o self component frequency None url.

Definition noise_url (o : Outside) (self : DownloadData) (url : string) : Prop :=
  exists frequency realisation,
    "noise" ∈ components self /\ frequency ∈ frequencies self /\
    in_run self realisation /\ (realisation <= 299)%Z /\
    url_of o self "noise" frequency (Some realisation) url.

Definition expected_url (o : Outside) (self : DownloadData) (url : string) : Prop :=
  url = planck_url \/ foreground_url o self url \/ noise_url o self url.

(** The spectrum [generate_and_save_cmb_realisation] draws from in state
    [s]: that of the theory file when there is one, else that of the Planck
    file. *)
Definition spectrum_of (o : Outside) (self : DownloadData) (s : sys) (cl : list float) : Prop :=
  (exists table rows,
     disk s !! theory_path self = Some table /\ loadtxt_theory o table = Returns rows /\
     cl_theory o rows = Done cl) \/
  (disk s !! theory_path self = None /\
   exists table rows,
     disk s !! planck_path self = Some table /\ loadtxt_planck o table = Returns rows /\
     cl = cl_planck rows).

(** What a call of [download_foreground_component] in state [s] can come to. *)
Inductive fetch (o : Outside) (self : DownloadData) (component frequency : string)
    (realisation : option Z) (s : sys) : outcome unit -> sys -> Prop :=
  | fetch_no_template :
      fetch o self component frequency realisation s (Failed (KeyError component)) s
  | fetch_bad_template (r : raised) :
      fetch o self component frequency realisation s (Failed (Raised r)) s
  | fetch_skip (filename : string) :
      is_Some (dict_get (download_templates self) component) ->
      file_of o self component frequency realisation filename ->
      on_disk s filename ->
      fetch o self component frequency realisation s (Done tt) s
  | fetch_no_answer (filename url : string) :
      file_of o self component frequency realisation filename ->
      disk s !! filename = None ->
      url_of o self component frequency realisation url ->
      requests_get o (length (requested s)) url = None ->
      fetch o self component frequency realisation s
        (Failed (Raised (requests_raises o (length (requested s)) url))) (log url s)
  | fetch_bad_status (filename url : string) (resp : response) :
      file_of o self component frequency realisation filename ->
      disk s !! filename = None ->
      url_of o self component frequency realisation url ->
      requests_get o (length (requested s)) url = Some resp ->
      status_code resp <> 200%Z ->
      fetch o self component frequency realisation s
        (Failed (ValueError (failed_message component frequency (status_code resp))))
        (log url s)
  | fetch_unopened (filename url : string) (resp : response) (r : raised) :
      file_of o self component frequency realisation filename ->
      disk s !! filename = None ->
      url_of o self component frequency realisation url ->
      requests_get o (length (requested s)) url = Some resp ->
      status_code resp = 200%Z ->
      write o filename (content resp) = Unopened r ->
      fetch o self component frequency realisation s (Failed (Raised r)) (log url s)
  | fetch_broken (filename url : string) (resp : response) (partial : string) (r : raised) :
      file_of o self component frequency realisation filename ->
      disk s !! filename = None ->
      url_of o self component frequency realisation url ->
      requests_get o (length (requested s)) url = Some resp ->
      status_code resp = 200%Z ->
      write o filename (content resp) = Broken partial r ->
      fetch o self component frequency realisation s (Failed (Raised r))
        (put filename partial (log url s))
  | fetch_stored (filename url : string) (resp : response) :
      file_of o self component frequency realisation filename ->
      disk s !! filename = None ->
      url_of o self component frequency realisation url ->
      requests_get o (length (requested s)) url = Some resp ->
      status_code resp = 200%Z ->
      write o filename (content resp) = Written ->
      fetch o self component frequency realisation s (Done tt)
        (put filename (content resp) (log url s)).

(** What a call of [download_cmb_spectrum] in state [s] can come to. *)
Inductive spectrum (o : Outside) (self : DownloadData) (s : sys)
  : outcome unit -> sys -> Prop :=
  | spectrum_skip :
      on_disk s (theory_path self) ->
      spectrum o self s (Done tt) s
  | spectrum_no_answer :
      disk s !! theory_path self = None ->
      requests_get o (length (requested s)) planck_url = None ->
      spectrum o self s
        (Failed (Raised (requests_raises o (length (requested s)) planck_url)))
        (log planck_url s)
  | spectrum_bad_status (resp : response) :
      disk s !! theory_path self = None ->
      requests_get o (length (requested s)) planck_url = Some resp ->
      (400 <= status_code resp < 600)%Z ->
      spectrum o self s (Failed (HTTPError (status_code resp))) (log planck_url s)
  | spectrum_bad_table (resp : response) (r : raised) :
      disk s !! theory_path self = None ->
      requests_get o (length (requested s)) planck_url = Some resp ->
      ~ (400 <= status_code resp < 600)%Z ->
      planck_table o (text resp) = Raises r ->
      spectrum o self s (Failed (Raised r)) (log planck_url s)
  | spectrum_unopened (resp : response) (table : string) (r : raised) :
      disk s !! theory_path self = None ->
      requests_get o (length (requested s)) planck_url = Some resp ->
      ~ (400 <= status_code resp < 600)%Z ->
      planck_table o (text resp) = Returns table ->
      write o (theory_path self) table = Unopened r ->
      spectrum o self s (Failed (Raised r)) (log planck_url s)
  | spectrum_broken (resp : response) (table partial : string) (r : raised) :
      disk s !! theory_path self = None ->
      requests_get o (length (requested s)) planck_url = Some resp ->
      ~ (400 <= status_code resp < 600)%Z ->
      planck_table o (text resp) = Returns table ->
      write o (theory_path self) table = Broken partial r ->
      spectrum o self s (Failed (Raised r)) (put (theory_path self) partial (log planck_url s))
  | spectrum_stored (resp : response) (table : string) :
      disk s !! theory_path self = None ->
      requests_get o (length (requested s)) planck_url = Some resp ->
      ~ (400 <= status_code resp < 600)%Z ->
      planck_table o (text resp) = Returns table ->
      write o (theory_path self) table = Written ->
      spectrum o self s (Done tt) (put (theory_path self) table (log planck_url s)).

(** What a call of [generate_and_save_cmb_realisation] in state [s] can
    come to. *)
Inductive generate (o : Outside) (self : DownloadData) (realisation : Z) (overwrite : bool)
    (s : sys) : outcome unit -> sys -> Prop :=
  | generate_no_template :
      generate o self realisation overwrite s (Failed (KeyError "cmb")) s
  | generate_bad_template (r : raised) :
      generate o self realisation overwrite s (Failed (Raised r)) s
  | generate_skip (filename : string) :
      cmb_file o self realisation filename ->
      on_disk s filename -> overwrite = false ->
      generate o self realisation overwrite s (Done tt) s
  | generate_no_spectrum (filename : string) :
      cmb_file o self realisation filename ->
      disk s !! filename = None \/ overwrite = true ->
      disk s !! theory_path self = None ->
      disk s !! planck_path self = None ->
      generate o self realisation overwrite s
        (Failed (FileNotFoundError no_spectrum_message)) s
  | generate_bad_table (filename : string) (r : raised) :
      cmb_file o self realisation filename ->
      disk s !! filename = None \/ overwrite = true ->
      on_disk s (theory_path self) \/ on_disk s (planck_path self) ->
      generate o self realisation overwrite s (Failed (Raised r)) s
  | generate_no_map (filename : string) (cl : list float) (r : raised) :
      cmb_file o self realisation filename ->
      disk s !! filename = None \/ overwrite = true ->
      spectrum_of o self s cl ->
      synfast o (draws s) cl = Raises r ->
      generate o self realisation overwrite s (Failed (Raised r)) (tick s)
  | generate_unopened (filename : string) (cl : list float) (data : string) (r : raised) :
      cmb_file o self realisation filename ->
      disk s !! filename = None \/ overwrite = true ->
      spectrum_of o self s cl ->
      synfast o (draws s) cl = Returns data ->
      write o filename data = Unopened r ->
      generate o self realisation overwrite s (Failed (Raised r)) (tick s)
  | generate_broken (filename : string) (cl : list float) (data partial : string)
      (r : raised) :
      cmb_file o self realisation filename ->
      disk s !! filename = None \/ overwrite = true ->
      spectrum_of o self s cl ->
      synfast o (draws s) cl = Returns data ->
      write o filename data = Broken partial r ->
      generate o self realisation overwrite s (Failed (Raised r))
        (put filename partial (tick s))
  | generate_stored (filename : string) (cl : list float) (data : string) :
      cmb_file o self realisation filename ->
      disk s !! filename = None \/ overwrite = true ->
      spectrum_of o self s cl ->
      synfast o (draws s) cl = Returns data ->
      write o filename data = Written ->
      generate o self realisation overwrite s (Done tt) (put filename data (tick s)).

(** A specification of an effectful computation: from a state in [P], it
    returns [a] in a state of [Q a], or raises [e] in a state of [E e]. *)
Definition triple {A : Type} (P : sys -> Prop) (m : io A) (Q : A -> sys -> Prop)
    (E : exn -> sys -> Prop) : Prop :=
  forall s, P s ->
    match (m s).1 with
    | Done a => Q a (m s).2
    | Failed e => E e (m s).2
    end.

(** The state [s] is one a run of [download_all] on [self] can reach from
    [s0]: the requests made since are expected ones, no file went away, and
    no file changed but, with [overwrite], the CMB maps of the run. *)
Definition reached (o : Outside) (self : DownloadData) (s0 s : sys) : Prop :=
  (exists urls, requested s = requested s0 ++ urls /\ Forall (expected_url o self) urls) /\
  (draws s0 <= draws s) /\
  kept s0 s /\
  (forall path data, disk s0 !! path = Some data ->
     disk s !! path = Some data \/
     (overwrite self = true /\ exists realisation,
        in_run self realisation /\ cmb_file o self realisation path)).

(** The files a loop body of [download_all] leaves behind. *)
Definition fetched (o : Outside) (self : DownloadData) (component frequency : string)
    (realisation : option Z) (s : sys) : Prop :=
  is_Some (dict_get (download_templates self) component) /\
  exists filename, file_of o self component frequency realisation filename /\ on_disk s filename.

Definition foregrounds_fetched (o : Outside) (self : DownloadData) (component : string)
    (s : sys) : Prop :=
  component = "cmb" \/ component = "noise" \/
  forall frequency, frequency ∈ frequencies self -> fetched o self component frequency None s.

(** The exceptions a run of [download_all] can end with: of the places of
    the program that raise, the lookups of templates, the [raise] of line
    71 and [raise_for_status]; and any exception of an outside routine. *)
Definition may_raise (self : DownloadData) (e : exn) : Prop :=
  match e with
  | KeyError key => key ∈ components self \/ key = "cmb"
  | ValueError msg =>
      exists component frequency status,
        status <> 200%Z /\ msg = failed_message component frequency status
  | HTTPError status => (400 <= status < 600)%Z
  | Raised _ => True
  | IndexError _ | FileNotFoundError _ | OSError _ => False
  end.

Definition realisation_made (o : Outside) (self : DownloadData) (i : nat) (s : sys) : Prop :=
  let realisation := (Z.of_nat i + start_realisation self)%Z in
  (exists filename, cmb_file o self realisation filename /\ on_disk s filename) /\
  ("noise" ∈ components self -> (realisation <= 299)%Z ->
   forall frequency, frequency ∈ frequencies self ->
     fetched o self "noise" frequency (Some realisation) s).

End Download.

(** *** Sample inputs for [DownloadData] *)

Definition show (v : Download.value) : string :=
  match v with
  | Download.VStr s => s
  | Download.VInt z => pretty z
  | Download.VNone => "None"
  end.

Definition newline : string := String (ascii_of_nat 10) "".

(** A spectrum of two multipoles as the archive sends it, and as
    [np.savetxt] writes it with the format [%.8e]. *)
Definition planck_answer : string := "2 1000" +:+ newline +:+ "3 950" +:+ newline.

Definition planck_saved : string :=
  "2.00000000e+00 1.00000000e+03 0.00000000e+00 0.00000000e+00" +:+ newline +:+
  "3.00000000e+00 9.50000000e+02 0.00000000e+00 0.00000000e+00" +:+ newline.

Definition not_a_table : Download.raised :=
  {| Download.class_name := "ValueError";
     Download.message := "could not convert string to float" |}.

(** An environment whose templates are completed by their keyword values
    and in which the archive has no dust map.  There is no directory
    [/missing], nothing can be opened under [/readonly], and under [/full]
    a file is created and the writing stops at once.  A spectrum of one row
    is no table of two dimensions. *)
Definition sample_outside : Download.Outside := {|
  Download.requests_get := fun _ url =>
    if is_substring "dust" url
    then Some {| Download.status_code := 404; Download.content := "";
                 Download.text := "Not Found" |}
    else Some {| Download.status_code := 200; Download.content := "<" +:+ url +:+ ">";
                 Download.text := planck_answer |};
  Download.requests_raises := fun _ url =>
    {| Download.class_name := "ConnectionError"; Download.message := url |};
  Download.str_format := fun tmpl kw =>
    Download.Returns (tmpl +:+ String.concat "_" (map (fun p => show p.2) kw));
  Download.write := fun path _ =>
    if String.prefix "/missing" path
    then Download.Unopened {| Download.class_name := "FileNotFoundError";
                              Download.message := path |}
    else if String.prefix "/readonly" path
    then Download.Unopened {| Download.class_name := "PermissionError";
                              Download.message := path |}
    else if String.prefix "/full" path
    then Download.Broken "" {| Download.class_name := "OSError";
                               Download.message := "No space left on device" |}
    else Download.Written;
  Download.planck_table := fun text =>
    if String.eqb text planck_answer then Download.Returns planck_saved
    else if String.eqb text "2 1000"
    then Download.Raises {| Download.class_name := "IndexError";
                            Download.message := "too many indices for array" |}
    else Download.Raises not_a_table;
  Download.loadtxt_theory := fun table =>
    if String.eqb table planck_saved
    then Download.Returns [(2%Z, 1000%float); (3%Z, 950%float)]
    else Download.Raises not_a_table;
  Download.loadtxt_planck := fun table =>
    if String.eqb table planck_saved
    then Download.Returns [(2%float, 1000%float); (3%float, 950%float)]
    else Download.Raises not_a_table;
  Download.t_cmb_squared := 7.42835025%float;
  Download.synfast := fun n _ => Download.Returns ("map " +:+ pretty n)
|}.

Definition sample_files (directory : string) : dict string * dict string :=
  ([("sync", "http://pla/sync/"); ("dust", "http://pla/dust/"); ("noise", "http://pla/noise/")],
   [("sync", directory +:+ "sync_"); ("dust", directory +:+ "dust_");
    ("noise", directory +:+ "noise_"); ("cmb", directory +:+ "cmb_")]).

Definition sample_downloader (components : list string) (realisations : Z)
  : Download.DownloadData :=
  Download.__init__ sample_files components ["030"; "044"] realisations 299 "data/" false.

(** A downloader of the synchrotron map of one channel into a directory. *)
Definition downloader_into (directory : string) : Download.DownloadData :=
  Download.__init__ sample_files ["sync"] ["030"] 0 0 directory false.

Definition empty_sys : Download.sys :=
  {| Download.disk := ∅; Download.requested := []; Download.draws := 0 |}.

(** * Properties *)

(** ** The code on sample inputs *)

Example find_f_from_names_two_of_three :
  find_f_from_names ["tsz"; "cmb"; "sync"] (Several ["CMB"; "sync"; "cmb"])
  = Ok ([0; 1; 1]%float, [1; 2]).
Proof. reflexivity. Qed.

Example find_f_from_names_one_name :
  find_f_from_names ["tsz"; "cmb"; "sync"] (One "tsz") = Ok ([1; 0; 0]%float, [0]).
Proof. reflexivity. Qed.

Example find_f_from_names_unknown :
  find_f_from_names ["tsz"; "cmb"; "sync"] (Several ["cmb"; "Dust"])
  = Raise (ValueError "Dust not in component_names=['tsz', 'cmb', 'sync']").
Proof. reflexivity. Qed.

Example float_of_str_tag (rest : string -> result float) :
  float_of_str rest "030" = Ok 30%float /\ float_of_str rest "3.5" = rest "3.5".
Proof. split; reflexivity. Qed.

Example path_join_cases :
  path_join "data" "cmb_030.fits" = "data/cmb_030.fits" /\
  path_join "data/" "cmb_030.fits" = "data/cmb_030.fits" /\
  path_join "data" "/maps/cmb_030.fits" = "/maps/cmb_030.fits" /\
  path_join "" "cmb_030.fits" = "cmb_030.fits".
Proof. repeat split; reflexivity. Qed.

Example build_F_theory_two_columns :
  F_cols <$> build_F_theory sample_numerics default_beta_s default_nu0 (Some ["100"])
               (Some ["Sync"; "dust"; "CMB"])
  = Ok ["sync"; "cmb"] /\
  shape <$> (F <$> build_F_theory sample_numerics default_beta_s default_nu0 (Some ["100"])
                     (Some ["Sync"; "dust"; "CMB"]))
  = Ok (1, 2) /\
  shape <$> (F <$> build_F_theory sample_numerics default_beta_s default_nu0 (Some [])
                     (Some ["cmb"]))
  = Ok (0, 1) /\
  F <$> build_F_theory sample_numerics default_beta_s default_nu0 (Some ["100"; "143"])
          (Some ["dust"])
  = Ok {| shape := (2, 0); rows := [[]; []] |}.
Proof. repeat split; vm_compute; reflexivity. Qed.

Example build_F_empirical_one_file :
  rows <$> (F <$> build_F_empirical sample_world sample_numerics "data" sample_templates
                    ["030"; "044"] 0 "" None)
  = Ok [[2; 0]; [0; 0]]%float /\
  build_F_empirical sample_world sample_numerics "data" sample_templates ["030"] 0 ""
    (Some ["tsz"; "dust"])
  = Raise (ValueError "No valid components in file_templates for empirical F.").
Proof. split; vm_compute; reflexivity. Qed.

Example find_f_from_extract_comp_by_keys :
  find_f_from_extract_comp (zeros2 0 2) (One "b") [("a", []); ("b", [])] None
  = Ok [0; 1]%float /\
  find_f_from_extract_comp (zeros2 0 2) (One "b") [("a", []); ("b", [])] (Some ["b"; "a"])
  = Ok [1; 0]%float.
Proof. split; reflexivity. Qed.

(** ** Facts about the Python layer *)

Section index_facts.
Implicit Types (key : string) (l : list string).

Lemma index_Some key l i :
  index key l = Some i -> l !! i = Some key /\ forall j, j < i -> l !! j <> Some key.
Proof.
  revert i. induction l as [|x l IH]; intros i; simpl; [discriminate|].
  case_decide as Hx.
  - intros [= <-]. split; [by subst|]. intros j Hj. lia.
  - destruct (index key l) as [i'|] eqn:Hi; simpl; [|discriminate].
    intros [= <-]. destruct (IH i' eq_refl) as [H1 H2]. split; [done|].
    intros [|j] Hj; simpl; [congruence|]. apply H2. lia.
Qed.

Lemma index_None key l : index key l = None <-> key ∉ l.
Proof.
  induction l as [|x l IH]; simpl.
  - split; [intros _; apply not_elem_of_nil | done].
  - case_decide as Hx.
    + split; [discriminate|]. intros Hn. exfalso. apply Hn. subst. left.
    + rewrite not_elem_of_cons. destruct (index key l); simpl.
      * split; [discriminate|]. intros [_ Hn]. by apply IH in Hn.
      * split; [|done]. intros _. split; [congruence|]. by apply IH.
Qed.

Lemma index_is_Some key l : key ∈ l -> is_Some (index key l).
Proof.
  intros Hin. destruct (index key l) eqn:Hi; [by eexists|].
  by apply index_None in Hi.
Qed.

Lemma index_lt key l i : index key l = Some i -> i < length l.
Proof. intros [H _]%index_Some. by apply lookup_lt_Some in H. Qed.


End index_facts.


(** *** Keeping first occurrences *)

Section dedup_first_facts.
Context {A : Type} `{EqDecision A}.
Implicit Types (l : list A).

Lemma elem_of_dedup_first l x : x ∈ dedup_first l <-> x ∈ l.
Proof.
  induction l as [|y l IH]; simpl; [done|].
  rewrite !elem_of_cons, list_elem_of_filter, IH.
  destruct (decide (x = y)); naive_solver.
Qed.

Lemma NoDup_dedup_first l : NoDup (dedup_first l).
Proof.
  induction l as [|y l IH]; simpl; constructor.
  - rewrite list_elem_of_filter. naive_solver.
  - by apply NoDup_filter.
Qed.

Lemma dedup_first_filter (P : A -> Prop) `{!forall x, Decision (P x)} l :
  dedup_first (filter P l) = filter P (dedup_first l).
Proof.
  induction l as [|y l IH]; simpl; [done|].
  rewrite !filter_cons. case_decide as Hy; simpl.
  - f_equal. rewrite IH, !list_filter_filter. apply list_filter_iff. naive_solver.
  - rewrite IH, list_filter_filter. apply list_filter_iff.
    intros x. split; [|naive_solver]. intros Hx. split; [done|]. by intros ->.
Qed.


End dedup_first_facts.


(** ** The loop of [find_f_from_names], round by round *)


Section loop_facts.
Variables (component_names names_lower : list string).

Lemma found_at_exists selected :
  Forall (fun name => lower name ∈ names_lower) selected ->
  exists positions, found_at names_lower selected positions.
Proof.
  induction 1 as [|name rest Hin _ [ps IH]]; [exists []; constructor|].
  destruct (index_is_Some _ _ Hin) as [i Hi].
  exists (i :: ps). by constructor.
Qed.

Lemma found_at_lt selected positions :
  found_at names_lower selected positions ->
  Forall (fun i => i < length names_lower) positions.
Proof.
  induction 1 as [|name i rest ps Hi _ IH]; constructor; [|done].
  by eapply index_lt.
Qed.

Lemma find_loop_found selected positions f idxs :
  found_at names_lower selected positions ->
  find_loop component_names names_lower selected f idxs
  = Ok (foldl mark (f, idxs) positions).
Proof.
  intros Hfound. revert f idxs.
  induction Hfound as [|name i rest ps Hi _ IH]; intros f idxs; simpl; [done|].
  rewrite Hi. unfold mark at 2. simpl. case_decide; apply IH.
Qed.


Lemma find_loop_app l1 l2 f idxs :
  find_loop component_names names_lower (l1 ++ l2) f idxs
  = st ← find_loop component_names names_lower l1 f idxs;
    find_loop component_names names_lower l2 st.1 st.2.
Proof.
  revert f idxs. induction l1 as [|name l1 IH]; intros f idxs; simpl; [done|].
  destruct (index (lower name) names_lower); [|done].
  case_decide; apply IH.
Qed.

Lemma find_loop_grows selected f idxs f' idxs' :
  find_loop component_names names_lower selected f idxs = Ok (f', idxs') ->
  idxs ⊆ idxs'.
Proof.
  revert f idxs. induction selected as [|name rest IH]; intros f idxs; simpl.
  - by intros [= _ <-].
  - destruct (index (lower name) names_lower); [|done].
    case_decide; intros Hrun%IH; [done|].
    intros x Hx. apply Hrun, elem_of_app. by left.
Qed.
End loop_facts.

Section mark_facts.
Implicit Types (f : list float) (idxs positions : list nat).

Lemma foldl_mark_snd positions f idxs :
  (foldl mark (f, idxs) positions).2
  = idxs ++ dedup_first (filter (fun i => i ∉ idxs) positions).
Proof.
  revert f idxs. induction positions as [|i ps IH]; intros f idxs; simpl.
  - by rewrite app_nil_r.
  - rewrite filter_cons. unfold mark at 2. simpl.
    destruct (decide (i ∈ idxs)) as [Hin|Hin].
    + rewrite decide_False by naive_solver. apply IH.
    + rewrite decide_True by done. rewrite IH. simpl.
      rewrite <- app_assoc. simpl. do 2 f_equal.
      rewrite <- dedup_first_filter, list_filter_filter. f_equal.
      apply list_filter_iff. intros x.
      rewrite elem_of_app, list_elem_of_singleton. naive_solver.
Qed.

Lemma indicator_init n : indicator n (replicate n 0%float) [].
Proof.
  split; [apply length_replicate|]. intros i Hi.
  rewrite lookup_replicate_2 by done.
  by rewrite decide_False by apply not_elem_of_nil.
Qed.

Lemma indicator_mark n f idxs i :
  indicator n f idxs -> i < n ->
  indicator n (mark (f, idxs) i).1 (mark (f, idxs) i).2.
Proof.
  intros [Hlen Hf] Hi. unfold mark. simpl.
  destruct (decide (i ∈ idxs)) as [Hin|Hin]; simpl; [done|].
  split; [by rewrite length_insert|]. intros j Hj.
  destruct (decide (j = i)) as [->|Hne].
  - rewrite list_lookup_insert_eq by lia.
    rewrite decide_True; [done|]. apply elem_of_app. right. left.
  - rewrite list_lookup_insert_ne by done. rewrite Hf by done. f_equal.
    destruct (decide (j ∈ idxs)) as [Hj'|Hj'].
    + rewrite decide_True; [done|]. apply elem_of_app. by left.
    + rewrite decide_False; [done|].
      rewrite elem_of_app, list_elem_of_singleton. naive_solver.
Qed.

Lemma indicator_foldl n positions f idxs :
  indicator n f idxs -> Forall (fun i => i < n) positions ->
  indicator n (foldl mark (f, idxs) positions).1 (foldl mark (f, idxs) positions).2.
Proof.
  intros Hind Hlt. revert f idxs Hind.
  induction Hlt as [|i ps Hi _ IH]; intros f idxs Hind; simpl; [done|].
  pose proof (indicator_mark _ _ _ _ Hind Hi) as Hstep.
  destruct (mark (f, idxs) i) as [f1 idxs1]. by apply IH.
Qed.

Lemma length_filter_fmap {A B : Type} (P : B -> Prop) `{!forall y, Decision (P y)}
    (g : A -> B) (l : list A) :
  length (filter P (g <$> l)) = length (filter (fun x => P (g x)) l).
Proof.
  induction l as [|x l IH]; csimpl; [done|].
  rewrite !filter_cons. case_decide; simpl; by rewrite IH.
Qed.

Lemma indicator_count n f idxs :
  indicator n f idxs -> NoDup idxs -> Forall (fun i => i < n) idxs ->
  count_ones f = length idxs.
Proof.
  intros [Hlen Hf] Hnd Hlt.
  assert (Heq : f = (fun i => if decide (i ∈ idxs) then 1%float else 0%float) <$> seq 0 n).
  { apply list_eq. intros i. rewrite list_lookup_fmap.
    destruct (decide (i < n)) as [Hi|Hi].
    - rewrite Hf by done. by rewrite lookup_seq_lt.
    - rewrite lookup_ge_None_2 by lia. by rewrite lookup_seq_ge by lia. }
  unfold count_ones. rewrite Heq, length_filter_fmap.
  apply Permutation_length, NoDup_Permutation; [|done|].
  - apply NoDup_filter, NoDup_seq.
  - intros i. rewrite list_elem_of_filter, elem_of_seq. simpl.
    rewrite Forall_forall in Hlt.
    destruct (decide (i ∈ idxs)) as [Hin|Hin].
    + split; [done|]. intros _. split; [reflexivity|]. specialize (Hlt _ Hin). lia.
    + split; [|done]. intros [Hone _]. vm_compute in Hone. discriminate.
Qed.
End mark_facts.


Section loop_inversion.
Variables (component_names names_lower : list string).

Lemma find_loop_Ok_inv selected f idxs st :
  find_loop component_names names_lower selected f idxs = Ok st ->
  exists positions,
    found_at names_lower selected positions /\ st = foldl mark (f, idxs) positions.
Proof.
  revert f idxs. induction selected as [|name rest IH]; intros f idxs; simpl.
  - intros [= <-]. exists []. split; [constructor|done].
  - destruct (index (lower name) names_lower) as [i|] eqn:Hi; [|done].
    intros Hrun.
    assert (Hstep : find_loop component_names names_lower rest
                      (mark (f, idxs) i).1 (mark (f, idxs) i).2 = Ok st).
    { unfold mark. simpl. by case_decide. }
    destruct (IH _ _ Hstep) as (ps & Hps & ->).
    exists (i :: ps). split; [by constructor|]. simpl.
    by destruct (mark (f, idxs) i).
Qed.

End loop_inversion.

Section substring_facts.





End substring_facts.

(** ** [find_f_from_names]: the indicator vector *)

Section find_f_from_names_facts.
Implicit Types (component_names : list string) (selected : selection).

(** What a successful call returns, with no assumption on
    [component_names]. *)
Lemma find_f_from_names_Ok component_names selected f idxs :
  find_f_from_names component_names selected = Ok (f, idxs) ->
  exists positions,
    found_at (map lower component_names) (as_list selected) positions /\
    idxs = dedup_first positions /\
    indicator (length component_names) f idxs.
Proof.
  unfold find_f_from_names. intros Hrun.
  destruct (find_loop_Ok_inv _ _ _ _ _ _ Hrun) as (ps & Hps & Hst).
  exists ps. split; [done|].
  pose proof (foldl_mark_snd ps (replicate (length component_names) 0%float) []) as Hsnd.
  pose proof (indicator_foldl (length component_names) ps _ _
                (indicator_init _)) as Hind.
  rewrite <- Hst in Hsnd, Hind. simpl in *.
  assert (Hidxs : idxs = dedup_first ps).
  { rewrite Hsnd. f_equal. clear.
    induction ps as [|i ps IH]; [done|].
    rewrite filter_cons_True by apply not_elem_of_nil. by f_equal. }
  split; [done|]. apply Hind.
  apply found_at_lt in Hps. by rewrite length_map in Hps.
Qed.

Lemma found_at_elem names_lower sel positions i :
  found_at names_lower sel positions ->
  i ∈ positions <-> exists name, name ∈ sel /\ index (lower name) names_lower = Some i.
Proof.
  induction 1 as [|name j rest ps Hj _ IH].
  - split; [by intros ?%elem_of_nil|]. by intros (? & ?%elem_of_nil & _).
  - rewrite elem_of_cons, IH. split.
    + intros [->|(n & Hn & Hi)]; [exists name; split; [left|done]|].
      exists n. split; [by right|done].
    + intros (n & [->|Hn]%elem_of_cons & Hi); [left; congruence|].
      right. by exists n.
Qed.
Lemma find_f_from_names_returns component_names selected :
  Forall (fun name => lower name ∈ map lower component_names) (as_list selected) ->
  exists f idxs, find_f_from_names component_names selected = Ok (f, idxs).
Proof.
  intros Hall. destruct (found_at_exists _ _ Hall) as [ps Hps].
  unfold find_f_from_names. rewrite (find_loop_found _ _ _ _ _ _ Hps).
  destruct (foldl mark _ ps) as [f idxs]. by exists f, idxs.
Qed.
End find_f_from_names_facts.




(** ** [find_f_from_names]: the error *)



(** ** [find_f_from_names]: a name selected again *)

Lemma find_f_from_names_again (component_names : list string)
    (name name' : string) (l1 l2 l3 : list string) :
  lower name' = lower name ->
  find_f_from_names component_names (Several (l1 ++ name :: l2 ++ name' :: l3))
  = find_f_from_names component_names (Several (l1 ++ name :: l2 ++ l3)).
Proof.
  intros Hlower. unfold find_f_from_names. simpl.
  generalize (replicate (length component_names) 0%float). intros f.
  generalize (@nil nat). intros idxs.
  rewrite !(find_loop_app _ _ l1).
  destruct (find_loop _ _ l1 f idxs) as [[f1 idxs1]|e]; [|done]. simpl.
  destruct (index (lower name) (map lower component_names)) as [i|] eqn:Hi; [|done].
  assert (Hstep : exists f2 idxs2, i ∈ idxs2 /\
    (if decide (i ∈ idxs1)
     then find_loop component_names (map lower component_names) (l2 ++ name' :: l3) f1 idxs1
     else find_loop component_names (map lower component_names) (l2 ++ name' :: l3)
            (<[i:=1%float]> f1) (idxs1 ++ [i]))
    = find_loop component_names (map lower component_names) (l2 ++ name' :: l3) f2 idxs2 /\
    (if decide (i ∈ idxs1)
     then find_loop component_names (map lower component_names) (l2 ++ l3) f1 idxs1
     else find_loop component_names (map lower component_names) (l2 ++ l3)
            (<[i:=1%float]> f1) (idxs1 ++ [i]))
    = find_loop component_names (map lower component_names) (l2 ++ l3) f2 idxs2).
  { case_decide as Hin.
    - by exists f1, idxs1.
    - exists (<[i:=1%float]> f1), (idxs1 ++ [i]). split; [|done].
      apply elem_of_app. right. left. }
  destruct Hstep as (f2 & idxs2 & Hin2 & -> & ->).
  rewrite !(find_loop_app _ _ l2).
  destruct (find_loop _ _ l2 f2 idxs2) as [[f3 idxs3]|e] eqn:Hl2; [|done]. simpl.
  rewrite Hlower, Hi. apply find_loop_grows in Hl2.
  by rewrite decide_True by by apply Hl2.
Qed.

(** C9.  Listing a name a second time changes nothing: the selection with
    the later repetition and the selection without it give the same result,
    vector and index list alike (and the same error when the call fails); in
    particular a name given twice gives what the name alone gives. *)
Theorem find_f_from_names_repeated (component_names : list string)
    (name : string) (l1 l2 l3 : list string) :
  find_f_from_names component_names (Several (l1 ++ name :: l2 ++ name :: l3))
  = find_f_from_names component_names (Several (l1 ++ name :: l2 ++ l3))
  /\ find_f_from_names component_names (Several [name; name])
    = find_f_from_names component_names (One name).
Proof.
  split; [by apply find_f_from_names_again|].
  by apply (find_f_from_names_again component_names name name [] [] []).
Qed.

(** A selected name that differs only by letter case from one selected
    before it changes nothing either. *)
Theorem find_f_from_names_alias (component_names : list string)
    (name name' : string) (l1 l2 l3 : list string) :
  lower name' = lower name ->
  find_f_from_names component_names (Several (l1 ++ name :: l2 ++ name' :: l3))
  = find_f_from_names component_names (Several (l1 ++ name :: l2 ++ l3)).
Proof. apply find_f_from_names_again. Qed.

Lemma find_f_from_names_alias_witness :
  lower "CMB" = lower "cmb" /\
  find_f_from_names ["tsz"; "cmb"] (Several (["tsz"] ++ "cmb" :: [] ++ "CMB" :: []))
  = find_f_from_names ["tsz"; "cmb"] (Several (["tsz"] ++ "cmb" :: [] ++ [])).
Proof.
  split; [reflexivity|].
  exact (find_f_from_names_alias ["tsz"; "cmb"] "cmb" "CMB" ["tsz"] [] [] eq_refl).
Defined.

(** ** [find_f_from_names]: a column name that occurs twice *)



(** ** Dictionaries, comprehensions and stacked columns *)

Section dict_facts.
Context {V : Type}.
Implicit Types (d : dict V) (key : string) (v : V).

Lemma dict_get_set d key key' v :
  dict_get (dict_set d key v) key'
  = if decide (key = key') then Some v else dict_get d key'.
Proof.
  induction d as [|[k0 v0] d IH]; simpl.
  - by repeat case_decide.
  - destruct (decide (k0 = key)) as [->|Hne]; simpl.
    + by repeat case_decide.
    + rewrite IH. repeat case_decide; congruence.
Qed.

Lemma collect_Ok (vecs : dict V) cols acc :
  Forall (fun c => is_Some (dict_get vecs c)) cols ->
  exists rv, collect vecs cols acc = Ok rv /\
    forall c, dict_get rv c = if decide (c ∈ cols) then dict_get vecs c else dict_get acc c.
Proof.
  intros Hall. revert acc.
  induction Hall as [|c cols [v Hv] _ IH]; intros acc; simpl collect.
  - exists acc. split; [done|]. intros c. by rewrite decide_False by apply not_elem_of_nil.
  - unfold getitem. rewrite Hv. simpl mbind. unfold result_bind, bind.
    destruct (IH (dict_set acc c v)) as (rv & Hrv & Hget).
    exists rv. split; [done|]. intros c'. rewrite Hget, dict_get_set.
    destruct (decide (c' ∈ cols)) as [Hin|Hin].
    + rewrite decide_True; [done|by right].
    + destruct (decide (c = c')) as [->|Hne].
      * rewrite decide_True; [done|left].
      * rewrite decide_False; [done|]. rewrite elem_of_cons. naive_solver.
Qed.
End dict_facts.

Section comprehension_facts.
Context {A B : Type}.
Implicit Types (g : A -> result B) (l : list A).

Lemma comprehension_Ok g l (h : A -> B) :
  Forall (fun x => g x = Ok (h x)) l -> comprehension g l = Ok (h <$> l).
Proof.
  induction 1 as [|x l Hx _ IH]; simpl; [done|]. by rewrite Hx, IH.
Qed.

Lemma comprehension_inv g l ys :
  comprehension g l = Ok ys -> Forall2 (fun x y => g x = Ok y) l ys.
Proof.
  revert ys. induction l as [|x l IH]; intros ys; simpl.
  - intros [= <-]. constructor.
  - destruct (g x) as [y|e] eqn:Hx; [|done]. simpl.
    destruct (comprehension g l) as [ys'|e] eqn:Hl; [|done]. simpl.
    intros [= <-]. constructor; [done|]. by apply IH.
Qed.

Lemma comprehension_length g l ys : comprehension g l = Ok ys -> length ys = length l.
Proof. intros H%comprehension_inv. symmetry. by eapply Forall2_length. Qed.
End comprehension_facts.

Section column_stack_facts.
Implicit Types (cols : list (list float)) (c : list float).

Lemma tabulate_lookup c :
  (fun i => default 0%float (c !! i)) <$> seq 0 (length c) = c.
Proof.
  apply list_eq. intros i. rewrite list_lookup_fmap.
  destruct (decide (i < length c)) as [Hi|Hi].
  - rewrite lookup_seq_lt by done. simpl.
    destruct (lookup_lt_is_Some_2 c i Hi) as [x Hx]. by rewrite Hx.
  - rewrite lookup_seq_ge by lia. by rewrite lookup_ge_None_2 by lia.
Qed.

Lemma column_stack_Ok cols n :
  cols <> [] -> Forall (fun c => length c = n) cols ->
  exists M, column_stack cols = Ok M /\ shape M = (n, length cols) /\
    (forall j c, cols !! j = Some c -> column M j = Ok c) /\
    (forall i j c, i < n -> cols !! j = Some c -> entry M i j = c !! i).
Proof.
  intros Hne Hall. destruct cols as [|c0 cols']; [done|].
  set (cols := c0 :: cols') in *.
  assert (Hn : length c0 = n) by by inversion Hall.
  assert (Hforall : forallb (fun c' => (length c' =? n)%nat) cols = true).
  { apply forallb_forall. intros c Hc%list_elem_of_In.
    rewrite Forall_forall in Hall. apply Nat.eqb_eq. by apply Hall. }
  assert (Heq : column_stack cols
    = Ok {| shape := (n, length cols);
            rows := (fun i => (fun c' => default 0%float (c' !! i)) <$> cols) <$> seq 0 n |}).
  { unfold cols at 1. unfold column_stack. fold cols. by rewrite Hn, Hforall. }
  rewrite Heq. clear Heq Hn. clearbody cols.
  eexists. split; [done|]. split; [done|]. split.
  - intros j c Hj. unfold column. simpl.
    assert (Hlt : j < length cols) by by eapply lookup_lt_Some.
    apply Nat.ltb_lt in Hlt. rewrite Hlt. f_equal.
    rewrite <- list_fmap_compose.
    rewrite Forall_forall in Hall.
    etransitivity; [|apply (tabulate_lookup c)].
    rewrite (Hall c) by by eapply list_elem_of_lookup_2.
    apply list_fmap_ext. intros _ i _. simpl.
    by rewrite list_lookup_fmap, Hj.
  - intros i j c Hi Hj. unfold entry. simpl.
    rewrite list_lookup_fmap, lookup_seq_lt by done. simpl.
    rewrite list_lookup_fmap, Hj. simpl.
    rewrite Forall_forall in Hall.
    assert (Hlen : length c = n) by by eapply Hall, list_elem_of_lookup_2.
    destruct (lookup_lt_is_Some_2 c i) as [x Hx]; [lia|]. by rewrite Hx.
Qed.
End column_stack_facts.

(** ** The theory builder *)

Section theory_facts.
Variables (num : Numerics) (beta_s nu0 : float).

Lemma stack_columns_Ok (rv : dict (list float)) (cols : list string) (n : nat) :
  Forall (fun c => exists v, dict_get rv c = Some v /\ length v = n) cols ->
  exists M, stack_columns rv cols n = Ok M /\
    shape M = (n, length cols) /\
    (cols = [] -> M = zeros2 n 0) /\
    (forall j c, cols !! j = Some c ->
       exists v, dict_get rv c = Some v /\ column M j = Ok v /\
         forall i, i < n -> entry M i j = v !! i).
Proof.
  intros Hall. destruct (decide (cols = [])) as [->|Hne].
  - exists (zeros2 n 0). split; [done|]. split; [done|]. split; [done|].
    intros j c Hj. by rewrite lookup_nil in Hj.
  - set (pick := fun c => default [] (dict_get rv c)).
    assert (Hcomp : comprehension (getitem rv) cols = Ok (pick <$> cols)).
    { apply comprehension_Ok. eapply Forall_impl; [exact Hall|].
      intros c (v & Hv & _). unfold getitem, pick. by rewrite Hv. }
    destruct (column_stack_Ok (pick <$> cols) n) as (M & HM & Hshape & Hcol & Hentry).
    + by intros Hnil%fmap_nil_inv.
    + apply Forall_fmap. eapply Forall_impl; [exact Hall|].
      intros c (v & Hv & Hlen). unfold pick. simpl. by rewrite Hv.
    + exists M. split.
      { destruct cols; [done|]. unfold stack_columns. by rewrite Hcomp. }
      rewrite length_fmap in Hshape. split; [done|]. split; [done|].
      intros j c Hj. rewrite Forall_forall in Hall.
      destruct (Hall c) as (v & Hv & Hlen); [by eapply list_elem_of_lookup_2|].
      assert (Hpick : (pick <$> cols) !! j = Some v).
      { rewrite list_lookup_fmap, Hj. simpl. unfold pick. by rewrite Hv. }
      exists v. split; [done|]. split; [by apply Hcol|].
      intros i Hi. by apply Hentry.
Qed.

Lemma zip_with_fmap_same {A B C : Type} (g : A -> B -> C) (g' : A -> B) (l : list A) :
  zip_with g l (g' <$> l) = (fun a => g a (g' a)) <$> l.
Proof. induction l as [|a l IH]; csimpl; [done|]. by rewrite IH. Qed.

(** The dictionary [vecs] of [build_F_theory], entry by entry. *)
Lemma vecs_get (values : list float) (c : string) :
  let nu := (fun v => v * 1e9)%float <$> values in
  dict_get [ ("cmb", (fun _ => 1%float) <$> nu);
             ("tsz", tsz_of num <$> (x_of <$> nu));
             ("sync", zip_with (sync_of num beta_s nu0) nu (g_of num <$> (x_of <$> nu))) ] c
  = if decide (c ∈ supported) then Some (theory_response num beta_s nu0 c <$> values)
    else None.
Proof.
  intros nu. unfold supported. simpl.
  destruct (decide ("cmb" = c)) as [<-|H1].
  { rewrite decide_True by left. f_equal. unfold nu.
    rewrite <- list_fmap_compose. by apply list_fmap_ext. }
  destruct (decide ("tsz" = c)) as [<-|H2].
  { rewrite decide_True by (right; left). f_equal. unfold nu.
    rewrite <- !list_fmap_compose. by apply list_fmap_ext. }
  destruct (decide ("sync" = c)) as [<-|H3].
  { rewrite decide_True by (right; right; left). f_equal. unfold nu.
    rewrite <- list_fmap_compose, zip_with_fmap_same, <- list_fmap_compose.
    by apply list_fmap_ext. }
  rewrite decide_False; [done|].
  rewrite !elem_of_cons, elem_of_nil. naive_solver.
Qed.

Lemma build_F_theory_spec (frequencies : option (list string))
    (components_order : option (list string)) (values : list float) :
  comprehension (float_of_str (py_float num)) (default default_frequencies frequencies) = Ok values ->
  exists r,
    build_F_theory num beta_s nu0 frequencies components_order = Ok r /\
    F_cols r = match components_order with
               | None => ["cmb"; "tsz"; "sync"]
               | Some order => filter (fun c => c ∈ supported) (lower <$> order)
               end /\
    frequencies_out r = default default_frequencies frequencies /\
    shape (F r) = (length (frequencies_out r), length (F_cols r)) /\
    (F_cols r = [] -> F r = zeros2 (length (frequencies_out r)) 0) /\
    (forall j c, F_cols r !! j = Some c ->
       c ∈ supported /\
       dict_get (reference_vectors r) c
         = Some (theory_response num beta_s nu0 c <$> values) /\
       column (F r) j = Ok (theory_response num beta_s nu0 c <$> values) /\
       forall i value, values !! i = Some value ->
         entry (F r) i j = Some (theory_response num beta_s nu0 c value)).
Proof.
  intros Hvalues.
  pose proof (comprehension_length _ _ _ Hvalues) as Hlen.
  unfold build_F_theory.
  replace (match frequencies with Some l => l | None => default_frequencies end)
    with (default default_frequencies frequencies) by by destruct frequencies.
  rewrite Hvalues. simpl mbind. unfold result_bind at 1. unfold bind at 1.
  set (nu := (fun v => v * 1e9)%float <$> values).
  set (vecs := [ ("cmb", (fun _ => 1%float) <$> nu);
                 ("tsz", tsz_of num <$> (x_of <$> nu));
                 ("sync", zip_with (sync_of num beta_s nu0) nu (g_of num <$> (x_of <$> nu))) ]).
  assert (Hvecs : forall c, dict_get vecs c
            = if decide (c ∈ supported)
              then Some (theory_response num beta_s nu0 c <$> values) else None)
    by apply vecs_get.
  clearbody vecs.
  set (cols := match components_order with
               | None => ["cmb"; "tsz"; "sync"]
               | Some order => filter (fun c => dict_mem vecs c = true) (lower <$> order)
               end).
  assert (Hcols : cols = match components_order with
                         | None => ["cmb"; "tsz"; "sync"]
                         | Some order => filter (fun c => c ∈ supported) (lower <$> order)
                         end).
  { unfold cols. destruct components_order as [order|]; [|done].
    apply list_filter_iff. intros c. unfold dict_mem. rewrite Hvecs.
    by case_decide. }
  assert (Hsup : Forall (fun c => c ∈ supported) cols).
  { rewrite Hcols. destruct components_order as [order|].
    - apply Forall_forall. by intros c [Hc _]%list_elem_of_filter.
    - unfold supported. by apply Forall_forall. }
  clearbody cols.
  destruct (collect_Ok vecs cols []) as (rv & Hrv & Hget).
  { eapply Forall_impl; [exact Hsup|]. intros c Hc. rewrite Hvecs.
    by rewrite decide_True. }
  rewrite Hrv. simpl mbind. unfold result_bind at 1. unfold bind at 1.
  assert (Hrvget : forall c, c ∈ cols ->
            dict_get rv c = Some (theory_response num beta_s nu0 c <$> values)).
  { intros c Hc. rewrite Hget, decide_True by done. rewrite Hvecs.
    rewrite Forall_forall in Hsup. by rewrite decide_True by by apply Hsup. }
  destruct (stack_columns_Ok rv cols (length nu)) as (M & HM & Hshape & Hzero & Hcolumn).
  { apply Forall_forall. intros c Hc. eexists. split; [by apply Hrvget|].
    unfold nu. by rewrite !length_fmap. }
  rewrite HM. simpl mbind. unfold result_bind, bind.
  assert (Hn : length nu = length (default default_frequencies frequencies))
    by (unfold nu; by rewrite length_fmap).
  eexists. split; [done|]. simpl. rewrite <- Hn.
  split; [done|]. split; [done|]. split; [done|]. split; [done|].
  intros j c Hj. destruct (Hcolumn j c Hj) as (v & Hv & Hcol & Hentry).
  assert (Hc : c ∈ cols) by by eapply list_elem_of_lookup_2.
  rewrite (Hrvget c Hc) in Hv. injection Hv as <-.
  rewrite Forall_forall in Hsup. split; [by apply Hsup|]. split; [by apply Hrvget|].
  split; [done|]. intros i value Hi.
  rewrite Hentry by (unfold nu; rewrite length_fmap; by eapply lookup_lt_Some).
  by rewrite list_lookup_fmap, Hi.
Qed.

Lemma default_frequencies_values :
  comprehension (float_of_str (py_float num)) default_frequencies
  = Ok [30; 44; 70; 100; 143; 217; 353; 545; 857]%float.
Proof. vm_compute. reflexivity. Qed.
End theory_facts.

(** ** The empirical builder *)

Section empirical_facts.
Variables (w : World) (num : Numerics) (base_dir : string) (realization : Z)
          (mask : option (list float)).

Lemma map_path_Ok tmpl f (name : string) :
  format_template w tmpl f realization = Ok name ->
  map_path w base_dir tmpl f realization = Ok (path_join base_dir name).
Proof. intros Hname. unfold map_path. by rewrite Hname. Qed.

Lemma fill_inv tmpl (fs : list string) (start : nat) (v v' : list float) :
  fill w num base_dir tmpl realization mask (zip (seq start (length fs)) fs) v = Ok v' ->
  start + length fs <= length v ->
  length v' = length v /\
  (forall i, i < start \/ start + length fs <= i -> v' !! i = v !! i) /\
  (forall t f, fs !! t = Some f ->
     exists path,
       map_path w base_dir tmpl f realization = Ok path /\
       (path_exists w path = false -> v' !! (start + t) = v !! (start + t)) /\
       (path_exists w path = true ->
          exists m, _mean w num path mask = Ok m /\ v' !! (start + t) = Some m)).
Proof.
  revert start v. induction fs as [|f0 fs IH]; intros start v; simpl.
  - intros [= <-] _. split; [done|]. split; [done|]. intros t f Ht.
    by rewrite lookup_nil in Ht.
  - destruct (format_template w tmpl f0 realization) as [name|e0] eqn:Hname; [|done].
    simpl. pose proof (map_path_Ok tmpl f0 name Hname) as Hpath.
    set (path := path_join base_dir name) in *.
    intros Hrun Hlen.
    destruct (path_exists w path) eqn:Hex.
    + destruct (_mean w num path mask) as [m|e] eqn:Hmean; [|done].
      simpl in Hrun. unfold result_bind, bind in Hrun.
      destruct (IH (S start) (<[start:=m]> v) Hrun) as (H1 & H2 & H3).
      { rewrite length_insert. lia. }
      rewrite length_insert in H1. split; [done|]. split.
      * intros i Hi. rewrite H2 by lia. apply list_lookup_insert_ne. lia.
      * intros [|t] f Ht; simpl in Ht.
        -- injection Ht as <-. exists path. split; [done|]. rewrite Nat.add_0_r, Hex.
           split; [done|]. intros _. exists m. split; [done|].
           rewrite H2 by lia. apply list_lookup_insert_eq. lia.
        -- replace (start + S t) with (S start + t) by lia.
           destruct (H3 t f Ht) as (path' & Hpath' & H3a & H3b).
           exists path'. split; [done|]. split.
           ++ intros Hf. rewrite (H3a Hf). apply list_lookup_insert_ne. lia.
           ++ done.
    + destruct (IH (S start) v Hrun) as (H1 & H2 & H3); [lia|].
      split; [done|]. split.
      * intros i Hi. apply H2. lia.
      * intros [|t] f Ht; simpl in Ht.
        -- injection Ht as <-. exists path. split; [done|]. rewrite Nat.add_0_r, Hex.
           split; [|done]. intros _. apply H2. lia.
        -- replace (start + S t) with (S start + t) by lia. by apply H3.
Qed.


(** The vector the outer loop stores for a component with template
    [tmpl]. *)
Lemma fill_measured tmpl (frequencies : list string) (v : list float) :
  fill w num base_dir tmpl realization mask (enumerate frequencies)
    (replicate (length frequencies) 0%float) = Ok v ->
  length v = length frequencies /\
  forall i f, frequencies !! i = Some f ->
    exists e, v !! i = Some e /\ measured w num base_dir realization mask tmpl f e.
Proof.
  intros Hrun. destruct (fill_inv _ _ 0 _ _ Hrun) as (H1 & _ & H3).
  { by rewrite length_replicate. }
  rewrite length_replicate in H1. split; [done|].
  intros i f Hi. destruct (H3 i f Hi) as (path & Hpath & Ha & Hb). simpl in Ha, Hb.
  assert (Hlt : i < length frequencies) by by eapply lookup_lt_Some.
  destruct (path_exists w path) eqn:Hex.
  - destruct (Hb eq_refl) as (m & Hm & Hv). exists m. split; [done|].
    exists path. rewrite Hex. by repeat split.
  - exists 0%float. split.
    + rewrite (Ha eq_refl). by apply lookup_replicate_2.
    + exists path. rewrite Hex. by repeat split.
Qed.
End empirical_facts.

Section measure_facts.
Variables (w : World) (num : Numerics) (base_dir : string)
          (file_templates : dict (option string)) (frequencies : list string)
          (realization : Z) (mask : option (list float)).

Let fill_for (tmpl : string) : result (list float) :=
  fill w num base_dir tmpl realization mask (enumerate frequencies)
    (replicate (length frequencies) 0%float).

Lemma measure_inv (cols : list string) (acc rv : dict (list float)) :
  measure w num base_dir file_templates frequencies realization mask cols acc = Ok rv ->
  forall c,
    (c ∈ cols -> exists tmpl v,
       dict_get file_templates c = Some (Some tmpl) /\ fill_for tmpl = Ok v /\
       dict_get rv c = Some (nan_to_num v)) /\
    (c ∉ cols -> dict_get rv c = dict_get acc c).
Proof.
  revert acc. induction cols as [|comp rest IH]; intros acc; simpl.
  - intros [= <-] c. split; [by intros ?%elem_of_nil|done].
  - destruct (dict_get file_templates comp) as [[tmpl|]|] eqn:Htmpl; [|done|done].
    fold (fill_for tmpl). destruct (fill_for tmpl) as [v|e] eqn:Hfill; [|done].
    simpl. unfold result_bind, bind. intros Hrun c.
    destruct (IH _ Hrun c) as [Hin Hout].
    destruct (decide (c ∈ rest)) as [Hc|Hc].
    + split; [intros _; by apply Hin|]. intros Hn. exfalso. apply Hn. by right.
    + rewrite (Hout Hc), dict_get_set. split.
      * intros [->|?]%elem_of_cons; [|done]. exists tmpl, v.
        by rewrite decide_True.
      * intros Hn. rewrite decide_False; [done|]. intros ->. apply Hn. left.
Qed.

End measure_facts.

Section build_F_empirical_facts.
Variables (w : World) (num : Numerics) (base_dir : string)
          (file_templates : dict (option string)) (frequencies : list string)
          (realization : Z) (mask_path : string)
          (components_order : option (list string)).

Let run : result F_result :=
  build_F_empirical w num base_dir file_templates frequencies realization mask_path
    components_order.

Lemma build_F_empirical_mask_error (e : exn) :
  mask_path <> "" -> read_map w mask_path = Raise e -> run = Raise e.
Proof.
  intros Hne Hread. unfold run, build_F_empirical.
  rewrite decide_False by done. by rewrite Hread.
Qed.

Lemma build_F_empirical_unfold (mask : option (list float)) :
  mask_is w mask_path mask ->
  run = match empirical_columns file_templates components_order with
        | [] => Raise (ValueError "No valid components in file_templates for empirical F.")
        | _ =>
            reference_vectors ←
              measure w num base_dir file_templates frequencies realization mask
                (empirical_columns file_templates components_order) [];
            F ← stack_columns reference_vectors
                  (empirical_columns file_templates components_order) (length frequencies);
            Ok {| F := F; F_cols := empirical_columns file_templates components_order;
                  reference_vectors := reference_vectors;
                  frequencies_out := frequencies |}
        end.
Proof.
  unfold run, build_F_empirical, empirical_columns, default_components.
  intros [[-> ->]|(Hne & M & HM & ->)].
  - by rewrite decide_True by done.
  - rewrite decide_False by done. by rewrite HM.
Qed.


(** What a successful run of the two loops and of the stacking gives. *)
Lemma build_F_empirical_columns_spec (mask : option (list float))
    (rv : dict (list float)) :
  let cols := empirical_columns file_templates components_order in
  measure w num base_dir file_templates frequencies realization mask cols [] = Ok rv ->
  exists M,
    stack_columns rv cols (length frequencies) = Ok M /\
    shape M = (length frequencies, length cols) /\
    (forall j c, cols !! j = Some c ->
       exists tmpl v,
         dict_get file_templates c = Some (Some tmpl) /\
         dict_get rv c = Some v /\ column M j = Ok v /\
         length v = length frequencies /\
         forall i f, frequencies !! i = Some f ->
           exists e, measured w num base_dir realization mask tmpl f e /\
             v !! i = Some (nan_to_num_entry e) /\
             entry M i j = Some (nan_to_num_entry e)).
Proof.
  intros cols Hrv.
  pose proof (measure_inv _ _ _ _ _ _ _ _ _ _ Hrv) as Hinv.
  destruct (stack_columns_Ok rv cols (length frequencies)) as (M & HM & Hshape & _ & Hcol).
  { apply Forall_forall. intros c Hc.
    destruct (proj1 (Hinv c) Hc) as (tmpl & v & _ & Hfill & Hget).
    exists (nan_to_num v). split; [done|].
    apply fill_measured in Hfill as [Hlen _]. unfold nan_to_num. by rewrite length_fmap. }
  exists M. split; [done|]. split; [done|].
  intros j c Hj.
  assert (Hc : c ∈ cols) by by eapply list_elem_of_lookup_2.
  destruct (proj1 (Hinv c) Hc) as (tmpl & v & Htmpl & Hfill & Hget).
  destruct (Hcol j c Hj) as (v' & Hv' & Hcolumn & Hentry).
  rewrite Hget in Hv'. injection Hv' as <-.
  apply fill_measured in Hfill as [Hlen Hmeasured].
  exists tmpl, (nan_to_num v). split; [done|]. split; [done|]. split; [done|].
  split; [unfold nan_to_num; by rewrite length_fmap|].
  intros i f Hi. destruct (Hmeasured i f Hi) as (e & He & Hm).
  assert (Hi' : i < length frequencies) by by eapply lookup_lt_Some.
  assert (Hv : nan_to_num v !! i = Some (nan_to_num_entry e))
    by (unfold nan_to_num; by rewrite list_lookup_fmap, He).
  exists e. split; [done|]. split; [done|]. by rewrite (Hentry i Hi').
Qed.

Lemma build_F_empirical_Ok_inv (r : F_result) :
  run = Ok r ->
  exists mask,
    mask_is w mask_path mask /\
    F_cols r = empirical_columns file_templates components_order /\
    F_cols r <> [] /\
    frequencies_out r = frequencies /\
    measure w num base_dir file_templates frequencies realization mask (F_cols r) []
      = Ok (reference_vectors r) /\
    stack_columns (reference_vectors r) (F_cols r) (length frequencies) = Ok (F r).
Proof.
  intros Hrun.
  assert (Hmask : exists mask, mask_is w mask_path mask).
  { destruct (decide (mask_path = "")) as [Hm|Hm]; [exists None; by left|].
    destruct (read_map w mask_path) as [M|e] eqn:HM.
    - exists (Some M). right. split; [done|]. by exists M.
    - rewrite (build_F_empirical_mask_error e Hm HM) in Hrun. done. }
  destruct Hmask as [mask Hmask]. exists mask. split; [done|].
  rewrite (build_F_empirical_unfold mask Hmask) in Hrun.
  destruct (empirical_columns file_templates components_order) as [|c0 cols'] eqn:Hcols;
    [done|].
  rewrite <- Hcols in Hrun.
  destruct (measure _ _ _ _ _ _ _ _ _) as [rv|e] eqn:Hrv; [|done].
  simpl in Hrun. unfold result_bind, bind in Hrun.
  destruct (stack_columns _ _ _) as [M|e] eqn:HM; [|done].
  injection Hrun as <-. simpl. rewrite Hcols in *. done.
Qed.

End build_F_empirical_facts.

(** ** [build_F_theory]: the columns *)

(** C2.  For every [components_order], and whatever [beta_s], [nu0] and the
    frequency tags are as long as the tags read as numbers,
    [build_F_theory] returns, and its [F_cols] is the requested names in
    lower case that are among ["cmb"], ["tsz"], ["sync"], in the order of the
    request, the other names being dropped; without [components_order],
    [F_cols] is [["cmb"; "tsz"; "sync"]]; and when [F_cols] is empty, [F] is
    the array of zeros of shape [(N_frequencies, 0)]. *)
Theorem build_F_theory_columns (num : Numerics) (beta_s nu0 : float)
    (frequencies : option (list string)) (components_order : option (list string)) :
  (exists values,
     tags_read num (default default_frequencies frequencies) values) ->
  exists r,
    build_F_theory num beta_s nu0 frequencies components_order = Ok r /\
    F_cols r = match components_order with
               | None => ["cmb"; "tsz"; "sync"]
               | Some order => filter (fun c => c ∈ ["cmb"; "tsz"; "sync"]) (lower <$> order)
               end /\
    (F_cols r = [] ->
       F r = zeros2 (length (default default_frequencies frequencies)) 0 /\
       shape (F r) = (length (default default_frequencies frequencies), 0)).
Proof.
  intros [values Hvalues].
  destruct (build_F_theory_spec num beta_s nu0 frequencies components_order values Hvalues)
    as (r & Hr & Hcols & Hfreq & Hshape & Hzero & _).
  exists r. split; [done|]. split; [done|].
  intros Hnil. rewrite <- Hfreq, (Hzero Hnil). done.
Qed.

Lemma build_F_theory_columns_witness :
  (exists values, tags_read sample_numerics (default default_frequencies None) values) /\
  exists r,
    build_F_theory sample_numerics default_beta_s default_nu0 None
      (Some ["Sync"; "dust"; "CMB"]) = Ok r /\
    F_cols r = filter (fun c => c ∈ ["cmb"; "tsz"; "sync"]) (lower <$> ["Sync"; "dust"; "CMB"]) /\
    (F_cols r = [] ->
       F r = zeros2 (length default_frequencies) 0 /\
       shape (F r) = (length default_frequencies, 0)).
Proof.
  assert (H : exists values,
            tags_read sample_numerics (default default_frequencies None) values)
    by (eexists; apply default_frequencies_values).
  split; [exact H|].
  exact (build_F_theory_columns sample_numerics default_beta_s default_nu0 None
           (Some ["Sync"; "dust"; "CMB"]) H).
Defined.

(** ** [build_F_theory]: the default call and the columns [sync], [cmb] *)

(** The call without arguments returns an array of 9 rows and 3 columns,
    one row per default frequency tag and the columns ["cmb"], ["tsz"],
    ["sync"], whose first column is [1.0] in every row. *)
Theorem build_F_theory_default (num : Numerics) :
  exists r,
    build_F_theory num default_beta_s default_nu0 None None = Ok r /\
    shape (F r) = (9, 3) /\
    F_cols r = ["cmb"; "tsz"; "sync"] /\
    frequencies_out r = ["030"; "044"; "070"; "100"; "143"; "217"; "353"; "545"; "857"] /\
    column (F r) 0 = Ok (replicate 9 1%float).
Proof.
  destruct (build_F_theory_spec num default_beta_s default_nu0 None None _
              (default_frequencies_values num))
    as (r & Hr & Hcols & Hfreq & Hshape & _ & Hcolumn).
  exists r. split; [done|]. rewrite Hcols, Hfreq in Hshape.
  split; [done|]. split; [done|]. split; [done|].
  destruct (Hcolumn 0 "cmb") as (_ & _ & Hcol & _); [by rewrite Hcols|].
  rewrite Hcol. reflexivity.
Qed.

(** With [components_order = ["sync"; "cmb"]], [F_cols] is
    [["sync"; "cmb"]], column 0 holds, channel by channel,
    [(nu / nu0) ** beta_s / g(nu)] with [nu] the tag times [1e9] and [g] the
    conversion factor of the spec, [x^2 e^x / (e^x - 1)^2] at
    [x = h nu / (k T)], and column 1 holds ones. *)
Theorem build_F_theory_sync_cmb (num : Numerics) (beta_s nu0 : float)
    (frequencies : option (list string)) (values : list float) :
  tags_read num (default default_frequencies frequencies) values ->
  exists r,
    build_F_theory num beta_s nu0 frequencies (Some ["sync"; "cmb"]) = Ok r /\
    F_cols r = ["sync"; "cmb"] /\
    column (F r) 0
    = Ok ((fun value => let nu := value * 1e9 in
                        np_power num (nu / nu0) beta_s
                        / conversion_factor (np_exp num) nu)%float <$> values) /\
    column (F r) 1 = Ok (replicate (length values) 1%float).
Proof.
  intros Hvalues.
  destruct (build_F_theory_spec num beta_s nu0 frequencies (Some ["sync"; "cmb"]) values Hvalues)
    as (r & Hr & Hcols & _ & _ & _ & Hcolumn).
  assert (Hcols' : F_cols r = ["sync"; "cmb"]) by (rewrite Hcols; reflexivity).
  exists r. split; [done|]. split; [done|]. split.
  - destruct (Hcolumn 0 "sync") as (_ & _ & -> & _); [by rewrite Hcols'|]. reflexivity.
  - destruct (Hcolumn 1 "cmb") as (_ & _ & -> & _); [by rewrite Hcols'|]. f_equal.
    clear. induction values as [|v values IH]; [done|]. csimpl. by rewrite IH.
Qed.

Lemma build_F_theory_sync_cmb_witness :
  tags_read sample_numerics (default default_frequencies (Some ["100"; "143"]))
    [100; 143]%float /\
  exists r,
    build_F_theory sample_numerics default_beta_s default_nu0 (Some ["100"; "143"])
      (Some ["sync"; "cmb"]) = Ok r /\
    F_cols r = ["sync"; "cmb"] /\
    column (F r) 0
    = Ok ((fun value => let nu := value * 1e9 in
                        np_power sample_numerics (nu / default_nu0) default_beta_s
                        / conversion_factor (np_exp sample_numerics) nu)%float
            <$> [100; 143]%float) /\
    column (F r) 1 = Ok (replicate 2 1%float).
Proof.
  assert (H : tags_read sample_numerics (default default_frequencies (Some ["100"; "143"]))
                [100; 143]%float) by (vm_compute; reflexivity).
  split; [exact H|].
  exact (build_F_theory_sync_cmb sample_numerics default_beta_s default_nu0
           (Some ["100"; "143"]) [100; 143]%float H).
Defined.

(** ** [build_F_empirical]: errors and missing files *)




(** ** [get_F]: the dispatch *)

(** C5, as amended.  [get_F] with [source = "theory"] (or with no [source])
    is [build_F_theory] called with the same keyword arguments, with
    [source = "empirical"] it is [build_F_empirical] called with them, and
    with any other [source] it raises
    [ValueError("source must be 'theory' or 'empirical'.")]: a fixed message
    that names the two accepted values. *)
Theorem get_F_dispatch (w : World) (num : Numerics) (source : string) (kw : kwargs) :
  (source = "theory" -> get_F w num (Some source) kw = call_build_F_theory num kw) /\
  (source = "empirical" ->
     get_F w num (Some source) kw = call_build_F_empirical w num kw) /\
  (source <> "theory" -> source <> "empirical" ->
     get_F w num (Some source) kw
     = Raise (ValueError "source must be 'theory' or 'empirical'.")) /\
  get_F w num None kw = call_build_F_theory num kw /\
  is_substring "'theory'" "source must be 'theory' or 'empirical'." = true /\
  is_substring "'empirical'" "source must be 'theory' or 'empirical'." = true /\
  call_build_F_theory num
    {| kw_beta_s := kw_beta_s kw; kw_nu0 := kw_nu0 kw;
       kw_frequencies := kw_frequencies kw;
       kw_components_order := kw_components_order kw;
       kw_base_dir := None; kw_file_templates := None; kw_realization := None;
       kw_mask_path := None; kw_other := [] |}
  = build_F_theory num (default default_beta_s (kw_beta_s kw))
      (default default_nu0 (kw_nu0 kw)) (kw_frequencies kw) (kw_components_order kw) /\
  (forall base_dir file_templates frequencies,
     call_build_F_empirical w num
       {| kw_beta_s := None; kw_nu0 := None;
          kw_frequencies := Some frequencies;
          kw_components_order := kw_components_order kw;
          kw_base_dir := Some base_dir; kw_file_templates := Some file_templates;
          kw_realization := kw_realization kw;
          kw_mask_path := kw_mask_path kw; kw_other := [] |}
     = build_F_empirical w num base_dir file_templates frequencies
         (default 0%Z (kw_realization kw)) (default "" (kw_mask_path kw))
         (kw_components_order kw)).
Proof.
  unfold get_F. simpl. repeat split.
  - intros ->. by rewrite decide_True.
  - intros ->. rewrite decide_False by done. by rewrite decide_True.
  - intros H1 H2. by rewrite !decide_False.
Qed.

Lemma get_F_dispatch_witness :
  get_F empty_world sample_numerics (Some "theory") no_kwargs
  = call_build_F_theory sample_numerics no_kwargs /\
  get_F empty_world sample_numerics (Some "bogus") no_kwargs
  = Raise (ValueError "source must be 'theory' or 'empirical'.").
Proof.
  split.
  - exact (proj1 (get_F_dispatch empty_world sample_numerics "theory" no_kwargs) eq_refl).
  - apply (proj1 (proj2 (proj2 (get_F_dispatch empty_world sample_numerics "bogus" no_kwargs))));
      discriminate.
Defined.

(** C5, as stated, fails on the message: it does not mention the value
    that was supplied. *)
Lemma get_F_message_counterexample :
  get_F empty_world sample_numerics (Some "bogus") no_kwargs
  = Raise (ValueError "source must be 'theory' or 'empirical'.") /\
  is_substring "bogus" "source must be 'theory' or 'empirical'." = false.
Proof. split; reflexivity. Qed.

(** ** [find_f_from_extract_comp] *)

(** C6.  With [F_cols] given, [find_f_from_extract_comp] returns the vector
    of [find_f_from_names(F_cols, names)] (and fails as it fails); without
    [F_cols], it returns the vector of [find_f_from_names] on the keys of
    [reference_vectors] in their order of insertion.  In particular, for
    names that are all in [F_cols], both calls return, with the same
    vector. *)
Theorem find_f_from_extract_comp_names (M : ndarray2) (names : selection)
    (rv : dict (list float)) (cols : list string) :
  find_f_from_extract_comp M names rv (Some cols) = fst <$> find_f_from_names cols names /\
  find_f_from_extract_comp M names rv None
  = fst <$> find_f_from_names (dict_keys rv) names /\
  (Forall (fun name => name ∈ cols) (as_list names) ->
     exists f idxs,
       find_f_from_names cols names = Ok (f, idxs) /\
       find_f_from_extract_comp M names rv (Some cols) = Ok f).
Proof.
  assert (Hgen : forall cols',
    (r ← find_f_from_names cols' (Several (as_list names)); Ok r.1)
    = fst <$> find_f_from_names cols' names) by (intros cols'; by destruct names).
  assert (H1 : find_f_from_extract_comp M names rv (Some cols)
               = fst <$> find_f_from_names cols names).
  { unfold find_f_from_extract_comp. rewrite <- Hgen. by destruct names. }
  split; [done|]. split.
  - unfold find_f_from_extract_comp. rewrite <- Hgen. by destruct names.
  - intros Hall.
    destruct (find_f_from_names_returns cols names) as (f & idxs & Hf).
    { eapply Forall_impl; [exact Hall|]. intros name Hname.
      apply list_elem_of_fmap. by exists name. }
    exists f, idxs. split; [done|]. by rewrite H1, Hf.
Qed.

Lemma find_f_from_extract_comp_names_witness :
  Forall (fun name => name ∈ ["sync"; "cmb"]) ["cmb"] /\
  exists f idxs,
    find_f_from_names ["sync"; "cmb"] (One "cmb") = Ok (f, idxs) /\
    find_f_from_extract_comp (zeros2 9 2) (One "cmb") [] (Some ["sync"; "cmb"]) = Ok f.
Proof.
  assert (H : Forall (fun name => name ∈ ["sync"; "cmb"]) (as_list (One "cmb")))
    by (apply (bool_decide_unpack _); vm_compute; exact I).
  split; [exact H|].
  exact (proj2 (proj2 (find_f_from_extract_comp_names (zeros2 9 2) (One "cmb") []
                         ["sync"; "cmb"])) H).
Defined.

(** ** Both builders: shape and columns of [F] *)

Lemma build_F_theory_Ok_values (num : Numerics) (beta_s nu0 : float)
    (frequencies : option (list string)) (components_order : option (list string))
    (r : F_result) :
  build_F_theory num beta_s nu0 frequencies components_order = Ok r ->
  exists values,
    tags_read num (default default_frequencies frequencies) values.
Proof.
  unfold build_F_theory.
  replace (match frequencies with Some l => l | None => default_frequencies end)
    with (default default_frequencies frequencies) by by destruct frequencies.
  unfold tags_read.
  destruct (comprehension (float_of_str (py_float num)) _) as [values|e];
    [by exists values|done].
Qed.

(** C8.  Whenever [build_F_theory] or [build_F_empirical] returns, [F] has
    shape [(len(frequencies_out), len(F_cols))], [frequencies_out] is the
    list of frequency tags the builder worked on, and for every column index
    [j] the column [F[:, j]] is the vector [reference_vectors[F_cols[j]]];
    that vector has one entry per frequency tag, in the order of the tags:
    its entry [i] is the response of the component in channel [i] (the closed
    form at the number the tag reads as, for the theory builder; the
    sanitised masked mean of the channel's map, or [0.0] without the file,
    for the empirical builder). *)
Theorem builders_shape_and_columns (w : World) (num : Numerics) :
  (forall beta_s nu0 frequencies components_order r,
     build_F_theory num beta_s nu0 frequencies components_order = Ok r ->
     shape (F r) = (length (frequencies_out r), length (F_cols r)) /\
     frequencies_out r = default default_frequencies frequencies /\
     forall j c, F_cols r !! j = Some c ->
       exists v values,
         dict_get (reference_vectors r) c = Some v /\
         column (F r) j = Ok v /\
         length v = length (frequencies_out r) /\
         tags_read num (frequencies_out r) values /\
         v = theory_response num beta_s nu0 c <$> values) /\
  (forall base_dir file_templates frequencies realization mask_path components_order r,
     build_F_empirical w num base_dir file_templates frequencies realization mask_path
       components_order = Ok r ->
     shape (F r) = (length (frequencies_out r), length (F_cols r)) /\
     frequencies_out r = frequencies /\
     exists mask, mask_is w mask_path mask /\
       forall j c, F_cols r !! j = Some c ->
         exists v tmpl,
           dict_get file_templates c = Some (Some tmpl) /\
           dict_get (reference_vectors r) c = Some v /\
           column (F r) j = Ok v /\
           length v = length (frequencies_out r) /\
           forall i f, frequencies !! i = Some f ->
             exists e, measured w num base_dir realization mask tmpl f e /\
               v !! i = Some (nan_to_num_entry e)).
Proof.
  split.
  - intros beta_s nu0 frequencies components_order r Hr.
    destruct (build_F_theory_Ok_values _ _ _ _ _ _ Hr) as [values Hvalues].
    destruct (build_F_theory_spec num beta_s nu0 frequencies components_order values Hvalues)
      as (r' & Hr' & _ & Hfreq & Hshape & _ & Hcolumn).
    assert (r' = r) as -> by congruence.
    split; [done|]. split; [done|].
    intros j c Hj. destruct (Hcolumn j c Hj) as (_ & Hget & Hcol & _).
    exists (theory_response num beta_s nu0 c <$> values), values.
    split; [done|]. split; [done|].
    split; [rewrite length_fmap, Hfreq; by eapply comprehension_length|].
    split; [|done]. by rewrite Hfreq.
  - intros base_dir file_templates frequencies realization mask_path components_order r Hr.
    destruct (build_F_empirical_Ok_inv _ _ _ _ _ _ _ _ r Hr)
      as (mask & Hmask & Hcols & _ & Hfreq & Hmeasure & Hstack).
    rewrite Hcols in Hmeasure, Hstack.
    destruct (build_F_empirical_columns_spec w num base_dir file_templates frequencies
                realization components_order mask _ Hmeasure) as (M & HM & Hshape & Hcolumn).
    rewrite Hstack in HM. injection HM as <-.
    rewrite Hfreq, Hcols. split; [done|]. split; [done|].
    exists mask. split; [done|].
    intros j c Hj. destruct (Hcolumn j c Hj) as (tmpl & v & Htmpl & Hget & Hcol & Hlen & Hv).
    exists v, tmpl. split; [done|]. split; [done|]. split; [done|]. split; [done|].
    intros i f Hi. destruct (Hv i f Hi) as (e & He & Hvi & _). by exists e.
Qed.

Lemma builders_shape_and_columns_witness :
  exists r,
    build_F_theory sample_numerics default_beta_s default_nu0 (Some ["100"; "143"])
      (Some ["tsz"; "cmb"; "tsz"]) = Ok r /\
    (shape (F r) = (length (frequencies_out r), length (F_cols r)) /\
     frequencies_out r = default default_frequencies (Some ["100"; "143"]) /\
     forall j c, F_cols r !! j = Some c ->
       exists v values,
         dict_get (reference_vectors r) c = Some v /\
         column (F r) j = Ok v /\
         length v = length (frequencies_out r) /\
         tags_read sample_numerics (frequencies_out r) values /\
         v = theory_response sample_numerics default_beta_s default_nu0 c <$> values).
Proof.
  eexists. split; [vm_compute; reflexivity|].
  exact (proj1 (builders_shape_and_columns empty_world sample_numerics)
           default_beta_s default_nu0 (Some ["100"; "143"]) (Some ["tsz"; "cmb"; "tsz"]) _ eq_refl).
Defined.

(** ** [build_F_theory]: the default call *)

Lemma forallb_Forall {A : Type} (P : A -> bool) (l : list A) :
  forallb P l = true -> Forall (fun x => P x = true) l.
Proof.
  intros H. apply Forall_forall. intros x Hx%list_elem_of_In.
  by apply (proj1 (forallb_forall P l) H).
Qed.

Lemma default_channels_finite : forallb channel_finite default_channels = true.
Proof. vm_compute. reflexivity. Qed.

Lemma default_channels_values :
  (fun t : float * float * float => t.1.1) <$> default_channels
  = [30; 44; 70; 100; 143; 217; 353; 545; 857]%float.
Proof. reflexivity. Qed.

Lemma sync_entry_close (num : Numerics) (t : float * float * float) (ref : float) :
  channel_sync_close t ref = true ->
  np_exp num (x_of (t.1.1 * 1e9)) ∈ within_ulps 16 t.1.2 /\
  np_power num (t.1.1 * 1e9 / default_nu0) default_beta_s ∈ within_ulps 16 t.2 ->
  close (np_power num (t.1.1 * 1e9 / default_nu0) default_beta_s
         / conversion_factor (np_exp num) (t.1.1 * 1e9)) ref = true.
Proof.
  intros Hcheck [He Hp]. unfold channel_sync_close in Hcheck.
  apply forallb_Forall in Hcheck. rewrite Forall_forall in Hcheck.
  specialize (Hcheck _ He). apply forallb_Forall in Hcheck.
  rewrite Forall_forall in Hcheck. exact (Hcheck _ Hp).
Qed.

Lemma sync_entries_close (num : Numerics) (l : list ((float * float * float) * float)) :
  forallb (fun p => channel_sync_close p.1 p.2) l = true ->
  Forall (fun t : float * float * float =>
            let nu := (t.1.1 * 1e9)%float in
            np_exp num (x_of nu) ∈ within_ulps 16 t.1.2 /\
            np_power num (nu / default_nu0) default_beta_s ∈ within_ulps 16 t.2) l.*1 ->
  Forall2 (fun e ref => close e ref = true)
    ((fun value => let nu := value * 1e9 in
                   np_power num (nu / default_nu0) default_beta_s
                   / conversion_factor (np_exp num) nu)%float
       <$> ((fun t : float * float * float => t.1.1) <$> l.*1))
    l.*2.
Proof.
  intros Hcheck%forallb_Forall Hnp.
  induction l as [|[t ref] l IH]; csimpl in *; [constructor|].
  apply Forall_cons in Hcheck as [Ht Hcheck]. apply Forall_cons in Hnp as [Hnpt Hnp].
  constructor; [|by apply IH]. by apply (sync_entry_close num t ref).
Qed.

Lemma sync_column_close (num : Numerics) :
  accurate_on_default_channels num ->
  Forall2 (fun e ref => close e ref = true)
    ((fun value => let nu := value * 1e9 in
                   np_power num (nu / default_nu0) default_beta_s
                   / conversion_factor (np_exp num) nu)%float
       <$> [30; 44; 70; 100; 143; 217; 353; 545; 857]%float)
    sync_reference.
Proof.
  intros Hnp.
  exact (sync_entries_close num (zip default_channels sync_reference)
           ltac:(vm_compute; reflexivity) Hnp).
Qed.

Lemma theory_response_finite (num : Numerics) (t : float * float * float) (c : string) :
  channel_finite t = true ->
  np_exp num (x_of (t.1.1 * 1e9)) ∈ within_ulps 16 t.1.2 ->
  np_power num (t.1.1 * 1e9 / default_nu0) default_beta_s ∈ within_ulps 16 t.2 ->
  PrimFloat.is_finite (theory_response num default_beta_s default_nu0 c t.1.1) = true.
Proof.
  intros Hcheck He Hp. unfold channel_finite in Hcheck.
  apply forallb_Forall in Hcheck. rewrite Forall_forall in Hcheck.
  specialize (Hcheck _ He). apply andb_true_iff in Hcheck as [Htsz Hsync].
  apply forallb_Forall in Hsync. rewrite Forall_forall in Hsync.
  specialize (Hsync _ Hp).
  unfold theory_response. repeat case_decide; [reflexivity|exact Htsz|exact Hsync].
Qed.

(** C3.  Let [np.exp] and the power be accurate, on the nine default
    channels, to 16 units in the last place.  Then [build_F_theory()]
    returns an array of 9 rows (the default frequency tags) and 3 columns
    (["cmb"], ["tsz"], ["sync"]) whose entries are all finite and whose
    ["cmb"] column is [1.0] in every row; and
    [build_F_theory(components_order=["sync", "cmb"])] returns [F_cols =
    ["sync"; "cmb"]] with column 0 equal, channel by channel, to
    [(nu / nu0) ** beta_s / g(nu)], where [g] is the conversion factor of
    the spec, [x^2 e^x / (e^x - 1)^2] at [x = h nu / (k T)]; each of these
    nine entries is, up to a relative error of [1e-12], the real number the
    formula gives for its channel; and column 1 is equal to ones. *)
Theorem build_F_theory_default_call (num : Numerics) :
  accurate_on_default_channels num ->
  (exists r,
     build_F_theory num default_beta_s default_nu0 None None = Ok r /\
     shape (F r) = (9, 3) /\
     F_cols r = ["cmb"; "tsz"; "sync"] /\
     frequencies_out r
     = ["030"; "044"; "070"; "100"; "143"; "217"; "353"; "545"; "857"] /\
     (forall i j, i < 9 -> j < 3 ->
        exists e, entry (F r) i j = Some e /\ PrimFloat.is_finite e = true) /\
     column (F r) 0 = Ok (replicate 9 1%float)) /\
  (exists r v,
     build_F_theory num default_beta_s default_nu0 None (Some ["sync"; "cmb"]) = Ok r /\
     F_cols r = ["sync"; "cmb"] /\
     column (F r) 0 = Ok v /\
     v = (fun value => let nu := value * 1e9 in
                       np_power num (nu / default_nu0) default_beta_s
                       / conversion_factor (np_exp num) nu)%float
           <$> [30; 44; 70; 100; 143; 217; 353; 545; 857]%float /\
     Forall2 (fun e ref => close e ref = true) v sync_reference /\
     column (F r) 1 = Ok (replicate 9 1%float)).
Proof.
  intros Hnp. split.
  - destruct (build_F_theory_spec num default_beta_s default_nu0 None None _
                (default_frequencies_values num))
      as (r & Hr & Hcols & Hfreq & Hshape & _ & Hcolumn).
    exists r. split; [done|]. rewrite Hcols, Hfreq in Hshape.
    split; [done|]. split; [done|]. split; [done|]. split.
    + intros i j Hi Hj.
      destruct (lookup_lt_is_Some_2 (F_cols r) j) as [c Hc]; [by rewrite Hcols|].
      destruct (lookup_lt_is_Some_2 default_channels i) as [t Ht]; [done|].
      assert (Hvalue : [30; 44; 70; 100; 143; 217; 353; 545; 857]%float !! i = Some t.1.1).
      { rewrite <- default_channels_values. by rewrite list_lookup_fmap, Ht. }
      destruct (Hcolumn j c Hc) as (_ & _ & _ & Hentry).
      eexists. split; [by apply Hentry|].
      pose proof (forallb_Forall _ _ default_channels_finite) as Hfin.
      rewrite Forall_forall in Hfin. unfold accurate_on_default_channels in Hnp.
      rewrite Forall_forall in Hnp.
      assert (Hin : t ∈ default_channels) by by eapply list_elem_of_lookup_2.
      destruct (Hnp t Hin) as [He Hp].
      by apply theory_response_finite; [apply Hfin| |].
    + destruct (Hcolumn 0 "cmb") as (_ & _ & Hcol & _); [by rewrite Hcols|].
      rewrite Hcol. reflexivity.
  - destruct (build_F_theory_spec num default_beta_s default_nu0 None (Some ["sync"; "cmb"]) _
                (default_frequencies_values num))
      as (r & Hr & Hcols & _ & _ & _ & Hcolumn).
    assert (Hcols' : F_cols r = ["sync"; "cmb"]) by (rewrite Hcols; reflexivity).
    eexists r, _. split; [done|]. split; [done|]. split; [|split; [reflexivity|split]].
    + destruct (Hcolumn 0 "sync") as (_ & _ & -> & _); [by rewrite Hcols'|]. reflexivity.
    + by apply sync_column_close.
    + destruct (Hcolumn 1 "cmb") as (_ & _ & -> & _); [by rewrite Hcols'|]. reflexivity.
Qed.

Lemma reference_numerics_accurate : accurate_on_default_channels reference_numerics.
Proof.
  unfold accurate_on_default_channels, default_channels.
  repeat (apply Forall_cons; split; [split; vm_compute; left|]). exact (Forall_nil_2 _).
Defined.

Lemma build_F_theory_default_call_witness :
  accurate_on_default_channels reference_numerics /\
  (exists r,
     build_F_theory reference_numerics default_beta_s default_nu0 None None = Ok r /\
     shape (F r) = (9, 3) /\
     F_cols r = ["cmb"; "tsz"; "sync"] /\
     frequencies_out r
     = ["030"; "044"; "070"; "100"; "143"; "217"; "353"; "545"; "857"] /\
     (forall i j, i < 9 -> j < 3 ->
        exists e, entry (F r) i j = Some e /\ PrimFloat.is_finite e = true) /\
     column (F r) 0 = Ok (replicate 9 1%float)) /\
  (exists r v,
     build_F_theory reference_numerics default_beta_s default_nu0 None (Some ["sync"; "cmb"])
     = Ok r /\
     column (F r) 0 = Ok v /\
     Forall2 (fun e ref => close e ref = true) v sync_reference).
Proof.
  split; [exact reference_numerics_accurate|].
  destruct (build_F_theory_default_call reference_numerics reference_numerics_accurate)
    as [Hdefault (r & v & Hr & _ & Hcol & _ & Hclose & _)].
  split; [exact Hdefault|]. by exists r, v.
Defined.

(** ** [build_F_empirical]: no NaN, no infinity *)

Lemma nan_to_num_entry_finite (x : float) :
  PrimFloat.is_finite (nan_to_num_entry x) = true.
Proof.
  unfold nan_to_num_entry.
  destruct (PrimFloat.is_nan x) eqn:Hnan; [reflexivity|].
  destruct (PrimFloat.is_infinity x) eqn:Hinf; [reflexivity|].
  unfold PrimFloat.is_finite. by rewrite Hnan, Hinf.
Qed.

(** Whenever [build_F_empirical] returns, every entry of [F] is a finite
    number: [np.nan_to_num] has replaced a NaN or an infinite mean by
    [0.0]. *)
Theorem build_F_empirical_finite (w : World) (num : Numerics) (base_dir : string)
    (file_templates : dict (option string)) (frequencies : list string)
    (realization : Z) (mask_path : string) (components_order : option (list string))
    (r : F_result) :
  build_F_empirical w num base_dir file_templates frequencies realization mask_path
    components_order = Ok r ->
  forall i j, i < length frequencies -> j < length (F_cols r) ->
    exists e, entry (F r) i j = Some e /\ PrimFloat.is_finite e = true.
Proof.
  intros Hr i j Hi Hj.
  destruct (build_F_empirical_Ok_inv _ _ _ _ _ _ _ _ r Hr)
    as (mask & _ & Hcols & _ & _ & Hmeasure & Hstack).
  rewrite Hcols in Hmeasure, Hstack, Hj.
  destruct (build_F_empirical_columns_spec w num base_dir file_templates frequencies
              realization components_order mask _ Hmeasure) as (M & HM & _ & Hcolumn).
  rewrite Hstack in HM. injection HM as <-.
  destruct (lookup_lt_is_Some_2 _ j Hj) as [c Hc].
  destruct (lookup_lt_is_Some_2 frequencies i Hi) as [f Hf].
  destruct (Hcolumn j c Hc) as (tmpl & v & _ & _ & _ & _ & Hv).
  destruct (Hv i f Hf) as (e & _ & _ & Hentry).
  exists (nan_to_num_entry e). split; [done|]. apply nan_to_num_entry_finite.
Qed.

Lemma build_F_empirical_finite_witness :
  exists r,
    build_F_empirical sample_world sample_numerics "data" sample_templates ["030"; "044"] 0 ""
      None = Ok r /\
    forall i j, i < 2 -> j < length (F_cols r) ->
      exists e, entry (F r) i j = Some e /\ PrimFloat.is_finite e = true.
Proof.
  eexists. split; [vm_compute; reflexivity|].
  exact (build_F_empirical_finite sample_world sample_numerics "data" sample_templates
           ["030"; "044"] 0 "" None _ eq_refl).
Defined.

(** * Further properties of the code *)

(** ** [find_f_from_names]: the two outputs, and what they depend on *)

Lemma indicator_unique (n : nat) (f f' : list float) (idxs idxs' : list nat) :
  indicator n f idxs -> indicator n f' idxs' ->
  (forall i, i ∈ idxs <-> i ∈ idxs') -> f = f'.
Proof.
  intros [Hlen Hf] [Hlen' Hf'] Hsame. apply list_eq. intros i.
  destruct (decide (i < n)) as [Hi|Hi].
  - rewrite Hf, Hf' by done. f_equal. repeat case_decide; naive_solver.
  - by rewrite !lookup_ge_None_2 by lia.
Qed.

(** Whenever [find_f_from_names] returns [(f, idxs)], with no assumption on
    the names: [f] has one entry per column, [idxs] holds column indices
    within range and without repetition, [f] is [1.0] exactly at the
    indices of [idxs] and [0.0] elsewhere, and [f] has as many unit entries
    as [idxs] has indices. *)
Theorem find_f_from_names_outputs (component_names : list string) (selected : selection)
    (f : list float) (idxs : list nat) :
  find_f_from_names component_names selected = Ok (f, idxs) ->
  length f = length component_names /\
  NoDup idxs /\
  Forall (fun i => i < length component_names) idxs /\
  (forall i, i < length component_names ->
     f !! i = Some (if decide (i ∈ idxs) then 1%float else 0%float)) /\
  count_ones f = length idxs.
Proof.
  intros (ps & Hps & Hidxs & Hind)%find_f_from_names_Ok.
  assert (Hnd : NoDup idxs) by (rewrite Hidxs; apply NoDup_dedup_first).
  assert (Hlt : Forall (fun i => i < length component_names) idxs).
  { apply Forall_forall. intros i Hi. rewrite Hidxs, elem_of_dedup_first in Hi.
    apply found_at_lt in Hps. rewrite Forall_forall in Hps.
    specialize (Hps _ Hi). by rewrite length_map in Hps. }
  destruct Hind as [Hlen Hf].
  split; [done|]. split; [done|]. split; [done|]. split; [done|].
  by apply (indicator_count (length component_names)).
Qed.

Lemma find_f_from_names_outputs_witness :
  find_f_from_names ["cmb"; "tsz"; "CMB"] (Several ["tsz"; "Cmb"; "TSZ"])
  = Ok ([1; 1; 0]%float, [1; 0]) /\
  length [1; 1; 0]%float = 3 /\
  NoDup [1; 0] /\
  Forall (fun i => i < 3) [1; 0] /\
  (forall i, i < 3 ->
     [1; 1; 0]%float !! i = Some (if decide (i ∈ [1; 0]) then 1%float else 0%float)) /\
  count_ones [1; 1; 0]%float = 2.
Proof.
  split; [reflexivity|].
  exact (find_f_from_names_outputs ["cmb"; "tsz"; "CMB"] (Several ["tsz"; "Cmb"; "TSZ"])
           [1; 1; 0]%float [1; 0] eq_refl).
Defined.

(** The vector depends on the selection only through the set of selected
    names, read up to letter case: two selections that name the same
    columns, in whatever order and however often, give the same [f], and
    index lists that are rearrangements of one another. *)
Theorem find_f_from_names_same_names (component_names : list string)
    (selected selected' : selection) (f : list float) (idxs : list nat) :
  (forall key, key ∈ lower <$> as_list selected <-> key ∈ lower <$> as_list selected') ->
  find_f_from_names component_names selected = Ok (f, idxs) ->
  exists idxs',
    find_f_from_names component_names selected' = Ok (f, idxs') /\ idxs ≡ₚ idxs'.
Proof.
  intros Hsame Hrun.
  destruct (find_f_from_names_Ok _ _ _ _ Hrun) as (ps & Hps & Hidxs & Hind).
  assert (Hmatched : Forall (fun name => lower name ∈ map lower component_names)
                       (as_list selected')).
  { apply Forall_forall. intros name Hname.
    assert (Hkey : lower name ∈ lower <$> as_list selected).
    { apply Hsame, list_elem_of_fmap. by exists name. }
    apply list_elem_of_fmap in Hkey as (name0 & -> & Hname0).
    clear -Hps Hname0.
    induction Hps as [|n i rest ps' Hi _ IH]; [by apply elem_of_nil in Hname0|].
    apply elem_of_cons in Hname0 as [->|Hin]; [|by apply IH].
    apply index_Some in Hi as [Hi _]. by eapply list_elem_of_lookup_2. }
  destruct (find_f_from_names_returns _ _ Hmatched) as (f' & idxs' & Hrun').
  destruct (find_f_from_names_Ok _ _ _ _ Hrun') as (ps' & Hps' & Hidxs' & Hind').
  assert (Helems : forall i, i ∈ idxs <-> i ∈ idxs').
  { intros i. rewrite Hidxs, Hidxs', !elem_of_dedup_first.
    rewrite (found_at_elem _ _ _ i Hps), (found_at_elem _ _ _ i Hps').
    split; intros (name & Hname & Hi).
    - assert (Hkey : lower name ∈ lower <$> as_list selected')
        by (apply Hsame, list_elem_of_fmap; by exists name).
      apply list_elem_of_fmap in Hkey as (name' & Heq & Hname').
      exists name'. split; [done|]. by rewrite <- Heq.
    - assert (Hkey : lower name ∈ lower <$> as_list selected)
        by (apply Hsame, list_elem_of_fmap; by exists name).
      apply list_elem_of_fmap in Hkey as (name' & Heq & Hname').
      exists name'. split; [done|]. by rewrite <- Heq. }
  exists idxs'. split.
  - rewrite Hrun'. do 2 f_equal. symmetry.
    by apply (indicator_unique (length component_names) f f' idxs idxs').
  - apply NoDup_Permutation; [| |done].
    + rewrite Hidxs. apply NoDup_dedup_first.
    + rewrite Hidxs'. apply NoDup_dedup_first.
Qed.

Lemma find_f_from_names_same_names_witness :
  (forall key, key ∈ lower <$> ["sync"; "cmb"] <-> key ∈ lower <$> ["CMB"; "sync"; "cmb"]) /\
  exists idxs',
    find_f_from_names ["tsz"; "cmb"; "sync"] (Several ["CMB"; "sync"; "cmb"])
    = Ok ([0; 1; 1]%float, idxs') /\ [2; 1] ≡ₚ idxs'.
Proof.
  assert (H : forall key, key ∈ lower <$> as_list (Several ["sync"; "cmb"])
                          <-> key ∈ lower <$> as_list (Several ["CMB"; "sync"; "cmb"])).
  { intros key. vm_compute (lower <$> _). rewrite !elem_of_cons, !elem_of_nil. tauto. }
  split; [exact H|].
  exact (find_f_from_names_same_names ["tsz"; "cmb"; "sync"] (Several ["sync"; "cmb"])
           (Several ["CMB"; "sync"; "cmb"]) [0; 1; 1]%float [2; 1] H eq_refl).
Defined.

(** ** The keys of [reference_vectors] and the fallback of [find_f_from_extract_comp] *)

Section keys_facts.
Context {V : Type}.
Implicit Types (d : dict V) (cols : list string).

Lemma dict_keys_set d key (v : V) :
  dict_keys (dict_set d key v) = add_key (dict_keys d) key.
Proof.
  unfold add_key, dict_keys. induction d as [|[k0 v0] d IH]; simpl; [done|].
  destruct (decide (k0 = key)) as [->|Hne]; simpl.
  - rewrite decide_True; [done|left].
  - rewrite IH. destruct (decide (key ∈ map fst d)) as [Hin|Hin].
    + rewrite decide_True; [done|by right].
    + rewrite decide_False; [done|]. rewrite elem_of_cons. naive_solver.
Qed.

Lemma foldl_add_key cols (keys : list string) :
  foldl add_key keys cols = keys ++ dedup_first (filter (fun c => c ∉ keys) cols).
Proof.
  revert keys. induction cols as [|c cols IH]; intros keys; simpl.
  - by rewrite app_nil_r.
  - rewrite filter_cons. unfold add_key at 2.
    destruct (decide (c ∈ keys)) as [Hin|Hin].
    + rewrite decide_False by naive_solver. apply IH.
    + rewrite decide_True by done. rewrite IH. simpl.
      rewrite <- app_assoc. simpl. do 2 f_equal.
      rewrite <- dedup_first_filter, list_filter_filter. f_equal.
      apply list_filter_iff. intros x.
      rewrite elem_of_app, list_elem_of_singleton. naive_solver.
Qed.

Lemma collect_keys (vecs : dict V) cols (acc rv : dict V) :
  collect vecs cols acc = Ok rv -> dict_keys rv = foldl add_key (dict_keys acc) cols.
Proof.
  revert acc. induction cols as [|c cols IH]; intros acc; simpl.
  - by intros [= <-].
  - destruct (getitem vecs c) as [v|e]; [|done]. simpl.
    intros Hrun%IH. by rewrite Hrun, dict_keys_set.
Qed.

Lemma dedup_first_NoDup {A : Type} `{EqDecision A} (l : list A) :
  NoDup l -> dedup_first l = l.
Proof.
  induction 1 as [|x l Hx _ IH]; simpl; [done|]. rewrite IH. f_equal.
  clear IH. induction l as [|y l IH]; [done|].
  apply not_elem_of_cons in Hx as [Hne Hx].
  rewrite filter_cons_True by done. f_equal. by apply IH.
Qed.

Lemma filter_not_in_nil {A : Type} `{EqDecision A} (l : list A) :
  filter (fun x => x ∉ []) l = l.
Proof.
  induction l as [|x l IH]; [done|].
  rewrite filter_cons_True by apply not_elem_of_nil. by f_equal.
Qed.
End keys_facts.

Lemma measure_keys (w : World) (num : Numerics) (base_dir : string)
    (file_templates : dict (option string)) (frequencies : list string) (realization : Z)
    (mask : option (list float)) (cols : list string) (acc rv : dict (list float)) :
  measure w num base_dir file_templates frequencies realization mask cols acc = Ok rv ->
  dict_keys rv = foldl add_key (dict_keys acc) cols.
Proof.
  revert acc. induction cols as [|c cols IH]; intros acc; simpl.
  - by intros [= <-].
  - destruct (dict_get file_templates c) as [[tmpl|]|]; [|done|done].
    destruct (fill _ _ _ _ _ _ _ _) as [v|e]; [|done]. simpl.
    intros Hrun%IH. by rewrite Hrun, dict_keys_set.
Qed.

Lemma built_keys (w : World) (num : Numerics) (r : F_result) :
  built w num r ->
  dict_keys (reference_vectors r) = dedup_first (F_cols r) /\
  (shape (F r)).2 = length (F_cols r).
Proof.
  intros [(beta_s & nu0 & frequencies & co & Hr)|
          (base_dir & ft & frequencies & realization & mask_path & co & Hr)].
  - assert (Hshape : (shape (F r)).2 = length (F_cols r)).
    { destruct (build_F_theory_Ok_values _ _ _ _ _ _ Hr) as [values Hvalues].
      destruct (build_F_theory_spec num beta_s nu0 frequencies co values Hvalues)
        as (r' & Hr' & _ & _ & Hshape & _).
      assert (r' = r) as -> by congruence. by rewrite Hshape. }
    split; [|done]. clear Hshape. unfold build_F_theory in Hr.
    destruct (comprehension _ _) as [values|e]; [|done]. simpl in Hr.
    destruct (collect _ _ _) as [rv|e] eqn:Hrv; [|done]. simpl in Hr.
    destruct (stack_columns _ _ _) as [M|e]; [|done].
    injection Hr as <-. simpl.
    rewrite (collect_keys _ _ _ _ Hrv), foldl_add_key.
    change (dict_keys (@nil (string * list float))) with (@nil string).
    by rewrite filter_not_in_nil.
  - destruct (build_F_empirical_Ok_inv _ _ _ _ _ _ _ _ r Hr)
      as (mask & _ & Hcols & _ & _ & Hmeasure & Hstack).
    split.
    + rewrite (measure_keys _ _ _ _ _ _ _ _ _ _ Hmeasure), foldl_add_key.
      change (dict_keys (@nil (string * list float))) with (@nil string).
      by rewrite filter_not_in_nil.
    + rewrite Hcols in Hmeasure, Hstack.
      destruct (build_F_empirical_columns_spec w num base_dir ft frequencies
                  realization co mask _ Hmeasure) as (M & HM & Hshape & _).
      rewrite Hstack in HM. injection HM as <-. by rewrite Hshape, Hcols.
Qed.

(** For the result [r] of either builder: the keys of [reference_vectors],
    in their order of insertion, are the names of [F_cols] without their
    repetitions.  So, when [F_cols] names no column twice,
    [find_f_from_extract_comp] without [F_cols] returns what it returns with
    [F_cols], whatever the selection; in general its vector has one entry
    per distinct name of [F_cols], whereas with [F_cols] the vector has one
    entry per column of [F]. *)
Theorem fallback_alignment (w : World) (num : Numerics) (r : F_result) :
  built w num r ->
  dict_keys (reference_vectors r) = dedup_first (F_cols r) /\
  (NoDup (F_cols r) ->
   forall names,
     find_f_from_extract_comp (F r) names (reference_vectors r) None
     = find_f_from_extract_comp (F r) names (reference_vectors r) (Some (F_cols r))) /\
  (forall names f,
     find_f_from_extract_comp (F r) names (reference_vectors r) None = Ok f ->
     length f = length (dedup_first (F_cols r))) /\
  (forall names f,
     find_f_from_extract_comp (F r) names (reference_vectors r) (Some (F_cols r)) = Ok f ->
     length f = (shape (F r)).2).
Proof.
  intros [Hkeys Hshape]%built_keys.
  assert (Hlen : forall cols names f,
    (p ← find_f_from_names cols (Several (as_list names)); Ok p.1) = Ok f ->
    length f = length cols).
  { intros cols names f Hf.
    destruct (find_f_from_names cols (Several (as_list names))) as [[f' idxs]|e] eqn:Hrun;
      [|done].
    injection Hf as <-. by apply find_f_from_names_Ok in Hrun as (_ & _ & _ & Hl & _). }
  assert (Hunfold : forall names cols,
    find_f_from_extract_comp (F r) names (reference_vectors r) cols
    = (p ← find_f_from_names (default (dict_keys (reference_vectors r)) cols)
             (Several (as_list names)); Ok p.1)).
  { intros names cols. unfold find_f_from_extract_comp. by destruct names, cols. }
  split; [done|]. split; [|split].
  - intros Hnd names. rewrite !Hunfold. simpl. by rewrite Hkeys, dedup_first_NoDup.
  - intros names f. rewrite Hunfold. simpl. rewrite Hkeys. apply Hlen.
  - intros names f. rewrite Hunfold. simpl. rewrite Hshape. apply Hlen.
Qed.

Lemma fallback_alignment_witness :
  exists r,
    build_F_theory sample_numerics default_beta_s default_nu0 (Some ["100"])
      (Some ["tsz"; "cmb"; "TSZ"]) = Ok r /\
    F_cols r = ["tsz"; "cmb"; "tsz"] /\
    dict_keys (reference_vectors r) = ["tsz"; "cmb"] /\
    find_f_from_extract_comp (F r) (One "cmb") (reference_vectors r) None
    = Ok [0; 1]%float /\
    find_f_from_extract_comp (F r) (One "cmb") (reference_vectors r) (Some (F_cols r))
    = Ok [0; 1; 0]%float /\
    (shape (F r)).2 = 3.
Proof.
  eexists. split; [vm_compute; reflexivity|].
  split; [reflexivity|]. split.
  - exact (proj1 (fallback_alignment empty_world sample_numerics _
             (or_introl (ex_intro _ default_beta_s (ex_intro _ default_nu0
                (ex_intro _ (Some ["100"]) (ex_intro _ (Some ["tsz"; "cmb"; "TSZ"]) eq_refl))))))).
  - repeat split; reflexivity.
Defined.

(** ** [build_F_theory]: when it fails, and building again from [F_cols] *)

Lemma lower_char_idemp (c : ascii) : lower_char (lower_char c) = lower_char c.
Proof. destruct c as [[] [] [] [] [] [] [] []]; reflexivity. Qed.

Lemma lower_idemp (s : string) : lower (lower s) = lower s.
Proof. induction s as [|c s IH]; simpl; [done|]. by rewrite lower_char_idemp, IH. Qed.

Lemma filter_all {A : Type} (P : A -> Prop) `{!forall x, Decision (P x)} (l : list A) :
  Forall P l -> filter P l = l.
Proof.
  induction 1 as [|x l Hx _ IH]; [done|]. rewrite filter_cons_True by done. by f_equal.
Qed.

Lemma fmap_fixed {A : Type} (g : A -> A) (l : list A) :
  Forall (fun x => g x = x) l -> g <$> l = l.
Proof. induction 1 as [|x l Hx _ IH]; csimpl; [done|]. by rewrite Hx, IH. Qed.

(** The columns a builder kept are kept again, as they are, when they are
    the request. *)
Lemma theory_columns_again (components_order : option (list string)) :
  theory_columns (Some (theory_columns components_order)) = theory_columns components_order.
Proof.
  assert (Hlower : Forall (fun c => lower c = c) (theory_columns components_order)).
  { destruct components_order as [order|]; simpl.
    - apply Forall_forall. intros c [_ Hc]%list_elem_of_filter.
      apply list_elem_of_fmap in Hc as (x & -> & _). apply lower_idemp.
    - repeat constructor. }
  assert (Hsup : Forall (fun c => c ∈ supported) (theory_columns components_order)).
  { destruct components_order as [order|]; simpl.
    - apply Forall_forall. by intros c [Hc _]%list_elem_of_filter.
    - unfold supported. by apply Forall_forall. }
  unfold theory_columns at 1. by rewrite (fmap_fixed lower), filter_all.
Qed.

Lemma empirical_columns_again (file_templates : dict (option string))
    (components_order : option (list string)) :
  empirical_columns file_templates components_order <> [] ->
  empirical_columns file_templates (Some (empirical_columns file_templates components_order))
  = empirical_columns file_templates components_order.
Proof.
  intros Hne. set (cols := empirical_columns file_templates components_order) in *.
  assert (Hlower : Forall (fun c => lower c = c) cols).
  { apply Forall_forall. intros c [_ Hc]%list_elem_of_filter.
    apply list_elem_of_fmap in Hc as (x & -> & _). apply lower_idemp. }
  assert (Hhas : Forall (fun c => has_template file_templates c = true) cols).
  { apply Forall_forall. by intros c [Hc _]%list_elem_of_filter. }
  unfold empirical_columns at 1.
  assert (Hor : or_default (Some cols) default_components = cols) by by destruct cols.
  by rewrite Hor, (fmap_fixed lower), filter_all.
Qed.

Lemma build_F_theory_by_columns (num : Numerics) (beta_s nu0 : float)
    (frequencies : option (list string)) (co co' : option (list string)) :
  theory_columns co = theory_columns co' ->
  build_F_theory num beta_s nu0 frequencies co
  = build_F_theory num beta_s nu0 frequencies co'.
Proof.
  intros Heq. unfold build_F_theory.
  destruct (comprehension _ _) as [values|e]; [|done]. simpl.
  assert (Hcols : forall c : option (list string),
    match c with
    | Some order =>
        filter (fun c0 => dict_mem
          [("cmb", (fun _ => 1%float) <$> ((fun v => v * 1e9)%float <$> values));
           ("tsz", tsz_of num <$> (x_of <$> ((fun v => v * 1e9)%float <$> values)));
           ("sync", zip_with (sync_of num beta_s nu0) ((fun v => v * 1e9)%float <$> values)
                      (g_of num <$> (x_of <$> ((fun v => v * 1e9)%float <$> values))))]
          c0 = true) (lower <$> order)
    | None => ["cmb"; "tsz"; "sync"]
    end = theory_columns c).
  { intros [order|]; [|done]. unfold theory_columns.
    apply list_filter_iff. intros c. unfold dict_mem.
    rewrite (vecs_get num beta_s nu0 values c). by case_decide. }
  by rewrite !Hcols, Heq.
Qed.

(** [build_F_theory] fails exactly when [float(f)] fails on a frequency
    tag, and then with the error of the first tag that fails: the requested
    components never make it fail.  And a result is reproduced by the call
    that requests its own [F_cols]. *)
Theorem build_F_theory_failure_and_rebuild (num : Numerics) (beta_s nu0 : float)
    (frequencies : option (list string)) (components_order : option (list string)) :
  (forall e,
     build_F_theory num beta_s nu0 frequencies components_order = Raise e <->
     comprehension (float_of_str (py_float num)) (default default_frequencies frequencies)
     = Raise e) /\
  (forall r,
     build_F_theory num beta_s nu0 frequencies components_order = Ok r ->
     build_F_theory num beta_s nu0 frequencies (Some (F_cols r)) = Ok r).
Proof.
  split.
  - intros e.
    destruct (comprehension (float_of_str (py_float num))
                (default default_frequencies frequencies)) as [values|e'] eqn:Hvalues.
    + destruct (build_F_theory_spec num beta_s nu0 frequencies components_order values
                  Hvalues) as (r & -> & _). by split.
    + unfold build_F_theory.
      replace (match frequencies with Some l => l | None => default_frequencies end)
        with (default default_frequencies frequencies) by by destruct frequencies.
      rewrite Hvalues. simpl. split; by intros [= ->].
  - intros r Hr.
    destruct (build_F_theory_Ok_values _ _ _ _ _ _ Hr) as [values Hvalues].
    destruct (build_F_theory_spec num beta_s nu0 frequencies components_order values Hvalues)
      as (r' & Hr' & Hcols & _).
    assert (r' = r) as -> by congruence.
    rewrite <- Hr. apply build_F_theory_by_columns.
    change (theory_columns (Some (F_cols r)) = theory_columns components_order).
    assert (Hc : F_cols r = theory_columns components_order) by by rewrite Hcols.
    rewrite Hc. apply theory_columns_again.
Qed.

Lemma build_F_theory_failure_and_rebuild_witness :
  build_F_theory sample_numerics default_beta_s default_nu0 (Some ["100"; "x"; "y"])
    (Some ["cmb"])
  = Raise (ValueError "could not convert string to float: 'x'") /\
  exists r,
    build_F_theory sample_numerics default_beta_s default_nu0 (Some ["100"])
      (Some ["TSZ"; "dust"; "cmb"]) = Ok r /\
    F_cols r = ["tsz"; "cmb"] /\
    build_F_theory sample_numerics default_beta_s default_nu0 (Some ["100"])
      (Some (F_cols r)) = Ok r.
Proof.
  split.
  - exact (proj2 (proj1 (build_F_theory_failure_and_rebuild sample_numerics default_beta_s
                           default_nu0 (Some ["100"; "x"; "y"]) (Some ["cmb"])) _) eq_refl).
  - eexists. split; [vm_compute; reflexivity|]. split; [reflexivity|].
    exact (proj2 (build_F_theory_failure_and_rebuild sample_numerics default_beta_s
                    default_nu0 (Some ["100"]) (Some ["TSZ"; "dust"; "cmb"])) _ eq_refl).
Defined.

(** ** [build_F_empirical]: building again from [F_cols] *)

(** A result of [build_F_empirical] is reproduced by the call that requests
    its own [F_cols], all else being equal. *)
Theorem build_F_empirical_rebuild (w : World) (num : Numerics) (base_dir : string)
    (file_templates : dict (option string)) (frequencies : list string)
    (realization : Z) (mask_path : string) (components_order : option (list string))
    (r : F_result) :
  build_F_empirical w num base_dir file_templates frequencies realization mask_path
    components_order = Ok r ->
  build_F_empirical w num base_dir file_templates frequencies realization mask_path
    (Some (F_cols r)) = Ok r.
Proof.
  intros Hr.
  destruct (build_F_empirical_Ok_inv _ _ _ _ _ _ _ _ r Hr)
    as (mask & Hmask & Hcols & Hne & _).
  rewrite <- Hr.
  rewrite (build_F_empirical_unfold w num base_dir file_templates frequencies realization
             mask_path (Some (F_cols r)) mask Hmask).
  rewrite (build_F_empirical_unfold w num base_dir file_templates frequencies realization
             mask_path components_order mask Hmask).
  rewrite Hcols in *. by rewrite empirical_columns_again.
Qed.

Lemma build_F_empirical_rebuild_witness :
  exists r,
    build_F_empirical sample_world sample_numerics "data" sample_templates ["030"; "044"] 0 ""
      (Some ["SYNC"; "tsz"; "Cmb"]) = Ok r /\
    F_cols r = ["sync"; "cmb"] /\
    build_F_empirical sample_world sample_numerics "data" sample_templates ["030"; "044"] 0 ""
      (Some (F_cols r)) = Ok r.
Proof.
  eexists. split; [vm_compute; reflexivity|]. split; [reflexivity|].
  exact (build_F_empirical_rebuild sample_world sample_numerics "data" sample_templates
           ["030"; "044"] 0 "" (Some ["SYNC"; "tsz"; "Cmb"]) _ eq_refl).
Defined.

(** ** [_mean]: which pixels are averaged *)





(** * [DownloadData]: files, requests and realisations *)

Import Download.

(** ** From D_l to C_l: which entries of [cl] are written *)

Section assign_facts.
Implicit Types (a : list float) (items : list (Z * float)).

Lemma np_index_in_range (n : nat) (i : Z) :
  (0 <= i < Z.of_nat n)%Z -> np_index n i = Some (Z.to_nat i).
Proof. intros Hi. unfold np_index. by rewrite decide_True. Qed.

Lemma assign_app a items items' :
  assign a (items ++ items') = match assign a items with
                               | Done a' => assign a' items'
                               | Failed e => Failed e
                               end.
Proof.
  revert a. induction items as [|[i v] items IH]; intros a; simpl; [done|].
  by destruct (np_index (length a) i).
Qed.

Lemma assign_Done a items :
  Forall (fun it => (0 <= it.1 < Z.of_nat (length a))%Z) items ->
  exists a', assign a items = Done a' /\ length a' = length a /\
    (forall j : nat, (forall v, (Z.of_nat j, v) ∉ items) -> a' !! j = a !! j).
Proof.
  intros Hitems. revert a Hitems.
  induction items as [|[i v] items IH]; intros a Hitems; simpl.
  - by exists a.
  - apply Forall_cons in Hitems as [Hi Hitems]. simpl in Hi.
    rewrite np_index_in_range by done.
    destruct (IH (<[Z.to_nat i := v]> a)) as (a' & Ha' & Hlen & Hother).
    { by rewrite length_insert. }
    exists a'. split; [done|]. split; [by rewrite Hlen, length_insert|].
    intros j Hj. rewrite Hother.
    + apply list_lookup_insert_ne. intros <-. apply (Hj v).
      rewrite Z2Nat.id by lia. left.
    + intros v' Hin. apply (Hj v'). by right.
Qed.
End assign_facts.

Lemma cl_items_index (o : Outside) (rows : list (Z * float)) (l : Z) (v : float) :
  (l, v) ∈ to_cl <$> filter in_band (scale o <$> rows) ->
  (2 <= l <= lmax)%Z /\ exists dl, (l, dl) ∈ rows.
Proof.
  intros (row & Hrow & [Hband (row0 & -> & Hin)%list_elem_of_fmap]%list_elem_of_filter)
    %list_elem_of_fmap.
  destruct row0 as [l0 dl]. injection Hrow as -> ->. split; [done|]. by exists dl.
Qed.

(** [cl] is always built, with [lmax + 1 = 1024] entries: no index falls
    outside it.  Its entries 0 and 1, and the entry of every multipole the
    table does not list, are [0.0]; the entry of a listed multipole
    [2 <= l <= 1023] is the conversion of the last row of the table that
    lists [l]. *)
Theorem cl_theory_entries (o : Outside) (rows : list (Z * float)) :
  exists cl,
    cl_theory o rows = Done cl /\
    length cl = 1024 /\
    cl !! 0 = Some 0%float /\
    cl !! 1 = Some 0%float /\
    (forall l : nat, l < 1024 -> (forall dl, (Z.of_nat l, dl) ∉ rows) ->
       cl !! l = Some 0%float) /\
    (forall before l dl after,
       rows = before ++ (l, dl) :: after -> (2 <= l <= 1023)%Z ->
       (forall dl', (l, dl') ∉ after) ->
       cl !! Z.to_nat l
       = Some (dl * (t_cmb_squared o * 1e12) * (2 * np_pi)
               / (float_of_int l * (float_of_int l + 1)))%float).
Proof.
  set (items := to_cl <$> filter in_band (scale o <$> rows)).
  set (zeros := replicate 1024 0%float).
  assert (Hrange : forall its : list (Z * float),
    (forall l v, (l, v) ∈ its -> (2 <= l <= lmax)%Z) ->
    forall a : list float, length a = 1024 ->
    Forall (fun it => (0 <= it.1 < Z.of_nat (length a))%Z) its).
  { intros its Hits a Ha. apply Forall_forall. intros [l v] Hin. simpl.
    specialize (Hits l v Hin). unfold lmax in Hits. lia. }
  assert (Hitems : forall l v, (l, v) ∈ items -> (2 <= l <= lmax)%Z).
  { intros l v Hin. by apply cl_items_index in Hin as [? _]. }
  destruct (assign_Done zeros items) as (cl & Hcl & Hlen & Hother).
  { by apply Hrange. }
  assert (Hzero : forall j, j < 1024 -> zeros !! j = Some 0%float).
  { intros j Hj. by apply lookup_replicate_2. }
  exists cl. split; [exact Hcl|]. split; [by rewrite Hlen|].
  split; [|split; [|split]].
  - rewrite Hother; [by apply Hzero; lia|]. intros v Hin. apply Hitems in Hin. lia.
  - rewrite Hother; [by apply Hzero; lia|]. intros v Hin. apply Hitems in Hin. lia.
  - intros l Hl Hrows. rewrite Hother; [by apply Hzero|].
    intros v Hin. apply cl_items_index in Hin as [_ [dl Hdl]]. by apply (Hrows dl).
  - intros before l dl after -> Hl Hafter.
    assert (Hband : in_band (scale o (l, dl))) by (unfold in_band, lmax; simpl; lia).
    assert (Hsplit : items
      = (to_cl <$> filter in_band (scale o <$> before))
        ++ [to_cl (scale o (l, dl))]
        ++ (to_cl <$> filter in_band (scale o <$> after))).
    { unfold items. rewrite fmap_app, filter_app, fmap_app. f_equal.
      rewrite fmap_cons, filter_cons_True by done. by rewrite fmap_cons. }
    unfold cl_theory in Hcl. fold items in Hcl. change (Z.to_nat (lmax + 1)) with 1024 in Hcl.
    fold zeros in Hcl. rewrite Hsplit, assign_app in Hcl.
    destruct (assign_Done zeros (to_cl <$> filter in_band (scale o <$> before)))
      as (a1 & Ha1 & Hlen1 & _).
    { apply Hrange; [|done]. intros l' v Hin. by apply cl_items_index in Hin as [? _]. }
    rewrite Ha1, assign_app in Hcl.
    destruct (assign_Done a1 [to_cl (scale o (l, dl))]) as (a2 & Ha2 & Hlen2 & _).
    { apply Forall_singleton. simpl. rewrite Hlen1. unfold zeros.
      rewrite length_replicate. lia. }
    rewrite Ha2 in Hcl.
    destruct (assign_Done a2 (to_cl <$> filter in_band (scale o <$> after)))
      as (a3 & Ha3 & _ & Hkeep).
    { apply Hrange; [|by rewrite Hlen2, Hlen1].
      intros l' v Hin. by apply cl_items_index in Hin as [? _]. }
    rewrite Ha3 in Hcl. injection Hcl as <-.
    rewrite Hkeep.
    + simpl in Ha2. rewrite np_index_in_range in Ha2.
      * injection Ha2 as <-. apply list_lookup_insert_eq. rewrite Hlen1. unfold zeros.
        rewrite length_replicate. lia.
      * rewrite Hlen1. unfold zeros. rewrite length_replicate. lia.
    + intros v Hin. rewrite Z2Nat.id in Hin by lia.
      apply cl_items_index in Hin as [_ [dl' Hdl']]. by apply (Hafter dl').
Qed.

(** ** What one call of each method can come to *)

Lemma cl_theory_returns (o : Outside) (rows : list (Z * float)) :
  exists cl, cl_theory o rows = Done cl.
Proof.
  destruct (assign_Done (replicate 1024 0%float)
              (to_cl <$> filter in_band (scale o <$> rows))) as (cl & Hcl & _).
  - apply Forall_forall. intros [l v] Hin. simpl.
    apply cl_items_index in Hin as [Hl _]. unfold lmax in Hl. lia.
  - by exists cl.
Qed.

Lemma on_disk_decide (s : sys) (path : string) :
  bool_decide (is_Some (disk s !! path)) = false -> disk s !! path = None.
Proof. intros H%bool_decide_eq_false. by apply eq_None_not_Some. Qed.

Ltac run :=
  unfold write_map, item, format, raise_for_status;
  unfold attempt, mbind, io_bind, mret, io_ret, raise, os_path_exists, write_file,
    read_text, get, draw; simpl.

Lemma download_foreground_component_fetch (o : Outside) (self : DownloadData)
    (component frequency : string) (realisation : option Z) (s : sys) :
  fetch o self component frequency realisation s
    (download_foreground_component o self component frequency realisation s).1
    (download_foreground_component o self component frequency realisation s).2.
Proof.
  unfold download_foreground_component. run.
  destruct (dict_get (download_templates self) component) as [template|] eqn:Htemplate;
    simpl; [|constructor].
  destruct (dict_get (file_templates self) component) as [file_template|] eqn:Hfile;
    simpl; [|constructor].
  destruct (str_format o file_template _) as [filename|r] eqn:Hname; simpl; [|constructor].
  assert (Hfile_of : file_of o self component frequency realisation filename)
    by by exists file_template.
  destruct (bool_decide (is_Some (disk s !! filename))) eqn:Hpresent; simpl.
  { apply bool_decide_eq_true in Hpresent. by eapply fetch_skip. }
  apply on_disk_decide in Hpresent.
  destruct (str_format o template _) as [url|r] eqn:Hurl; simpl; [|constructor].
  assert (Hurl_of : url_of o self component frequency realisation url)
    by by exists template.
  destruct (requests_get o (length (requested s)) url) as [resp|] eqn:Hresp; simpl.
  - destruct (decide (status_code resp = 200%Z)) as [Hok|Hko]; simpl.
    + destruct (write o filename (content resp)) as [|r|partial r] eqn:Hw; simpl.
      * by eapply fetch_stored.
      * by eapply fetch_unopened.
      * by eapply fetch_broken.
    + by eapply fetch_bad_status.
  - by eapply fetch_no_answer.
Qed.

Lemma download_cmb_spectrum_run (o : Outside) (self : DownloadData) (s : sys) :
  spectrum o self s (download_cmb_spectrum o self s).1 (download_cmb_spectrum o self s).2.
Proof.
  unfold download_cmb_spectrum. run.
  destruct (bool_decide (is_Some (disk s !! theory_path self))) eqn:Hpresent; simpl.
  { apply bool_decide_eq_true in Hpresent. by constructor. }
  apply on_disk_decide in Hpresent.
  destruct (requests_get o (length (requested s)) planck_url) as [resp|] eqn:Hresp; simpl;
    [|by constructor].
  destruct (decide (400 <= status_code resp < 600)%Z) as [Hbad|Hgood]; simpl.
  { by apply spectrum_bad_status. }
  destruct (planck_table o (text resp)) as [table|r] eqn:Htable; simpl.
  - destruct (write o (theory_path self) table) as [|r|partial r] eqn:Hw; simpl.
    + by eapply spectrum_stored.
    + by eapply spectrum_unopened.
    + by eapply spectrum_broken.
  - by eapply spectrum_bad_table.
Qed.

Lemma synfast_and_write_run (o : Outside) (self : DownloadData) (realisation : Z)
    (overwrite : bool) (filename : string) (cl : list float) (s : sys) :
  cmb_file o self realisation filename ->
  disk s !! filename = None \/ overwrite = true ->
  spectrum_of o self s cl ->
  generate o self realisation overwrite s
    (synfast_and_write o filename cl overwrite s).1
    (synfast_and_write o filename cl overwrite s).2.
Proof.
  intros Hfile Hfree Hcl. unfold synfast_and_write. run.
  destruct (synfast o (draws s) cl) as [data|r] eqn:Hmap; simpl.
  - assert (Hgo : bool_decide (is_Some (disk s !! filename)) && negb overwrite = false).
    { destruct Hfree as [Hnone| ->]; [|apply andb_false_r].
      rewrite Hnone. by rewrite bool_decide_eq_false_2 by by intros [? ?]. }
    rewrite Hgo. destruct (write o filename data) as [|r|partial r] eqn:Hw; simpl.
    + by eapply generate_stored.
    + by eapply generate_unopened.
    + by eapply generate_broken.
  - by eapply generate_no_map.
Qed.

Lemma generate_and_save_cmb_realisation_run (o : Outside) (self : DownloadData)
    (realisation : Z) (overwrite : bool) (s : sys) :
  generate o self realisation overwrite s
    (generate_and_save_cmb_realisation o self realisation overwrite s).1
    (generate_and_save_cmb_realisation o self realisation overwrite s).2.
Proof.
  unfold generate_and_save_cmb_realisation. run.
  destruct (dict_get (file_templates self) "cmb") as [cmb_template|] eqn:Htemplate;
    simpl; [|constructor].
  destruct (str_format o cmb_template _) as [filename|r] eqn:Hname; simpl; [|constructor].
  assert (Hfile : cmb_file o self realisation filename) by by exists cmb_template.
  destruct (bool_decide (is_Some (disk s !! filename)) && negb overwrite) eqn:Hskip; simpl.
  { apply andb_true_iff in Hskip as [Hpresent%bool_decide_eq_true Hov%negb_true_iff].
    by eapply generate_skip. }
  assert (Hfree : disk s !! filename = None \/ overwrite = true).
  { apply andb_false_iff in Hskip as [Hnone|Hov].
    - left. by apply on_disk_decide.
    - right. by destruct overwrite. }
  destruct (bool_decide (is_Some (disk s !! theory_path self))) eqn:Htheory; simpl.
  - apply bool_decide_eq_true in Htheory. pose proof Htheory as [table Htable].
    rewrite Htable. simpl.
    destruct (loadtxt_theory o table) as [rows|r] eqn:Hrows; simpl.
    + destruct (cl_theory_returns o rows) as [cl Hcl]. rewrite Hcl.
      apply (synfast_and_write_run o self realisation); [done|done|].
      left. by exists table, rows.
    + eapply generate_bad_table; [done|done|by left].
  - apply on_disk_decide in Htheory.
    destruct (bool_decide (is_Some (disk s !! planck_path self))) eqn:Hplanck; simpl.
    + apply bool_decide_eq_true in Hplanck. pose proof Hplanck as [table Htable].
      rewrite Htable. simpl.
      destruct (loadtxt_planck o table) as [rows|r] eqn:Hrows; simpl.
      * apply (synfast_and_write_run o self realisation); [done|done|].
        right. split; [done|]. by exists table, rows.
      * eapply generate_bad_table; [done|done|by right].
    + apply on_disk_decide in Hplanck. by eapply generate_no_spectrum.
Qed.

(** ** [download_foreground_component] *)

Lemma file_of_unique (o : Outside) (self : DownloadData) (component frequency : string)
    (realisation : option Z) (filename filename' : string) :
  file_of o self component frequency realisation filename ->
  file_of o self component frequency realisation filename' ->
  filename = filename'.
Proof. intros (t & Ht & Hf) (t' & Ht' & Hf'). congruence. Qed.

Lemma url_of_unique (o : Outside) (self : DownloadData) (component frequency : string)
    (realisation : option Z) (url url' : string) :
  url_of o self component frequency realisation url ->
  url_of o self component frequency realisation url' ->
  url = url'.
Proof. intros (t & Ht & Hf) (t' & Ht' & Hf'). congruence. Qed.

Lemma on_disk_put (s : sys) (path data : string) : on_disk (put path data s) path.
Proof. unfold on_disk, put. simpl. rewrite lookup_insert_eq. by eexists. Qed.

Lemma on_disk_absent (s : sys) (path : string) :
  on_disk s path -> disk s !! path = None -> False.
Proof. intros [data Hdata] Hnone. congruence. Qed.

Lemma put_changes (s : sys) (filename data path : string) :
  disk (put filename data s) !! path <> disk s !! path -> path = filename.
Proof.
  intros Hpath. destruct (decide (filename = path)) as [<-|Hne]; [done|].
  simpl in Hpath. by rewrite lookup_insert_ne in Hpath.
Qed.

(** A call whose file is there does nothing. *)
Lemma download_foreground_component_skip (o : Outside) (self : DownloadData)
    (component frequency : string) (realisation : option Z) (s : sys) :
  fetched o self component frequency realisation s ->
  download_foreground_component o self component frequency realisation s = (Done tt, s).
Proof.
  intros ([template Htemplate] & filename & (file_template & Hfile & Hname) & Hpresent).
  unfold download_foreground_component. run.
  rewrite Htemplate, Hfile. simpl. rewrite Hname. simpl.
  by rewrite bool_decide_eq_true_2.
Qed.

(** A call that returns leaves its file on the disk.  It has made no
    request when the file was there, and else one request, answered with
    status 200, whose content is the file; the rest of the state is as it
    was.  The same call made again returns at once, with no request and no
    change. *)
Theorem download_foreground_component_once (o : Outside) (self : DownloadData)
    (component frequency : string) (realisation : option Z) (s s' : sys) :
  download_foreground_component o self component frequency realisation s = (Done tt, s') ->
  exists filename,
    file_of o self component frequency realisation filename /\
    on_disk s' filename /\
    (on_disk s filename -> s' = s) /\
    (disk s !! filename = None ->
     exists url resp,
       url_of o self component frequency realisation url /\
       requests_get o (length (requested s)) url = Some resp /\
       status_code resp = 200%Z /\
       s' = put filename (content resp) (log url s)) /\
    download_foreground_component o self component frequency realisation s' = (Done tt, s').
Proof.
  intros Hrun.
  pose proof (download_foreground_component_fetch o self component frequency realisation s)
    as Hfetch.
  rewrite Hrun in Hfetch. simpl in Hfetch.
  inversion Hfetch as [| |filename Htemplate Hfile Hpresent| | | |
                       |filename url resp Hfile Hnone Hurl Hresp Hok Hw]; subst.
  - exists filename. split; [done|]. split; [done|]. split; [done|]. split.
    + intros Hnone. by destruct (on_disk_absent _ _ Hpresent Hnone).
    + apply download_foreground_component_skip. split; [done|]. by exists filename.
  - exists filename. split; [done|]. split; [apply on_disk_put|]. split; [|split].
    + intros Hpresent. by destruct (on_disk_absent _ _ Hpresent Hnone).
    + intros _. by exists url, resp.
    + apply download_foreground_component_skip. split.
      * destruct Hurl as (template & Htemplate & _). by exists template.
      * exists filename. split; [done|apply on_disk_put].
Qed.

Lemma download_foreground_component_once_witness :
  exists s',
    download_foreground_component sample_outside (sample_downloader ["sync"] 0)
      "sync" "030" None empty_sys = (Done tt, s') /\
    disk s' !! "data/sync_030" = Some "<http://pla/sync/030_None>" /\
    requested s' = ["http://pla/sync/030_None"] /\
    exists filename,
      file_of sample_outside (sample_downloader ["sync"] 0) "sync" "030" None filename /\
      on_disk s' filename /\
      download_foreground_component sample_outside (sample_downloader ["sync"] 0)
        "sync" "030" None s' = (Done tt, s').
Proof.
  eexists. split; [vm_compute; reflexivity|]. split; [reflexivity|]. split; [reflexivity|].
  destruct (download_foreground_component_once sample_outside (sample_downloader ["sync"] 0)
              "sync" "030" None empty_sys _ eq_refl)
    as (filename & Hfile & Hdisk & _ & _ & Hagain).
  by exists filename.
Defined.

(** After an answer whose status is not 200, the [ValueError] of line 71. *)
Lemma download_foreground_component_refused (o : Outside) (self : DownloadData)
    (component frequency : string) (realisation : option Z) (s : sys)
    (filename url : string) (resp : response) :
  file_of o self component frequency realisation filename ->
  disk s !! filename = None ->
  url_of o self component frequency realisation url ->
  requests_get o (length (requested s)) url = Some resp ->
  status_code resp <> 200%Z ->
  download_foreground_component o self component frequency realisation s
  = (Failed (ValueError (failed_message component frequency (status_code resp))), log url s).
Proof.
  intros (t & Ht & Hf) Hnone (t' & Ht' & Hu) Hresp Hko.
  unfold download_foreground_component. run.
  rewrite Ht', Ht. simpl. rewrite Hf. simpl.
  rewrite bool_decide_eq_false_2 by (rewrite Hnone; by intros [? ?]). simpl.
  rewrite Hu. simpl. rewrite Hresp. simpl. by rewrite decide_False by done.
Qed.

Ltac unchanged :=
  let path := fresh "path" in
  let Hpath := fresh "Hpath" in
  intros path Hpath; exfalso; apply Hpath; reflexivity.

(** A call that raises has made at most one request and no draw.  No
    file but its own can differ afterwards, and its own, which was not
    there, does only when the answer had status 200 and the writing broke
    after the file was opened: the file then holds what was written so
    far, and since it is there the same call made again returns at once,
    without a request, taking it for the download.  After an answer whose
    status is not 200 the call raises the [ValueError] of line 71, whose
    message names the component, the frequency and the status, and no file
    has changed; that [ValueError] is raised in no other case. *)
Theorem download_foreground_component_failure (o : Outside) (self : DownloadData)
    (component frequency : string) (realisation : option Z) (s s' : sys) (e : exn) :
  download_foreground_component o self component frequency realisation s = (Failed e, s') ->
  draws s' = draws s /\
  (requested s' = requested s \/
   exists url, url_of o self component frequency realisation url /\
     requested s' = requested s ++ [url]) /\
  (forall path, disk s' !! path <> disk s !! path ->
     file_of o self component frequency realisation path /\
     disk s !! path = None /\
     (exists url resp partial r,
        requests_get o (length (requested s)) url = Some resp /\
        status_code resp = 200%Z /\
        write o path (content resp) = Broken partial r /\
        e = Raised r /\ disk s' !! path = Some partial) /\
     download_foreground_component o self component frequency realisation s'
     = (Done tt, s')) /\
  (forall filename url resp,
     file_of o self component frequency realisation filename ->
     disk s !! filename = None ->
     url_of o self component frequency realisation url ->
     requests_get o (length (requested s)) url = Some resp ->
     status_code resp <> 200%Z ->
     e = ValueError ("Failed to download " +:+ component +:+ " data for frequency "
                     +:+ frequency +:+ ". Status code: " +:+ pretty (status_code resp)) /\
     disk s' = disk s) /\
  (forall msg, e = ValueError msg ->
     exists url resp,
       url_of o self component frequency realisation url /\
       requests_get o (length (requested s)) url = Some resp /\
       status_code resp <> 200%Z /\
       requested s' = requested s ++ [url] /\
       disk s' = disk s /\
       msg = "Failed to download " +:+ component +:+ " data for frequency " +:+ frequency
             +:+ ". Status code: " +:+ pretty (status_code resp)).
Proof.
  intros Hrun.
  assert (Hrefused : forall filename url resp,
     file_of o self component frequency realisation filename ->
     disk s !! filename = None ->
     url_of o self component frequency realisation url ->
     requests_get o (length (requested s)) url = Some resp ->
     status_code resp <> 200%Z ->
     e = ValueError (failed_message component frequency (status_code resp)) /\
     disk s' = disk s).
  { intros filename url resp Hfile Hnone Hurl Hresp Hko.
    rewrite (download_foreground_component_refused o self component frequency realisation
               s filename url resp Hfile Hnone Hurl Hresp Hko) in Hrun.
    by injection Hrun as <- <-. }
  pose proof (download_foreground_component_fetch o self component frequency realisation s)
    as Hfetch.
  rewrite Hrun in Hfetch. simpl in Hfetch. clear Hrun.
  split; [by inversion Hfetch|].
  split; [inversion Hfetch; subst; first [by left|right; by eexists]|].
  split; [|split; [exact Hrefused|]].
  - inversion Hfetch as [| | | | |
                         |filename url resp partial r Hfile Hnone Hurl Hresp Hok Hw|];
      subst; try unchanged.
    intros path Hpath.
    assert (path = filename) as -> by by eapply (put_changes (log url s)).
    split; [done|]. split; [done|]. split.
    + exists url, resp, partial, r. simpl. by rewrite lookup_insert_eq.
    + apply download_foreground_component_skip. split.
      * destruct Hurl as (template & Htemplate & _). by exists template.
      * exists filename. split; [done|apply on_disk_put].
  - intros msg ->.
    inversion Hfetch as [| | | |filename url resp Hfile Hnone Hurl Hresp Hko| | |]; subst.
    by exists url, resp.
Qed.

Lemma download_foreground_component_failure_witness :
  download_foreground_component sample_outside (sample_downloader ["dust"] 0)
    "dust" "030" None empty_sys
  = (Failed (ValueError "Failed to download dust data for frequency 030. Status code: 404"),
     log "http://pla/dust/030_None" empty_sys) /\
  (exists s' r,
     download_foreground_component sample_outside (downloader_into "/full/")
       "sync" "030" None empty_sys = (Failed (Raised r), s') /\
     class_name r = "OSError" /\
     disk s' !! "/full/sync_030" = Some "" /\
     download_foreground_component sample_outside (downloader_into "/full/")
       "sync" "030" None s' = (Done tt, s')) /\
  draws (log "http://pla/dust/030_None" empty_sys) = draws empty_sys.
Proof.
  split; [vm_compute; reflexivity|]. split.
  - eexists _, _. split; [vm_compute; reflexivity|]. split; [reflexivity|].
    split; [reflexivity|].
    destruct (download_foreground_component_failure sample_outside (downloader_into "/full/")
                "sync" "030" None empty_sys _ _ eq_refl) as (_ & _ & Hchanged & _).
    destruct (Hchanged "/full/sync_030") as (_ & _ & _ & Hagain); [|exact Hagain].
    vm_compute. discriminate.
  - exact (proj1 (download_foreground_component_failure sample_outside
                    (sample_downloader ["dust"] 0) "dust" "030" None empty_sys _ _ eq_refl)).
Defined.

(** ** [download_cmb_spectrum] *)

Lemma download_cmb_spectrum_skip (o : Outside) (self : DownloadData) (s : sys) :
  on_disk s (theory_path self) -> download_cmb_spectrum o self s = (Done tt, s).
Proof.
  intros Hpresent. unfold download_cmb_spectrum. run.
  by rewrite bool_decide_eq_true_2.
Qed.

(** [download_cmb_spectrum] leaves a theory spectrum that is there as it
    is, and asks nothing of the archive then.  When it returns, the theory
    spectrum is on the disk and a second call does nothing; having found no
    spectrum, it has written the table made of the one answer it got,
    whose status may be any outside 400 to 599.  When it raises, the one
    request was made; no file but the theory spectrum can differ, and it
    does only when the writing of the table broke after the file was
    opened: the file then holds what was written so far, and a second call
    takes it for the spectrum and does nothing.  On a status from 400 to
    599 it raises the [HTTPError] of [raise_for_status], and no file has
    changed. *)
Theorem download_cmb_spectrum_once (o : Outside) (self : DownloadData) (s : sys) :
  (on_disk s (theory_path self) -> download_cmb_spectrum o self s = (Done tt, s)) /\
  (forall s',
     download_cmb_spectrum o self s = (Done tt, s') ->
     on_disk s' (theory_path self) /\
     download_cmb_spectrum o self s' = (Done tt, s') /\
     (disk s !! theory_path self = None ->
      exists resp table,
        requests_get o (length (requested s)) planck_url = Some resp /\
        ~ (400 <= status_code resp < 600)%Z /\
        planck_table o (text resp) = Returns table /\
        s' = put (theory_path self) table (log planck_url s))) /\
  (forall e s',
     download_cmb_spectrum o self s = (Failed e, s') ->
     draws s' = draws s /\
     requested s' = requested s ++ [planck_url] /\
     (forall path, disk s' !! path <> disk s !! path ->
        path = theory_path self /\ disk s !! path = None /\
        (exists resp table partial r,
           requests_get o (length (requested s)) planck_url = Some resp /\
           planck_table o (text resp) = Returns table /\
           write o path table = Broken partial r /\
           e = Raised r /\ disk s' !! path = Some partial) /\
        download_cmb_spectrum o self s' = (Done tt, s'))) /\
  (forall resp,
     disk s !! theory_path self = None ->
     requests_get o (length (requested s)) planck_url = Some resp ->
     (400 <= status_code resp < 600)%Z ->
     download_cmb_spectrum o self s
     = (Failed (HTTPError (status_code resp)), log planck_url s)).
Proof.
  pose proof (download_cmb_spectrum_run o self s) as Hrun.
  split; [apply download_cmb_spectrum_skip|]. split; [|split].
  - intros s' Hs'. rewrite Hs' in Hrun. simpl in Hrun.
    inversion Hrun as [Hpresent| | | | | |resp table Hnone Hresp Hstatus Htable Hw]; subst.
    + split; [done|]. split; [by apply download_cmb_spectrum_skip|].
      intros Hnone. by destruct (on_disk_absent _ _ Hpresent Hnone).
    + split; [apply on_disk_put|]. split.
      * apply download_cmb_spectrum_skip, on_disk_put.
      * intros _. by exists resp, table.
  - intros e s' Hs'. rewrite Hs' in Hrun. simpl in Hrun.
    split; [by inversion Hrun|]. split; [by inversion Hrun|].
    inversion Hrun as [| | | |
                       |resp table partial r Hnone Hresp Hstatus Htable Hw|];
      subst; try unchanged.
    intros path Hpath.
    assert (path = theory_path self) as -> by by eapply (put_changes (log planck_url s)).
    split; [done|]. split; [done|]. split.
    + exists resp, table, partial, r. simpl. by rewrite lookup_insert_eq.
    + apply download_cmb_spectrum_skip, on_disk_put.
  - intros resp Hnone Hresp Hstatus. unfold download_cmb_spectrum. run.
    rewrite bool_decide_eq_false_2 by (rewrite Hnone; by intros [? ?]). simpl.
    rewrite Hresp. simpl. by rewrite decide_True by done.
Qed.

Lemma download_cmb_spectrum_once_witness :
  exists s',
    download_cmb_spectrum sample_outside (sample_downloader [] 0) empty_sys = (Done tt, s') /\
    disk s' !! "data/cmb_spectrum_theory.txt" = Some planck_saved /\
    download_cmb_spectrum sample_outside (sample_downloader [] 0) s' = (Done tt, s').
Proof.
  eexists. split; [vm_compute; reflexivity|]. split; [reflexivity|].
  exact (proj1 (proj2 (proj1 (proj2 (download_cmb_spectrum_once sample_outside
                                       (sample_downloader [] 0) empty_sys)) _ eq_refl))).
Defined.

(** ** [generate_and_save_cmb_realisation] *)

(** Without a spectrum file, the [FileNotFoundError] of line 136. *)
Lemma generate_and_save_cmb_realisation_no_spectrum (o : Outside) (self : DownloadData)
    (realisation : Z) (overwrite : bool) (s : sys) (filename : string) :
  cmb_file o self realisation filename ->
  disk s !! filename = None \/ overwrite = true ->
  disk s !! theory_path self = None ->
  disk s !! planck_path self = None ->
  generate_and_save_cmb_realisation o self realisation overwrite s
  = (Failed (FileNotFoundError no_spectrum_message), s).
Proof.
  intros (t & Ht & Hf) Hfree Htheory Hplanck.
  unfold generate_and_save_cmb_realisation. run.
  rewrite Ht. simpl. rewrite Hf. simpl.
  assert (Hgo : bool_decide (is_Some (disk s !! filename)) && negb overwrite = false).
  { destruct Hfree as [Hnone| ->]; [|apply andb_false_r].
    rewrite Hnone. by rewrite bool_decide_eq_false_2 by by intros [? ?]. }
  rewrite Hgo. simpl.
  rewrite bool_decide_eq_false_2 by (rewrite Htheory; by intros [? ?]). simpl.
  by rewrite bool_decide_eq_false_2 by (rewrite Hplanck; by intros [? ?]).
Qed.

(** [generate_and_save_cmb_realisation] makes no request, and at most one
    draw.  The one file that can differ afterwards is the map of its
    realisation, it being absent or [overwrite] set, and a map was then
    drawn from the spectrum of the theory file when there is one, else of
    the Planck file: the file is that map when the call returns, and what
    was written of it when the writing broke.  When the call returns the
    map is on the disk.  It raises the [FileNotFoundError] of line 136
    when, and only when, the map is to be made and neither spectrum file is
    there; nothing has changed then. *)
Theorem generate_and_save_cmb_realisation_effect (o : Outside) (self : DownloadData)
    (realisation : Z) (overwrite : bool) (s s' : sys) (res : outcome unit) :
  generate_and_save_cmb_realisation o self realisation overwrite s = (res, s') ->
  requested s' = requested s /\
  (draws s <= draws s' <= S (draws s)) /\
  (forall path, disk s' !! path <> disk s !! path ->
     cmb_file o self realisation path /\
     (disk s !! path = None \/ overwrite = true) /\
     draws s' = S (draws s) /\
     exists cl data,
       spectrum_of o self s cl /\ synfast o (draws s) cl = Returns data /\
       (res = Done tt -> disk s' !! path = Some data) /\
       (forall e, res = Failed e ->
          exists partial r, write o path data = Broken partial r /\ e = Raised r /\
            disk s' !! path = Some partial)) /\
  (res = Done tt ->
   exists filename, cmb_file o self realisation filename /\ on_disk s' filename) /\
  (forall filename,
     cmb_file o self realisation filename ->
     disk s !! filename = None \/ overwrite = true ->
     disk s !! theory_path self = None ->
     disk s !! planck_path self = None ->
     res = Failed (FileNotFoundError no_spectrum_message) /\ s' = s) /\
  (forall msg, res = Failed (FileNotFoundError msg) ->
     msg = no_spectrum_message /\ s' = s /\
     disk s !! theory_path self = None /\ disk s !! planck_path self = None).
Proof.
  intros Hrun.
  assert (Hnone : forall filename,
     cmb_file o self realisation filename ->
     disk s !! filename = None \/ overwrite = true ->
     disk s !! theory_path self = None ->
     disk s !! planck_path self = None ->
     res = Failed (FileNotFoundError no_spectrum_message) /\ s' = s).
  { intros filename Hfile Hfree Htheory Hplanck.
    rewrite (generate_and_save_cmb_realisation_no_spectrum o self realisation overwrite s
               filename Hfile Hfree Htheory Hplanck) in Hrun.
    by injection Hrun as <- <-. }
  pose proof (generate_and_save_cmb_realisation_run o self realisation overwrite s) as Hgen.
  rewrite Hrun in Hgen. simpl in Hgen. clear Hrun.
  split; [by inversion Hgen|].
  split; [inversion Hgen; subst; simpl; lia|].
  split; [|split; [|split; [exact Hnone|]]].
  - inversion Hgen as [| | | | | |
                       |filename cl data partial r Hfile Hfree Hcl Hmap Hw
                       |filename cl data Hfile Hfree Hcl Hmap Hw];
      subst; try unchanged.
    + intros path Hpath.
      assert (path = filename) as -> by by eapply (put_changes (tick s)).
      split; [done|]. split; [done|]. split; [done|].
      exists cl, data. split; [done|]. split; [done|]. split; [done|].
      intros e [= <-]. exists partial, r. simpl. by rewrite lookup_insert_eq.
    + intros path Hpath.
      assert (path = filename) as -> by by eapply (put_changes (tick s)).
      split; [done|]. split; [done|]. split; [done|].
      exists cl, data. split; [done|]. split; [done|]. split; [|done].
      intros _. simpl. by rewrite lookup_insert_eq.
  - intros ->.
    inversion Hgen as [| |filename Hfile Hpresent Hov| | | | |
                       |filename cl data Hfile Hfree Hcl Hmap Hw]; subst.
    + by exists filename.
    + exists filename. split; [done|apply on_disk_put].
  - intros msg ->. by inversion Hgen; subst.
Qed.

Lemma generate_and_save_cmb_realisation_effect_witness :
  generate_and_save_cmb_realisation sample_outside (sample_downloader [] 0) 7 false empty_sys
  = (Failed (FileNotFoundError no_spectrum_message), empty_sys) /\
  exists s',
    generate_and_save_cmb_realisation sample_outside (sample_downloader [] 0) 7 false
      (put "data/cmb_spectrum.txt" planck_saved empty_sys) = (Done tt, s') /\
    disk s' !! "data/cmb_7_1023" = Some "map 0" /\
    requested s' = [].
Proof.
  split; [vm_compute; reflexivity|].
  eexists. split; [vm_compute; reflexivity|]. split; [reflexivity|].
  exact (proj1 (generate_and_save_cmb_realisation_effect sample_outside
                  (sample_downloader [] 0) 7 false
                  (put "data/cmb_spectrum.txt" planck_saved empty_sys) _ _ eq_refl)).
Defined.

(** ** Sequences and loops *)

Section sequence_facts.
Context {A B : Type}.

Lemma bind_Done_inv (m : io A) (k : A -> io B) (s s' : sys) (b : B) :
  (m ≫= k) s = (Done b, s') ->
  exists a s1, m s = (Done a, s1) /\ k a s1 = (Done b, s').
Proof.
  unfold mbind, io_bind. destruct (m s) as [[a|e] s1]; [|done].
  intros Hk. by exists a, s1.
Qed.

Lemma bind_Done (m : io A) (k : A -> io B) (s s1 : sys) (a : A) :
  m s = (Done a, s1) -> (m ≫= k) s = k a s1.
Proof. intros Hm. unfold mbind, io_bind. by rewrite Hm. Qed.

Lemma triple_bind (P : sys -> Prop) (m : io A) (k : A -> io B) (R : A -> sys -> Prop)
    (Q : B -> sys -> Prop) (E : exn -> sys -> Prop) :
  triple P m R E -> (forall a, triple (R a) (k a) Q E) -> triple P (m ≫= k) Q E.
Proof.
  intros Hm Hk s Hs. specialize (Hm s Hs). unfold mbind, io_bind.
  destruct (m s) as [[a|e] s1]; simpl in *; [by apply Hk|done].
Qed.

(** A relation between the state before and the state after, kept by
    each step, is kept by the sequence. *)
Lemma steps_bind (R : relation sys) `{!Transitive R} (m : io A) (k : A -> io B) :
  (forall s, R s (m s).2) -> (forall a s, R s (k a s).2) ->
  forall s, R s ((m ≫= k) s).2.
Proof.
  intros Hm Hk s. specialize (Hm s). unfold mbind, io_bind.
  destruct (m s) as [[a|e] s1]; simpl in *; [|done].
  by transitivity s1.
Qed.
End sequence_facts.

Section for_each_facts.
Context {A : Type}.
Implicit Types (body : A -> io unit) (l : list A).

Lemma triple_for_each (I : sys -> Prop) (E : exn -> sys -> Prop) body l :
  (forall x, x ∈ l -> triple I (body x) (fun _ => I) E) ->
  triple I (for_each body l) (fun _ => I) E.
Proof.
  induction l as [|x l IH]; intros Hbody; simpl.
  - by intros s Hs.
  - apply (triple_bind I _ _ (fun _ => I)).
    + apply Hbody. left.
    + intros []. apply IH. intros y Hy. apply Hbody. by right.
Qed.

Lemma steps_for_each (R : relation sys) `{!PreOrder R} body l :
  (forall x, x ∈ l -> forall s, R s (body x s).2) ->
  forall s, R s (for_each body l s).2.
Proof.
  induction l as [|x l IH]; intros Hbody; simpl.
  - by intros s.
  - apply steps_bind; [apply _| |].
    + apply Hbody. left.
    + intros []. apply IH. intros y Hy. apply Hbody. by right.
Qed.

(** A loop whose every round does nothing does nothing. *)
Lemma for_each_quiet body l (s : sys) :
  (forall x, x ∈ l -> body x s = (Done tt, s)) -> for_each body l s = (Done tt, s).
Proof.
  induction l as [|x l IH]; intros Hbody; simpl; [done|].
  rewrite (bind_Done _ _ s s tt) by (apply Hbody; left).
  apply IH. intros y Hy. apply Hbody. by right.
Qed.

(** What each round of a loop that returns has settled is settled at the
    end, when no later step can undo it. *)
Lemma for_each_settles (R : relation sys) `{!PreOrder R} (Q : A -> sys -> Prop) body l :
  (forall x, x ∈ l -> forall s, R s (body x s).2) ->
  (forall x s s', x ∈ l -> body x s = (Done tt, s') -> Q x s') ->
  (forall x s s', Q x s -> R s s' -> Q x s') ->
  forall s s', for_each body l s = (Done tt, s') -> forall x, x ∈ l -> Q x s'.
Proof.
  intros Hstep Hsettle Hmono. induction l as [|x l IH]; intros s s' Hrun y Hy.
  - by apply elem_of_nil in Hy.
  - simpl in Hrun. apply bind_Done_inv in Hrun as ([] & s1 & Hx & Hrest).
    apply elem_of_cons in Hy as [->|Hy].
    + apply (Hmono x s1 s'); [apply (Hsettle x s s1); [left|done]|].
      replace s' with (for_each body l s1).2 by by rewrite Hrest.
      apply steps_for_each; [done|].
      intros z Hz. apply Hstep. by right.
    + apply (IH (fun z Hz => Hstep z (proj2 (elem_of_cons l z x) (or_intror Hz)))
                (fun z t t' Hz => Hsettle z t t' (proj2 (elem_of_cons l z x) (or_intror Hz)))
                s1 s' Hrest y Hy).
Qed.
End for_each_facts.

(** ** No file goes away *)

#[local] Instance kept_preorder : PreOrder kept.
Proof.
  split.
  - by intros s path.
  - intros s1 s2 s3 H12 H23 path Hpath. by apply H23, H12.
Qed.

Lemma kept_log (url : string) (s : sys) : kept s (log url s).
Proof. by intros path. Qed.

Lemma kept_tick (s : sys) : kept s (tick s).
Proof. by intros path. Qed.

Lemma kept_put (path data : string) (s : sys) : kept s (put path data s).
Proof.
  intros path' [data' Hdata']. unfold on_disk, put. simpl.
  destruct (decide (path = path')) as [<-|Hne].
  - rewrite lookup_insert_eq. by eexists.
  - rewrite lookup_insert_ne by done. by eexists.
Qed.

Lemma fetch_kept (o : Outside) (self : DownloadData) (component frequency : string)
    (realisation : option Z) (s s' : sys) (res : outcome unit) :
  fetch o self component frequency realisation s res s' -> kept s s'.
Proof.
  destruct 1; try reflexivity; try apply kept_log.
  all: etransitivity; [apply kept_log|apply kept_put].
Qed.

Lemma spectrum_kept (o : Outside) (self : DownloadData) (s s' : sys) (res : outcome unit) :
  spectrum o self s res s' -> kept s s'.
Proof.
  destruct 1; try reflexivity; try apply kept_log.
  all: etransitivity; [apply kept_log|apply kept_put].
Qed.

Lemma generate_kept (o : Outside) (self : DownloadData) (realisation : Z) (overwrite : bool)
    (s s' : sys) (res : outcome unit) :
  generate o self realisation overwrite s res s' -> kept s s'.
Proof.
  destruct 1; try reflexivity; try apply kept_tick.
  all: etransitivity; [apply kept_tick|apply kept_put].
Qed.

Lemma download_foreground_component_kept (o : Outside) (self : DownloadData)
    (component frequency : string) (realisation : option Z) (s : sys) :
  kept s (download_foreground_component o self component frequency realisation s).2.
Proof. eapply fetch_kept, download_foreground_component_fetch. Qed.

Lemma download_cmb_spectrum_kept (o : Outside) (self : DownloadData) (s : sys) :
  kept s (download_cmb_spectrum o self s).2.
Proof. eapply spectrum_kept, download_cmb_spectrum_run. Qed.

Lemma generate_and_save_cmb_realisation_kept (o : Outside) (self : DownloadData)
    (realisation : Z) (overwrite : bool) (s : sys) :
  kept s (generate_and_save_cmb_realisation o self realisation overwrite s).2.
Proof. eapply generate_kept, generate_and_save_cmb_realisation_run. Qed.

Lemma foregrounds_of_kept (o : Outside) (self : DownloadData) (component : string) (s : sys) :
  kept s (foregrounds_of o self component s).2.
Proof.
  unfold foregrounds_of. case_decide; [reflexivity|].
  apply steps_for_each; [apply _|]. intros f _ s1.
  apply download_foreground_component_kept.
Qed.

Lemma realisation_of_kept (o : Outside) (self : DownloadData) (i : nat) (s : sys) :
  kept s (realisation_of o self i s).2.
Proof.
  unfold realisation_of. revert s. apply steps_bind; [apply _| |].
  - intros s. apply generate_and_save_cmb_realisation_kept.
  - intros _ s. repeat case_decide; try reflexivity.
    apply steps_for_each; [apply _|]. intros f _ s1.
    apply download_foreground_component_kept.
Qed.

(** ** [download_all]: the files it touches and the requests it makes *)

Section reached_facts.
Variables (o : Outside) (self : DownloadData).

#[local] Instance reached_preorder : PreOrder (reached o self).
Proof.
  split.
  - intros s. split; [|split; [|split]].
    + exists []. by rewrite app_nil_r.
    + done.
    + reflexivity.
    + intros path data Hdata. by left.
  - intros s1 s2 s3 ((urls & Hurls & Hexp) & Hdraws & Hkept & Hdata)
      ((urls' & Hurls' & Hexp') & Hdraws' & Hkept' & Hdata').
    split; [|split; [|split]].
    + exists (urls ++ urls'). split.
      * by rewrite Hurls', Hurls, app_assoc.
      * by apply Forall_app.
    + lia.
    + by transitivity s2.
    + intros path data Hpath. destruct (Hdata path data Hpath) as [Hpath2|Hre]; [|by right].
      apply (Hdata' path data Hpath2).
Qed.

Lemma reached_log (url : string) (s : sys) :
  expected_url o self url -> reached o self s (log url s).
Proof.
  intros Hurl. split; [|split; [|split]].
  - exists [url]. split; [done|]. by apply Forall_singleton.
  - done.
  - apply kept_log.
  - intros path data Hpath. by left.
Qed.

Lemma reached_tick (s : sys) : reached o self s (tick s).
Proof.
  split; [|split; [|split]].
  - exists []. split; [by rewrite app_nil_r|done].
  - simpl. lia.
  - apply kept_tick.
  - intros path data Hpath. by left.
Qed.

Lemma reached_put (path data : string) (s : sys) :
  disk s !! path = None \/
  (overwrite self = true /\
   exists realisation, in_run self realisation /\ cmb_file o self realisation path) ->
  reached o self s (put path data s).
Proof.
  intros Hfree. split; [|split; [|split]].
  - exists []. split; [by rewrite app_nil_r|done].
  - done.
  - apply kept_put.
  - intros path' data' Hpath'. simpl.
    destruct (decide (path = path')) as [<-|Hne].
    + destruct Hfree as [Hnone|Hre]; [congruence|by right].
    + left. by rewrite lookup_insert_ne.
Qed.

Lemma fetch_reached (component frequency : string) (realisation : option Z)
    (s s' : sys) (res : outcome unit) :
  (forall url, url_of o self component frequency realisation url -> expected_url o self url) ->
  fetch o self component frequency realisation s res s' -> reached o self s s'.
Proof.
  intros Hexp. destruct 1; try reflexivity; try by apply reached_log, Hexp.
  all: etransitivity; [by apply reached_log, Hexp|]; apply reached_put; by left.
Qed.

Lemma spectrum_reached (s s' : sys) (res : outcome unit) :
  spectrum o self s res s' -> reached o self s s'.
Proof.
  assert (Hexp : expected_url o self planck_url) by by left.
  destruct 1; try reflexivity; try by apply reached_log.
  all: etransitivity; [by apply reached_log|]; apply reached_put; by left.
Qed.

Lemma generate_reached (realisation : Z) (s s' : sys) (res : outcome unit) :
  in_run self realisation ->
  generate o self realisation (overwrite self) s res s' -> reached o self s s'.
Proof.
  intros Hrun. destruct 1 as [| | | | | |
                              |filename cl data partial r Hfile Hfree Hcl Hmap Hw
                              |filename cl data Hfile Hfree Hcl Hmap Hw];
    try reflexivity; try apply reached_tick.
  all: etransitivity; [apply reached_tick|]; apply reached_put.
  all: destruct Hfree as [Hnone|Hov]; [by left|]; right; split; [done|];
    by exists realisation.
Qed.

Lemma foregrounds_of_reached (component : string) (s : sys) :
  component ∈ components self -> reached o self s (foregrounds_of o self component s).2.
Proof.
  intros Hc. unfold foregrounds_of. case_decide as Hskip; [reflexivity|].
  apply steps_for_each; [apply _|]. intros f Hf s1.
  eapply fetch_reached; [|apply download_foreground_component_fetch].
  intros url Hurl. right. left. exists component, f. naive_solver.
Qed.

Lemma realisation_of_reached (i : nat) (s : sys) :
  i < Z.to_nat (realisations self) -> reached o self s (realisation_of o self i s).2.
Proof.
  intros Hi.
  assert (Hrun : in_run self (Z.of_nat i + start_realisation self)) by (unfold in_run; lia).
  unfold realisation_of. revert s. apply steps_bind; [apply _| |].
  - intros s. eapply generate_reached; [done|].
    apply generate_and_save_cmb_realisation_run.
  - intros _ s. case_decide as Hnoise; [|reflexivity].
    case_decide as Hlate; [reflexivity|].
    apply steps_for_each; [apply _|]. intros f Hf s1.
    eapply fetch_reached; [|apply download_foreground_component_fetch].
    intros url Hurl. right. right.
    exists f, (Z.of_nat i + start_realisation self)%Z.
    split; [done|]. split; [done|]. split; [done|]. split; [lia|done].
Qed.

Lemma download_all_reached (s : sys) : reached o self s (download_all o self s).2.
Proof.
  unfold download_all. revert s. apply steps_bind; [apply _| |].
  - apply steps_for_each; [apply _|]. intros c Hc s. by apply foregrounds_of_reached.
  - intros _. apply steps_bind; [apply _| |].
    + intros s. eapply spectrum_reached, download_cmb_spectrum_run.
    + intros _. apply steps_for_each; [apply _|]. intros i Hi s.
      apply realisation_of_reached. apply elem_of_seq in Hi. lia.
Qed.
End reached_facts.

(** A run of [download_all], whether it returns or raises, removes no
    file.  A file that was there has its content still, unless
    [overwrite] is set and the file is the CMB map of a realisation of the
    run.  The count of draws does not decrease. *)
Theorem download_all_files (o : Outside) (self : DownloadData) (s : sys) :
  (forall path, on_disk s path -> on_disk (download_all o self s).2 path) /\
  (forall path data, disk s !! path = Some data ->
     disk (download_all o self s).2 !! path = Some data \/
     (overwrite self = true /\
      exists realisation, in_run self realisation /\ cmb_file o self realisation path)) /\
  draws s <= draws (download_all o self s).2.
Proof.
  destruct (download_all_reached o self s) as (_ & Hdraws & Hkept & Hdata).
  split; [exact Hkept|]. by split.
Qed.

(** Every request of a run of [download_all], whether it returns or
    raises, is one of: the request for the Planck spectrum; the request
    for a component of [components] other than [cmb] and [noise] at a
    frequency of [frequencies], with no realisation; the request for the
    noise at a frequency of [frequencies] and a realisation of the run
    that is at most 299, [noise] being one of [components].  The requests
    made before the run stay as they were. *)
Theorem download_all_requests (o : Outside) (self : DownloadData) (s : sys) :
  exists urls,
    requested (download_all o self s).2 = requested s ++ urls /\
    Forall (expected_url o self) urls.
Proof. by destruct (download_all_reached o self s) as (Hurls & _). Qed.

(** ** [download_all]: the exceptions it can raise *)

Section raise_facts.
Variables (o : Outside) (self : DownloadData).

Lemma fetch_raises (component frequency : string) (realisation : option Z)
    (s s' : sys) (e : exn) :
  component ∈ components self ->
  fetch o self component frequency realisation s (Failed e) s' -> may_raise self e.
Proof.
  intros Hc Hfetch.
  inversion Hfetch as [| | | |filename url resp Hfile Hnone Hurl Hresp Hko| | |]; subst;
    simpl; try done.
  - by left.
  - by exists component, frequency, (status_code resp).
Qed.

Lemma spectrum_raises (s s' : sys) (e : exn) :
  spectrum o self s (Failed e) s' -> may_raise self e.
Proof. intros Hrun. by inversion Hrun; subst; simpl. Qed.

Lemma generate_raises (realisation : Z) (overwrite : bool) (s s' : sys) (e : exn) :
  on_disk s (theory_path self) ->
  generate o self realisation overwrite s (Failed e) s' -> may_raise self e.
Proof.
  intros Htheory Hrun.
  inversion Hrun as [| | |filename Hfile Hfree Hnone Hnone'| | | | |]; subst; simpl;
    try done.
  - by right.
  - by destruct (on_disk_absent _ _ Htheory Hnone).
Qed.

Lemma download_foreground_component_triple (I : sys -> Prop) (component frequency : string)
    (realisation : option Z) :
  component ∈ components self ->
  (forall s s', I s -> kept s s' -> I s') ->
  triple I (download_foreground_component o self component frequency realisation)
    (fun _ => I) (fun e _ => may_raise self e).
Proof.
  intros Hc HI s Hs.
  pose proof (download_foreground_component_fetch o self component frequency realisation s)
    as Hfetch.
  destruct (download_foreground_component o self component frequency realisation s)
    as [[[]|e] s']; simpl in *.
  - apply (HI s s' Hs). by eapply fetch_kept.
  - by eapply fetch_raises.
Qed.

Lemma foregrounds_of_triple (component : string) :
  component ∈ components self ->
  triple (fun _ => True) (foregrounds_of o self component) (fun _ _ => True)
    (fun e _ => may_raise self e).
Proof.
  intros Hc. unfold foregrounds_of. case_decide; [by intros s _|].
  apply triple_for_each. intros f _.
  by apply (download_foreground_component_triple (fun _ => True)).
Qed.

Lemma download_cmb_spectrum_triple :
  triple (fun _ => True) (download_cmb_spectrum o self)
    (fun _ s => on_disk s (theory_path self)) (fun e _ => may_raise self e).
Proof.
  intros s _. pose proof (download_cmb_spectrum_run o self s) as Hrun.
  destruct (download_cmb_spectrum o self s) as [[[]|e] s']; simpl in *.
  - inversion Hrun; subst; [done|apply on_disk_put].
  - by eapply spectrum_raises.
Qed.

Lemma realisation_of_triple (i : nat) :
  triple (fun s => on_disk s (theory_path self)) (realisation_of o self i)
    (fun _ s => on_disk s (theory_path self)) (fun e _ => may_raise self e).
Proof.
  unfold realisation_of.
  apply (triple_bind _ _ _ (fun _ s => on_disk s (theory_path self))).
  - intros s Hs.
    pose proof (generate_and_save_cmb_realisation_run o self
                  (Z.of_nat i + start_realisation self) (overwrite self) s) as Hrun.
    destruct (generate_and_save_cmb_realisation o self _ _ s) as [[[]|e] s']; simpl in *.
    + by apply (generate_kept _ _ _ _ _ _ _ Hrun).
    + by eapply generate_raises.
  - intros []. case_decide as Hnoise; [|by intros s Hs].
    case_decide as Hlate; [by intros s Hs|].
    apply triple_for_each. intros f _.
    apply (download_foreground_component_triple (fun s => on_disk s (theory_path self)));
      [done|]. intros s s' Hs Hkept. by apply Hkept.
Qed.

Lemma download_all_triple :
  triple (fun _ => True) (download_all o self)
    (fun _ s => on_disk s (theory_path self)) (fun e _ => may_raise self e).
Proof.
  unfold download_all. apply (triple_bind _ _ _ (fun _ _ => True)).
  - apply triple_for_each. intros c Hc. by apply foregrounds_of_triple.
  - intros []. apply (triple_bind _ _ _ (fun _ s => on_disk s (theory_path self))).
    + apply download_cmb_spectrum_triple.
    + intros []. apply triple_for_each. intros i _. apply realisation_of_triple.
Qed.
End raise_facts.

(** Of the places of the program that raise, a run of [download_all]
    reaches only the lookup of a template ([KeyError], on a component of
    [components] or on [cmb]), the [raise] of line 71 ([ValueError], with
    the message of a foreground answer whose status is not 200) and
    [raise_for_status] ([HTTPError], on a status from 400 to 599); any
    other exception it ends with is that of an outside routine.  So the
    [raise FileNotFoundError] of line 136 is not reached, the theory
    spectrum being in place before the first realisation is drawn; nor is
    an index outside [cl], nor the refusal of [hp.write_map] to replace a
    file.  And when the run returns the theory spectrum is on the disk. *)
Theorem download_all_raises (o : Outside) (self : DownloadData) (s : sys) :
  (forall e, (download_all o self s).1 = Failed e -> may_raise self e) /\
  (forall u, (download_all o self s).1 = Done u ->
     on_disk (download_all o self s).2 (theory_path self)).
Proof.
  pose proof (download_all_triple o self s I) as Hrun.
  split.
  - intros e He. by rewrite He in Hrun.
  - intros u Hu. by rewrite Hu in Hrun.
Qed.

Lemma download_all_raises_witness :
  (download_all sample_outside (sample_downloader ["dust"; "cmb"] 1) empty_sys).1
  = Failed (ValueError "Failed to download dust data for frequency 030. Status code: 404") /\
  may_raise (sample_downloader ["dust"; "cmb"] 1)
    (ValueError "Failed to download dust data for frequency 030. Status code: 404") /\
  (generate_and_save_cmb_realisation sample_outside (sample_downloader ["cmb"] 1) 299 false
     empty_sys).1
  = Failed (FileNotFoundError no_spectrum_message) /\
  (download_all sample_outside (sample_downloader ["cmb"] 1) empty_sys).1 = Done tt /\
  (exists r,
     (download_all sample_outside (downloader_into "/missing/") empty_sys).1
     = Failed (Raised r) /\
     class_of (Raised r) = "FileNotFoundError" /\
     may_raise (downloader_into "/missing/") (Raised r)).
Proof.
  split; [vm_compute; reflexivity|]. split.
  - exact (proj1 (download_all_raises sample_outside (sample_downloader ["dust"; "cmb"] 1)
                    empty_sys) _ eq_refl).
  - split; [vm_compute; reflexivity|]. split; [vm_compute; reflexivity|].
    eexists. split; [vm_compute; reflexivity|]. split; [reflexivity|].
    exact (proj1 (download_all_raises sample_outside (downloader_into "/missing/")
                    empty_sys) _ eq_refl).
Defined.

(** ** [download_all]: a second run *)

Section again_facts.
Variables (o : Outside) (self : DownloadData).

Lemma fetched_kept (component frequency : string) (realisation : option Z) (s s' : sys) :
  fetched o self component frequency realisation s -> kept s s' ->
  fetched o self component frequency realisation s'.
Proof.
  intros (Htemplate & filename & Hfile & Hpresent) Hkept.
  split; [done|]. exists filename. split; [done|]. by apply Hkept.
Qed.

Lemma download_foreground_component_fetched (component frequency : string)
    (realisation : option Z) (s s' : sys) :
  download_foreground_component o self component frequency realisation s = (Done tt, s') ->
  fetched o self component frequency realisation s'.
Proof.
  intros Hrun.
  pose proof (download_foreground_component_fetch o self component frequency realisation s)
    as Hfetch.
  rewrite Hrun in Hfetch. simpl in Hfetch.
  inversion Hfetch as [| |filename Htemplate Hfile Hpresent| | | |
                       |filename url resp Hfile Hnone Hurl Hresp Hok Hw]; subst.
  - split; [done|]. by exists filename.
  - split.
    + destruct Hurl as (template & Htemplate & _). by exists template.
    + exists filename. split; [done|apply on_disk_put].
Qed.

Lemma foregrounds_of_settles (component : string) (s s' : sys) :
  foregrounds_of o self component s = (Done tt, s') ->
  foregrounds_fetched o self component s'.
Proof.
  unfold foregrounds_of, foregrounds_fetched.
  case_decide as Hskip; [naive_solver|]. intros Hrun. right. right.
  apply (for_each_settles kept
           (fun frequency => fetched o self component frequency None) _ _
           (fun f _ s1 => download_foreground_component_kept o self component f None s1)
           (fun f s1 s2 _ => download_foreground_component_fetched component f None s1 s2)
           (fun f => fetched_kept component f None) s s' Hrun).
Qed.

Lemma foregrounds_of_quiet (component : string) (s : sys) :
  foregrounds_fetched o self component s ->
  foregrounds_of o self component s = (Done tt, s).
Proof.
  unfold foregrounds_of, foregrounds_fetched. intros Hfetched.
  case_decide as Hskip; [done|].
  apply for_each_quiet. intros f Hf. apply download_foreground_component_skip.
  naive_solver.
Qed.

Lemma foregrounds_fetched_kept (component : string) (s s' : sys) :
  foregrounds_fetched o self component s -> kept s s' ->
  foregrounds_fetched o self component s'.
Proof.
  intros [Hc|[Hc|Hfetched]] Hkept; [by left|by right; left|].
  right. right. intros f Hf. apply (fetched_kept component f None s); [by apply Hfetched|done].
Qed.

Lemma generate_and_save_cmb_realisation_skip (realisation : Z) (filename : string)
    (s : sys) :
  cmb_file o self realisation filename -> on_disk s filename ->
  generate_and_save_cmb_realisation o self realisation false s = (Done tt, s).
Proof.
  intros (cmb_template & Htemplate & Hname) Hpresent.
  unfold generate_and_save_cmb_realisation. run.
  rewrite Htemplate. simpl. rewrite Hname. simpl.
  by rewrite bool_decide_eq_true_2.
Qed.

Lemma generate_and_save_cmb_realisation_made (realisation : Z) (overwrite : bool)
    (s s' : sys) :
  generate_and_save_cmb_realisation o self realisation overwrite s = (Done tt, s') ->
  exists filename, cmb_file o self realisation filename /\ on_disk s' filename.
Proof.
  intros Hrun.
  pose proof (generate_and_save_cmb_realisation_run o self realisation overwrite s) as Hgen.
  rewrite Hrun in Hgen. simpl in Hgen.
  inversion Hgen as [| |filename Hfile Hpresent Hov| | | | |
                     |filename cl data Hfile Hfree Hcl Hmap Hw]; subst.
  - by exists filename.
  - exists filename. split; [done|apply on_disk_put].
Qed.

Lemma realisation_of_settles (i : nat) (s s' : sys) :
  realisation_of o self i s = (Done tt, s') -> realisation_made o self i s'.
Proof.
  unfold realisation_of, realisation_made.
  intros ([] & s1 & Hgen & Hnoise)%bind_Done_inv.
  apply generate_and_save_cmb_realisation_made in Hgen as (filename & Hfile & Hpresent).
  split.
  - exists filename. split; [done|].
    case_decide; [case_decide|]; try (by injection Hnoise as <-).
    revert Hpresent. replace s' with (for_each
      (fun frequency => download_foreground_component o self "noise" frequency
                          (Some (Z.of_nat i + start_realisation self)%Z))
      (frequencies self) s1).2 by by rewrite Hnoise.
    apply (steps_for_each kept). intros f _ s2.
    apply download_foreground_component_kept.
  - intros Hin Hearly. rewrite decide_True in Hnoise by done.
    rewrite decide_False in Hnoise by lia.
    apply (for_each_settles kept
             (fun frequency => fetched o self "noise" frequency
                                 (Some (Z.of_nat i + start_realisation self)%Z)) _ _
             (fun f _ s2 => download_foreground_component_kept o self "noise" f _ s2)
             (fun f s2 s3 _ => download_foreground_component_fetched "noise" f _ s2 s3)
             (fun f => fetched_kept "noise" f _) s1 s' Hnoise).
Qed.

Lemma realisation_of_quiet (i : nat) (s : sys) :
  overwrite self = false -> realisation_made o self i s ->
  realisation_of o self i s = (Done tt, s).
Proof.
  intros Hov [(filename & Hfile & Hpresent) Hnoise]. unfold realisation_of.
  rewrite (bind_Done _ _ s s tt)
    by (rewrite Hov; by apply (generate_and_save_cmb_realisation_skip _ filename)).
  case_decide as Hin; [|done]. case_decide as Hlate; [done|].
  apply for_each_quiet. intros f Hf. apply download_foreground_component_skip.
  apply Hnoise; [done|lia|done].
Qed.

Lemma realisation_made_kept (i : nat) (s s' : sys) :
  realisation_made o self i s -> kept s s' -> realisation_made o self i s'.
Proof.
  intros [(filename & Hfile & Hpresent) Hnoise] Hkept. split.
  - exists filename. split; [done|]. by apply Hkept.
  - intros Hin Hearly f Hf. eapply fetched_kept; [by apply Hnoise|done].
Qed.

(** What a run that returned has left behind. *)
Lemma download_all_settles (s s' : sys) :
  download_all o self s = (Done tt, s') ->
  (forall component, component ∈ components self ->
     foregrounds_fetched o self component s') /\
  on_disk s' (theory_path self) /\
  (forall i, i ∈ seq 0 (Z.to_nat (realisations self)) -> realisation_made o self i s').
Proof.
  unfold download_all.
  intros ([] & s1 & Hfore & ([] & s2 & Hspectrum & Hreal)%bind_Done_inv)%bind_Done_inv.
  assert (H12 : kept s1 s2).
  { replace s2 with (download_cmb_spectrum o self s1).2 by by rewrite Hspectrum.
    apply download_cmb_spectrum_kept. }
  assert (H23 : kept s2 s').
  { replace s' with (for_each (realisation_of o self)
                       (seq 0 (Z.to_nat (realisations self))) s2).2 by by rewrite Hreal.
    apply (steps_for_each kept). intros i _ s3. apply realisation_of_kept. }
  split; [|split].
  - intros c Hc. apply (foregrounds_fetched_kept c s1); [|by transitivity s2].
    apply (for_each_settles kept (foregrounds_fetched o self) _ _
             (fun c _ s3 => foregrounds_of_kept o self c s3)
             (fun c s3 s4 _ => foregrounds_of_settles c s3 s4)
             foregrounds_fetched_kept s s1 Hfore c Hc).
  - apply H23.
    pose proof (download_cmb_spectrum_run o self s1) as Hrun.
    rewrite Hspectrum in Hrun. simpl in Hrun.
    inversion Hrun; subst; [done|apply on_disk_put].
  - apply (for_each_settles kept (realisation_made o self) _ _
             (fun i _ s3 => realisation_of_kept o self i s3)
             (fun i s3 s4 _ => realisation_of_settles i s3 s4)
             realisation_made_kept s2 s' Hreal).
Qed.

Lemma download_all_quiet (s : sys) :
  overwrite self = false ->
  (forall component, component ∈ components self ->
     foregrounds_fetched o self component s) ->
  on_disk s (theory_path self) ->
  (forall i, i ∈ seq 0 (Z.to_nat (realisations self)) -> realisation_made o self i s) ->
  download_all o self s = (Done tt, s).
Proof.
  intros Hov Hfore Htheory Hreal. unfold download_all.
  rewrite (bind_Done _ _ s s tt).
  2: { apply for_each_quiet. intros c Hc. by apply foregrounds_of_quiet, Hfore. }
  rewrite (bind_Done _ _ s s tt) by by apply download_cmb_spectrum_skip.
  apply for_each_quiet. intros i Hi. by apply realisation_of_quiet, Hreal.
Qed.
Lemma generate_requested (realisation : Z) (overwrite : bool) (s s' : sys)
    (res : outcome unit) :
  generate o self realisation overwrite s res s' -> requested s' = requested s.
Proof. by destruct 1. Qed.

(** From a state that has what a run leaves behind, a run asks nothing
    of the network. *)
Lemma download_all_silent (s0 : sys) :
  (forall component, component ∈ components self ->
     foregrounds_fetched o self component s0) ->
  on_disk s0 (theory_path self) ->
  (forall i, i ∈ seq 0 (Z.to_nat (realisations self)) -> realisation_made o self i s0) ->
  forall s, kept s0 s ->
    requested (download_all o self s).2 = requested s.
Proof.
  intros Hfore Htheory Hreal s Hs.
  set (I := fun t : sys => kept s0 t /\ requested t = requested s).
  assert (Hrun : triple I (download_all o self) (fun _ => I) (fun _ => I)).
  { unfold download_all. apply (triple_bind _ _ _ (fun _ => I)).
    - apply triple_for_each. intros c Hc t [Ht Hlog].
      rewrite foregrounds_of_quiet; [done|].
      apply (foregrounds_fetched_kept c s0); [by apply Hfore|done].
    - intros []. apply (triple_bind _ _ _ (fun _ => I)).
      + intros t [Ht Hlog]. rewrite download_cmb_spectrum_skip by by apply Ht. done.
      + intros []. apply triple_for_each. intros i Hi.
        unfold realisation_of. apply (triple_bind _ _ _ (fun _ => I)).
        * intros t [Ht Hlog].
          pose proof (generate_and_save_cmb_realisation_run o self
                        (Z.of_nat i + start_realisation self) (overwrite self) t) as Hgen.
          assert (HI : I (generate_and_save_cmb_realisation o self
                            (Z.of_nat i + start_realisation self) (overwrite self) t).2).
          { split.
            - transitivity t; [done|]. by eapply generate_kept.
            - by rewrite (generate_requested _ _ _ _ _ Hgen). }
          by destruct (generate_and_save_cmb_realisation o self _ _ t).1.
        * intros [] t [Ht Hlog].
          case_decide as Hin; [|done]. case_decide as Hlate; [done|].
          rewrite for_each_quiet; [done|].
          intros f Hf. apply download_foreground_component_skip.
          apply (fetched_kept "noise" f _ s0); [|done].
          destruct (Hreal i Hi) as [_ Hnoise]. apply Hnoise; [done|lia|done]. }
  specialize (Hrun s (conj Hs eq_refl)).
  by destruct (download_all o self s).1; destruct Hrun.
Qed.
End again_facts.

(** A run of [download_all] that returned need not be made again.  The
    same run from the state it reached, or from any state that has the
    files of that state, asks nothing of the network; and without
    [overwrite] it returns at once, with no draw and no change to any
    file. *)
Theorem download_all_again (o : Outside) (self : DownloadData) (s s' s'' : sys) :
  download_all o self s = (Done tt, s') ->
  kept s' s'' ->
  requested (download_all o self s'').2 = requested s'' /\
  (overwrite self = false -> download_all o self s'' = (Done tt, s'')).
Proof.
  intros (Hfore & Htheory & Hreal)%download_all_settles Hkept. split.
  - by apply (download_all_silent o self s').
  - intros Hov. apply download_all_quiet; [done| | |].
    + intros c Hc. apply (foregrounds_fetched_kept o self c s'); [by apply Hfore|done].
    + by apply Hkept.
    + intros i Hi. apply (realisation_made_kept o self i s'); [by apply Hreal|done].
Qed.

Lemma download_all_again_witness :
  exists s',
    download_all sample_outside (sample_downloader ["sync"; "cmb"; "noise"] 2) empty_sys
    = (Done tt, s') /\
    requested s'
    = ["http://pla/sync/030_None"; "http://pla/sync/044_None"; planck_url;
       "http://pla/noise/030_299"; "http://pla/noise/044_299"] /\
    draws s' = 2 /\
    requested (download_all sample_outside (sample_downloader ["sync"; "cmb"; "noise"] 2)
                 s').2 = requested s' /\
    download_all sample_outside (sample_downloader ["sync"; "cmb"; "noise"] 2) s'
    = (Done tt, s').
Proof.
  eexists. split; [vm_compute; reflexivity|]. split; [reflexivity|]. split; [reflexivity|].
  pose proof (download_all_again sample_outside
                (sample_downloader ["sync"; "cmb"; "noise"] 2) empty_sys _ _
                eq_refl (fun path H => H)) as [Hsilent Hquiet].
  split; [exact Hsilent|exact (Hquiet eq_refl)].
Defined.
